(** * missing-minutes: a single-file iCal server (main.go)

    A shallow embedding of the request handlers of [main.go] and of the
    library routines they call, followed by the properties of the
    routing, ownership and storage model.

    Conventions of the model.
    - A Go [string] / [[]byte] is a Rocq [string] (a sequence of 8-bit
      characters); [+:+] is concatenation.
    - Paths follow the Unix build of [path/filepath]: the only separator
      is the slash and there are no volume names.
    - The file system is a finite map from cleaned path names to nodes.
      A name is resolved element by element, as Linux does it. The
      failures of the model are those a request alone can cause: a
      missing name (ENOENT), a file where a directory is needed
      (ENOTDIR), a directory where a file is needed (EISDIR), an
      existing name (EEXIST), a path element longer than 255 bytes or a
      name of 4096 bytes or more (ENAMETOOLONG), a NUL byte in a name
      (EINVAL). Permissions, quotas, symbolic links and timestamps are
      not modelled.
    - A request carries its method, URL path, raw query string, the
      decoded Basic credentials, the value stored under the context key
      "user" and its body. It has no other header fields: requests with
      conditional or range headers are not part of the model.
    - The file server of [net/http] is the one of Go 1.20 and later.
      One point differs between releases and is a parameter of the
      model: since Go 1.23 [http.Dir.Open] passes the file part of a
      name through [filepath.Localize], which refuses a name that is
      not valid UTF-8; before, it refuses a NUL byte only. *)

From stdpp Require Import gmap strings list fin_maps.
From Stdlib Require Import Ascii DecimalString.

Local Open Scope string_scope.

#[local] Arguments String.append _ _ : simpl nomatch.

(* ===================================================================== *)
(** ** Package [strings] *)
(* ===================================================================== *)

Module strings.

(** [strings.HasSuffix(s, suffix)]:
    [len(s) >= len(suffix) && s[len(s)-len(suffix):] == suffix]. *)
Definition HasSuffix (s suffix : string) : bool :=
  (String.length suffix <=? String.length s)%nat &&
  String.eqb
    (String.substring (String.length s - String.length suffix)
               (String.length suffix) s)
    suffix.

(** Membership of a byte in a cutset. *)
Fixpoint inCutset (c : ascii) (cutset : string) : bool :=
  match cutset with
  | EmptyString => false
  | String d rest => Ascii.eqb c d || inCutset c rest
  end.

(** [strings.TrimLeft(s, cutset)]. *)
Fixpoint TrimLeft (s cutset : string) : string :=
  match s with
  | EmptyString => EmptyString
  | String c s' => if inCutset c cutset then TrimLeft s' cutset else s
  end.

(** [strings.TrimRight(s, cutset)]. *)
Fixpoint TrimRight (s cutset : string) : string :=
  match s with
  | EmptyString => EmptyString
  | String c s' =>
      match TrimRight s' cutset with
      | EmptyString => if inCutset c cutset then EmptyString
                       else String c EmptyString
      | t => String c t
      end
  end.

(** [strings.Trim(s, cutset)]: all leading and trailing bytes contained
    in [cutset] removed. *)
Definition Trim (s cutset : string) : string :=
  TrimRight (TrimLeft s cutset) cutset.

(** [strings.Split(s, sep)] for a one-byte separator: the substrings
    between the separators; never an empty slice. *)
Fixpoint Split (s : string) (sep : ascii) : list string :=
  match s with
  | EmptyString => [EmptyString]
  | String c s' =>
      if Ascii.eqb c sep then EmptyString :: Split s' sep
      else match Split s' sep with
           | h :: t => String c h :: t
           | [] => [String c EmptyString]
           end
  end.

(** [strings.Join(elems, sep)]. *)
Definition Join (elems : list string) (sep : string) : string :=
  String.concat sep elems.

(** [strings.FieldsFunc(s, f)]: the maximal runs of bytes not satisfying
    [f]; no empty fields. *)
Fixpoint FieldsFunc (s : string) (f : ascii -> bool) : list string :=
  match s with
  | EmptyString => []
  | String c s' =>
      if f c then FieldsFunc s' f
      else match s' with
           | EmptyString => [String c EmptyString]
           | String d _ =>
               if f d then String c EmptyString :: FieldsFunc s' f
               else match FieldsFunc s' f with
                    | h :: t => String c h :: t
                    | [] => [String c EmptyString]
                    end
           end
  end.

(** [strings.Contains(s, substr)]. *)
Fixpoint Contains (s substr : string) : bool :=
  String.prefix substr s ||
  match s with
  | EmptyString => false
  | String _ s' => Contains s' substr
  end.

End strings.

(* ===================================================================== *)
(** ** Package [path/filepath] (Unix) *)
(* ===================================================================== *)

Module filepath.

Definition Separator : ascii := "/"%char.

Definition IsPathSeparator (c : ascii) : bool := Ascii.eqb c Separator.

Definition rooted (path : string) : bool :=
  match path with
  | String c _ => IsPathSeparator c
  | EmptyString => false
  end.

(** One step of [Clean]'s scan, on whole path elements. [out] holds the
    elements written so far, last one first.
    - an empty element or [.] is dropped;
    - [..] removes the last element written when there is one that may be
      removed; at the start of a rooted path it is dropped; at the start
      of a relative path (or after other leading [..]) it is kept;
    - any other element is appended. *)
Definition cleanStep (isRooted : bool) (out : list string) (elem : string)
  : list string :=
  if decide (elem = "" \/ elem = ".") then out
  else if decide (elem = "..") then
    match out with
    | top :: below =>
        if decide (top = "..") then elem :: out else below
    | [] => if isRooted then [] else [elem]
    end
  else elem :: out.

Definition cleanElems (isRooted : bool) (elems : list string) : list string :=
  rev (fold_left (cleanStep isRooted) elems []).

(** [filepath.Clean(path)]: the shortest path name equivalent to [path]
    by purely lexical processing. The empty path becomes [.]; a rooted
    path keeps its leading separator. *)
Definition Clean (path : string) : string :=
  if decide (path = "") then "."
  else
    let elems := cleanElems (rooted path) (strings.Split path Separator) in
    if rooted path then "/" +:+ strings.Join elems "/"
    else match elems with
         | [] => "."
         | _ => strings.Join elems "/"
         end.

(** [filepath.Join(elem...)]: empty elements before the first non-empty
    one are ignored, the rest is joined with separators and cleaned. *)
Fixpoint Join (elem : list string) : string :=
  match elem with
  | [] => ""
  | e :: rest =>
      if decide (e = "") then Join rest
      else Clean (strings.Join elem "/")
  end.

(** The part of [path] up to and including its last separator. *)
Definition dirPart (path : string) : string :=
  match removelast (strings.Split path Separator) with
  | [] => ""
  | ds => strings.Join ds "/" +:+ "/"
  end.

(** [filepath.Dir(path)]: all but the last element of [path], cleaned. *)
Definition Dir (path : string) : string := Clean (dirPart path).

End filepath.

(* ===================================================================== *)
(** ** Package [unicode/utf8] *)
(* ===================================================================== *)

Module utf8.

(** The byte [c] lies between [lo] and [hi]. *)
Definition between (lo hi : nat) (c : ascii) : bool :=
  (lo <=? nat_of_ascii c)%nat && (nat_of_ascii c <=? hi)%nat.

(** A continuation byte. *)
Definition continues (c : ascii) : bool := between 128 191 c.

(** [utf8.ValidString(s)]: [s] consists entirely of valid UTF-8
    encodings: one byte below 0x80; a lead byte 0xC2-0xDF, 0xE0-0xEF or
    0xF0-0xF4 followed by one, two or three continuation bytes, the
    first of which is restricted after 0xE0, 0xED, 0xF0 and 0xF4 so
    that overlong forms, surrogates and values above U+10FFFF are
    excluded. *)
Fixpoint ValidString (s : string) : bool :=
  match s with
  | EmptyString => true
  | String c0 s1 =>
      if between 0 127 c0 then ValidString s1
      else
        match s1 with
        | EmptyString => false
        | String c1 s2 =>
            if between 194 223 c0 then continues c1 && ValidString s2
            else
              match s2 with
              | EmptyString => false
              | String c2 s3 =>
                  if between 224 239 c0 then
                    (if between 224 224 c0 then between 160 191 c1
                     else if between 237 237 c0 then between 128 159 c1
                     else continues c1)
                    && continues c2 && ValidString s3
                  else
                    match s3 with
                    | EmptyString => false
                    | String c3 s4 =>
                        if between 240 244 c0 then
                          (if between 240 240 c0 then between 144 191 c1
                           else if between 244 244 c0 then between 128 143 c1
                           else continues c1)
                          && continues c2 && continues c3 && ValidString s4
                        else false
                    end
              end
        end
  end.

End utf8.

(** [path.Base(p)]: the last element of [p], trailing slashes removed
    first. *)
Definition path_Base (p : string) : string :=
  if decide (p = "") then "."
  else
    let q := strings.TrimRight p "/" in
    if decide (q = "") then "/"
    else List.last (strings.Split q "/"%char) "".

(* ===================================================================== *)
(** ** Package [os]: the file system *)
(* ===================================================================== *)

Module os.

Inductive node : Type :=
  | File (data : string)
  | Directory.

#[export] Instance node_eq_dec : EqDecision node.
Proof. solve_decision. Defined.

(** The error numbers of the model. *)
Inductive errno : Type :=
  | ENOENT
  | ENOTDIR
  | EISDIR
  | EEXIST
  | ENAMETOOLONG
  | EINVAL.

#[export] Instance errno_eq_dec : EqDecision errno.
Proof. solve_decision. Defined.

(** The limits of Linux on the length of a path element and of a whole
    path name. *)
Definition NAME_MAX : nat := 255.
Definition PATH_MAX : nat := 4096.

Definition hasNUL (name : string) : bool := strings.inCutset "000"%char name.

(** What is refused before the tree is looked at: a name with a NUL
    byte (by package syscall), the empty name, and a name of [PATH_MAX]
    bytes or more (by the kernel). *)
Definition nameError (name : string) : option errno :=
  if hasNUL name then Some EINVAL
  else if decide (name = "") then Some ENOENT
  else if (PATH_MAX <=? String.length name)%nat then Some ENAMETOOLONG
  else None.

(** The node stored under a name. The working directory [.] and the
    root always exist; the empty name is the root as the first element
    of a rooted path. *)
Definition entry (fs : gmap string node) (name : string) : option node :=
  if decide (name = "" \/ name = "." \/ name = "/") then Some Directory
  else fs !! name.

(** The walk of the kernel along the elements of a path, last element
    first: every element but the last must be a directory, and each is
    looked up in the directory before it. *)
Fixpoint walk (fs : gmap string node) (revElems : list string)
  : node + errno :=
  match revElems with
  | [] => inl Directory
  | e :: parent =>
      match walk fs parent with
      | inr err => inr err
      | inl (File _) => inr ENOTDIR
      | inl Directory =>
          if (NAME_MAX <? String.length e)%nat then inr ENAMETOOLONG
          else match entry fs (strings.Join (rev revElems) "/") with
               | None => inr ENOENT
               | Some n => inl n
               end
      end
  end.

(** The resolution of a cleaned [name] up to its last element: an
    error, or what is found under the name in its directory, if
    anything. *)
Definition resolve (fs : gmap string node) (name : string)
  : option node + errno :=
  match nameError name with
  | Some err => inr err
  | None =>
      match rev (strings.Split name filepath.Separator) with
      | [] => inr ENOENT
      | e :: parent =>
          match walk fs parent with
          | inr err => inr err
          | inl (File _) => inr ENOTDIR
          | inl Directory =>
              if (NAME_MAX <? String.length e)%nat then inr ENAMETOOLONG
              else inl (entry fs name)
          end
      end
  end.

(** [os.Stat(name)]: the node, or the error number of the
    [*PathError]. *)
Definition Stat (fs : gmap string node) (name : string) : node + errno :=
  match resolve fs name with
  | inr err => inr err
  | inl None => inr ENOENT
  | inl (Some n) => inl n
  end.

(** [os.IsNotExist(err)] for the error of [os.Stat]. *)
Definition IsNotExist (st : node + errno) : bool :=
  match st with
  | inr ENOENT => true
  | _ => false
  end.

(** [os.Mkdir(name, perm)]: fails when [name] exists or when its parent
    is not an existing directory. *)
Definition Mkdir (fs : gmap string node) (name : string)
  : gmap string node + errno :=
  match resolve fs name with
  | inr err => inr err
  | inl (Some _) => inr EEXIST
  | inl None => inl (<[name := Directory]> fs)
  end.

(** The recursion of [os.MkdirAll] on the elements of the path, last
    element first: an existing directory ends it with success, an
    existing file with an error; after any other error of [Stat] the
    parent is created first and [Mkdir] is called for the path itself;
    when that fails, the path is looked at once more. The result is the
    file system left, with the directories created so far, and the
    error if there is one. *)
Fixpoint mkdirAll (fs : gmap string node) (revElems : list string)
  : gmap string node * option errno :=
  match revElems with
  | [] => (fs, None)
  | _ :: parent =>
      let name := strings.Join (rev revElems) "/" in
      match Stat fs name with
      | inl Directory => (fs, None)
      | inl (File _) => (fs, Some ENOTDIR)
      | inr _ =>
          match mkdirAll fs parent with
          | (fs1, Some err) => (fs1, Some err)
          | (fs1, None) =>
              match Mkdir fs1 name with
              | inl fs2 => (fs2, None)
              | inr err =>
                  match Stat fs1 name with
                  | inl Directory => (fs1, None)
                  | _ => (fs1, Some err)
                  end
              end
          end
      end
  end.

(** [os.MkdirAll(path, perm)] for a cleaned [path]. *)
Definition MkdirAll (fs : gmap string node) (path : string)
  : gmap string node * option errno :=
  mkdirAll fs (rev (strings.Split path filepath.Separator)).

(** [os.WriteFile(name, data, perm)]: create or truncate, then write all
    of [data]. Fails on a directory and when the name cannot be resolved
    or created. *)
Definition WriteFile (fs : gmap string node) (name data : string)
  : option (gmap string node) :=
  match resolve fs name with
  | inr _ => None
  | inl (Some Directory) => None
  | inl _ => Some (<[name := File data]> fs)
  end.

End os.

(* ===================================================================== *)
(** ** Package [net/http] *)
(* ===================================================================== *)

Module http.

Definition MethodGet : string := "GET".
Definition MethodHead : string := "HEAD".
Definition MethodPut : string := "PUT".

Definition StatusOK : nat := 200.
Definition StatusNoContent : nat := 204.
Definition StatusMovedPermanently : nat := 301.
Definition StatusBadRequest : nat := 400.
Definition StatusUnauthorized : nat := 401.
Definition StatusForbidden : nat := 403.
Definition StatusNotFound : nat := 404.
Definition StatusMethodNotAllowed : nat := 405.
Definition StatusInternalServerError : nat := 500.

(** The parts of [*http.Request] the handlers and the file server read.
    [URLPath] is [r.URL.Path] and [RawQuery] is [r.URL.RawQuery].
    [BasicAuth] is the result of [r.BasicAuth()]: the decoded user name
    and password, or [None] when the header is missing or malformed.
    [Context] holds the string values attached to the request's
    context. *)
Record Request : Type := {
  Method : string;
  URLPath : string;
  RawQuery : string;
  BasicAuth : option (string * string);
  Context : gmap string string;
  Body : string
}.

(** [r.WithContext(context.WithValue(r.Context(), key, val))]. *)
Definition WithValue (r : Request) (key val : string) : Request :=
  {| Method := Method r; URLPath := URLPath r; RawQuery := RawQuery r;
     BasicAuth := BasicAuth r;
     Context := <[key := val]> (Context r); Body := Body r |}.

(** The same request carrying other credentials. *)
Definition withBasicAuth (r : Request) (cred : option (string * string))
  : Request :=
  {| Method := Method r; URLPath := URLPath r; RawQuery := RawQuery r;
     BasicAuth := cred;
     Context := Context r; Body := Body r |}.

(** The state of an [http.ResponseWriter]: the header map, the status
    code once written, and the bytes written to the body. *)
Record ResponseWriter : Type := {
  Header : gmap string string;
  Status : option nat;
  Written : string
}.

Definition newResponseWriter : ResponseWriter :=
  {| Header := ∅; Status := None; Written := "" |}.

Definition HeaderSet (key val : string) (w : ResponseWriter) : ResponseWriter :=
  {| Header := <[key := val]> (Header w); Status := Status w;
     Written := Written w |}.

Definition HeaderDel (key : string) (w : ResponseWriter) : ResponseWriter :=
  {| Header := delete key (Header w); Status := Status w;
     Written := Written w |}.

(** [w.WriteHeader(code)]: only the first call counts. *)
Definition WriteHeader (code : nat) (w : ResponseWriter) : ResponseWriter :=
  match Status w with
  | Some _ => w
  | None => {| Header := Header w; Status := Some code; Written := Written w |}
  end.

(** [w.Write(data)]: writes status 200 first when none was written. *)
Definition Write (data : string) (w : ResponseWriter) : ResponseWriter :=
  let w1 := WriteHeader StatusOK w in
  {| Header := Header w1; Status := Status w1;
     Written := Written w1 +:+ data |}.

Definition newline : string := String "010"%char EmptyString.

(** [http.Error(w, error, code)]. *)
Definition Error (w : ResponseWriter) (error : string) (code : nat)
  : ResponseWriter :=
  let w := HeaderDel "Content-Length" w in
  let w := HeaderSet "Content-Type" "text/plain; charset=utf-8" w in
  let w := HeaderSet "X-Content-Type-Options" "nosniff" w in
  let w := WriteHeader code w in
  Write (error +:+ newline) w.

(** [http.NotFound(w, r)]. *)
Definition NotFound (w : ResponseWriter) (r : Request) : ResponseWriter :=
  Error w "404 page not found" StatusNotFound.

Definition isSlashRune (c : ascii) : bool :=
  Ascii.eqb c "/"%char || Ascii.eqb c "\"%char.

(** [containsDotDot(v)]: some element of [v], split at slashes and
    backslashes, is [..]. *)
Definition containsDotDot (v : string) : bool :=
  if negb (strings.Contains v "..") then false
  else existsb (fun ent => String.eqb ent "..")
               (strings.FieldsFunc v isSlashRune).

(** [serveError(w, text, code)]: drops the headers that described the
    content that is not going to be sent, then [Error]. *)
Definition serveError (w : ResponseWriter) (text : string) (code : nat)
  : ResponseWriter :=
  let w := HeaderDel "Cache-Control" w in
  let w := HeaderDel "Content-Encoding" w in
  let w := HeaderDel "Etag" w in
  let w := HeaderDel "Last-Modified" w in
  Error w text code.

(** [localRedirect(w, r, newPath)]: the redirection keeps the query
    string of the request. *)
Definition localRedirect (w : ResponseWriter) (r : Request) (newPath : string)
  : ResponseWriter :=
  let newPath :=
    if decide (RawQuery r = "") then newPath
    else newPath +:+ "?" +:+ RawQuery r in
  WriteHeader StatusMovedPermanently (HeaderSet "Location" newPath w).

(** The errors of [Open]: the one made for a name the file server
    refuses, and a [*fs.PathError] of package os. *)
Inductive openError : Type :=
  | ErrInvalidPath
  | ErrPath (err : os.errno).

(** [toHTTPError(err)]: the text and status for an error of [Open]. *)
Definition toHTTPError (err : openError) : string * nat :=
  match err with
  | ErrPath os.ENOENT => ("404 page not found", StatusNotFound)
  | _ => ("500 Internal Server Error", StatusInternalServerError)
  end.

(** [fs.ValidPath(name)]: valid UTF-8, and either [.] or a sequence of
    elements none of which is empty, [.] or [..]. *)
Definition ValidPath (name : string) : bool :=
  utf8.ValidString name &&
  (String.eqb name "." ||
   forallb (fun elem => negb (String.eqb elem "" || String.eqb elem "."
                              || String.eqb elem ".."))
           (strings.Split name "/"%char)).

(** The check [http.Dir.Open] makes on the name it is given. Since Go
    1.23 it is [filepath.Localize], which wants a valid path without NUL
    byte; in the releases before ([safefilepath.FromFS]) only the NUL
    byte is refused. [validates] tells which of the two the file server
    does. *)
Definition Localize (validates : bool) (path : string) : bool :=
  (negb validates || ValidPath path) && negb (os.hasNUL path).

(** The names [strings.Join(parts[:i+1], sep)] that [mapOpenError]
    looks at, one for each part that is not empty. *)
Fixpoint leadingNames (before parts : list string) : list string :=
  match parts with
  | [] => []
  | part :: rest =>
      let upto := (before ++ [part])%list in
      ((if decide (part = "") then [] else [strings.Join upto "/"])
         ++ leadingNames upto rest)%list
  end.

Fixpoint mapOpenErrorLoop (fs : gmap string os.node) (originalErr : os.errno)
    (names : list string) : os.errno :=
  match names with
  | [] => originalErr
  | name :: rest =>
      match os.Stat fs name with
      | inr _ => originalErr
      | inl (os.File _) => os.ENOENT
      | inl os.Directory => mapOpenErrorLoop fs originalErr rest
      end
  end.

(** [mapOpenError(originalErr, name, sep, os.Stat)]: an error other
    than not-exist becomes not-exist when some leading part of [name]
    is not a directory. *)
Definition mapOpenError (fs : gmap string os.node) (originalErr : os.errno)
    (name : string) : os.errno :=
  match originalErr with
  | os.ENOENT => originalErr
  | _ =>
      mapOpenErrorLoop fs originalErr
        (leadingNames [] (strings.Split name filepath.Separator))
  end.

(** The file part of a cleaned name, as [filepath.Split] and
    [FileInfo.Name] give it. *)
Definition fileName (name : string) : string :=
  List.last (strings.Split name filepath.Separator) "".

(** [http.Dir(dir).Open(file)] for the directory and file parts of a
    cleaned [name] whose file part is a plain element, followed by
    [f.Stat()]. The file part must pass the name check; then the file
    is opened under the name [filepath.Join(dir, file)], which is
    [name]. *)
Definition DirOpen (validates : bool) (fs : gmap string os.node)
    (name : string) : os.node + openError :=
  if negb (Localize validates (fileName name)) then inr ErrInvalidPath
  else
    match os.Stat fs name with
    | inr err => inr (ErrPath (mapOpenError fs err name))
    | inl n => inl n
    end.

Definition lastIsSlash (s : string) : bool := strings.HasSuffix s "/".

Section FileServer.

(** Whether the file server validates the names it opens, as it does
    since Go 1.23. *)
Variable validatesNames : bool.

(** Two behaviours of the library are left abstract: the media type
    chosen for content whose [Content-Type] the handler did not set
    (by file extension or content sniffing), and the page produced for a
    directory requested with a trailing slash (its index page or a
    listing), which may depend on the file system, the name and the
    request method. *)
Variable detectContentType : string -> string -> string.
Variable serveDirectory :
  gmap string os.node -> string -> string -> ResponseWriter -> ResponseWriter.

(** [serveContent(w, r, name, modtime, sizeFunc, content)]. The request
    type has no conditional or range headers, so [checkPreconditions]
    and [parseRange] find nothing to do: a [Content-Type] already set is
    kept, the length is announced, status 200 is written, and the whole
    content is sent unless the method is HEAD. The [Last-Modified]
    header is left out, as the model has no timestamps. *)
Definition serveContent (w : ResponseWriter) (r : Request)
    (name content : string) : ResponseWriter :=
  let w :=
    match Header w !! "Content-Type" with
    | Some _ => w
    | None => HeaderSet "Content-Type" (detectContentType name content) w
    end in
  let w := HeaderSet "Accept-Ranges" "bytes" w in
  let w :=
    match Header w !! "Content-Encoding" with
    | Some _ => w
    | None =>
        HeaderSet "Content-Length"
          (NilEmpty.string_of_uint (Nat.to_uint (String.length content))) w
    end in
  let w := WriteHeader StatusOK w in
  if decide (Method r = MethodHead) then w else Write content w.

(** [http.ServeFile(w, r, name)]. A request whose URL path has a [..]
    element is rejected; one ending in [/index.html] is redirected; an
    error of [Open] is answered 404 or 500; a directory requested
    without trailing slash is redirected; a file is sent. *)
Definition ServeFile (fs : gmap string os.node) (w : ResponseWriter)
    (r : Request) (name : string) : ResponseWriter :=
  if containsDotDot (URLPath r) then
    serveError w "invalid URL path" StatusBadRequest
  else if strings.HasSuffix (URLPath r) "/index.html" then
    localRedirect w r "./"
  else
    match DirOpen validatesNames fs name with
    | inr err => serveError w (toHTTPError err).1 (toHTTPError err).2
    | inl os.Directory =>
        if negb (lastIsSlash (URLPath r)) then
          localRedirect w r (path_Base (URLPath r) +:+ "/")
        else serveDirectory fs name (Method r) w
    | inl (os.File content) => serveContent w r (fileName name) content
    end.

End FileServer.

End http.

(* ===================================================================== *)
(** ** main.go *)
(* ===================================================================== *)

(** [dataDir] is the directory where all calendar files are stored. *)
Definition dataDir : string := "calendars".

(** A handler transforms the response writer and the file system. *)
Definition HandlerFunc : Type :=
  http.ResponseWriter -> http.Request -> gmap string os.node ->
  http.ResponseWriter * gmap string os.node.

Definition challenge : string :=
  "Basic realm=" +:+ String "034"%char "Restricted" +:+ String "034"%char "".

Section Server.

(** [users] is populated from the users.json file before the server
    starts and is never written afterwards. *)
Variable users : gmap string string.

Variable validatesNames : bool.
Variable detectContentType : string -> string -> string.
Variable serveDirectory :
  gmap string os.node -> string -> string -> http.ResponseWriter ->
  http.ResponseWriter.

Definition ServeFile := http.ServeFile validatesNames detectContentType serveDirectory.

(** The storage location both handlers compute from the URL path:
    [filepath.Join(dataDir, filepath.Clean(path))]. *)
Definition filePathOf (path : string) : string :=
  filepath.Join [dataDir; filepath.Clean path].

(** [handleGetCalendar] serves a calendar file to the client. This is a
    public endpoint and requires no authentication. *)
Definition handleGetCalendar : HandlerFunc := fun w r fs =>
  let path := http.URLPath r in
  if negb (strings.HasSuffix path ".ics") then (http.NotFound w r, fs)
  else
    let filePath := filepath.Join [dataDir; filepath.Clean path] in
    if os.IsNotExist (os.Stat fs filePath) then (http.NotFound w r, fs)
    else
      let w := http.HeaderSet "Content-Type" "text/calendar; charset=utf-8" w in
      (ServeFile fs w r filePath, fs).

(** [handlePutCalendar] creates or updates a calendar file. It assumes
    authentication has already been handled by middleware. The request
    body is already in memory, so reading it does not fail; log output
    is left out. *)
Definition handlePutCalendar : HandlerFunc := fun w r fs =>
  let path := http.URLPath r in
  if negb (strings.HasSuffix path ".ics") then
    (http.Error w "Invalid path. Must end with .ics" http.StatusBadRequest, fs)
  else
    let parts := strings.Split (strings.Trim path "/") "/"%char in
    if (length parts <? 2)%nat then
      (http.Error w "Invalid path format. Expected /{username}/{calendar}.ics"
         http.StatusBadRequest, fs)
    else
      let ctxValue := http.Context r !! "user" in
      let ok := bool_decide (is_Some ctxValue) in
      let authUser := default "" ctxValue in
      if negb ok || negb (String.eqb authUser (nth 0 parts "")) then
        (http.Error w "Forbidden. You can only edit your own calendars."
           http.StatusForbidden, fs)
      else
        let filePath := filepath.Join [dataDir; filepath.Clean path] in
        let dir := filepath.Dir filePath in
        match os.MkdirAll fs dir with
        | (fs1, Some _) =>
            (http.Error w "Internal Server Error"
               http.StatusInternalServerError, fs1)
        | (fs1, None) =>
            let body := http.Body r in
            match os.WriteFile fs1 filePath body with
            | None =>
                (http.Error w "Internal Server Error"
                   http.StatusInternalServerError, fs1)
            | Some fs2 => (http.WriteHeader http.StatusNoContent w, fs2)
            end
        end.

(** [authMiddleware] handles HTTP Basic Authentication and passes the
    user name to [next] through the request context. *)
Definition authMiddleware (next : HandlerFunc) : HandlerFunc := fun w r fs =>
  match http.BasicAuth r with
  | None =>
      let w := http.HeaderSet "WWW-Authenticate" challenge w in
      (http.Error w "Unauthorized" http.StatusUnauthorized, fs)
  | Some (username, password) =>
      let entry := users !! username in
      let userExists := bool_decide (is_Some entry) in
      let expectedPassword := default "" entry in
      if negb userExists || negb (String.eqb expectedPassword password) then
        let w := http.HeaderSet "WWW-Authenticate" challenge w in
        (http.Error w "Unauthorized" http.StatusUnauthorized, fs)
      else next w (http.WithValue r "user" username) fs
  end.

(** [calendarHandler] is the main router: it inspects the request method
    and delegates to the appropriate handler. *)
Definition calendarHandler : HandlerFunc := fun w r fs =>
  if decide (http.Method r = http.MethodGet) then handleGetCalendar w r fs
  else if decide (http.Method r = http.MethodPut) then
    authMiddleware handlePutCalendar w r fs
  else
    (http.Error w "Method Not Allowed" http.StatusMethodNotAllowed, fs).

(** [rootHandler] serves index.html for the root path and delegates
    everything else to [calendarHandler]. *)
Definition rootHandler : HandlerFunc := fun w r fs =>
  if decide (http.URLPath r = "/") then (ServeFile fs w r "index.html", fs)
  else calendarHandler w r fs.

(** The response to a request arriving at the calendar router with a
    fresh response writer, and the file system it leaves. *)
Definition serve (r : http.Request) (fs : gmap string os.node)
  : http.ResponseWriter * gmap string os.node :=
  calendarHandler http.newResponseWriter r fs.

End Server.

(** *** Requests and responses used in the statements *)

Definition GET (path : string) (cred : option (string * string))
  : http.Request :=
  {| http.Method := http.MethodGet; http.URLPath := path;
     http.RawQuery := "";
     http.BasicAuth := cred; http.Context := ∅; http.Body := "" |}.

Definition PUT (path : string) (cred : option (string * string))
    (body : string) : http.Request :=
  {| http.Method := http.MethodPut; http.URLPath := path;
     http.RawQuery := "";
     http.BasicAuth := cred; http.Context := ∅; http.Body := body |}.

Definition HEAD (path : string) : http.Request :=
  {| http.Method := http.MethodHead; http.URLPath := path;
     http.RawQuery := "";
     http.BasicAuth := None; http.Context := ∅; http.Body := "" |}.

(** The URL path of the calendar [name] of [owner]. *)
Definition calendarPath (owner name : string) : string :=
  "/" +:+ owner +:+ "/" +:+ name +:+ ".ics".

(** The parts of the raw request path that the ownership check of
    [handlePutCalendar] looks at. *)
Definition pathParts (path : string) : list string :=
  strings.Split (strings.Trim path "/") "/"%char.

(** The owner segment of a path after normalization: the first element
    of the cleaned path. *)
Definition normalizedOwner (path : string) : string :=
  nth 0 (pathParts (filepath.Clean path)) "".

(** The owner directory a storage location lies in: [o] for a location
    [calendars/o/...], none for a location directly under the root. *)
Definition locationOwner (loc : string) : option string :=
  match strings.Split loc "/"%char with
  | root :: owner :: _ :: _ =>
      if decide (root = dataDir) then Some owner else None
  | _ => None
  end.

(** The name under which the file server opens the document of a
    request path: the file part of the storage location. *)
Definition servedName (path : string) : string :=
  http.fileName (filePathOf path).

(** A credential store, a fresh storage tree and library behaviours for
    the concrete runs below. *)
Definition exampleUsers : gmap string string :=
  <["alice" := "s3cr3t"]> (<["bob" := "hunter2"]> ∅).

Definition exampleStore : gmap string os.node :=
  {[ dataDir := os.Directory ]}.

Definition exampleDetect (name content : string) : string :=
  "application/octet-stream".

Definition exampleDirectory (fs : gmap string os.node) (name : string)
    (method : string) (w : http.ResponseWriter) : http.ResponseWriter :=
  http.Write "<pre></pre>" w.

Definition exampleServe (r : http.Request) (fs : gmap string os.node)
  : http.ResponseWriter * gmap string os.node :=
  serve exampleUsers true exampleDetect exampleDirectory r fs.

Definition aliceCred : option (string * string) := Some ("alice", "s3cr3t").

(** The storage tree in which alice's calendar [work] holds [content]. *)
Definition storeWithWork (content : string) : gmap string os.node :=
  <["calendars/alice/work.ics" := os.File content]>
    (<["calendars/alice" := os.Directory]> exampleStore).

(** The storage tree next to an index page. *)
Definition storeWithIndex : gmap string os.node :=
  <["index.html" := os.File "<p>hi</p>"]> exampleStore.

(** A credential store whose only user name contains a slash. *)
Definition teamUsers : gmap string string := {[ "team/alice" := "pw" ]}.

Module CleanTests.
Import filepath.

Example clean_table :
  map Clean
    [ "abc"; "abc/def"; "a/b/c"; "."; ".."; "../.."; "../../abc"; "/abc"; "/";
      ""; "abc/"; "abc/def/"; "a/b/c/"; "./"; "../"; "../../"; "/abc/";
      "abc//def//ghi"; "abc//"; "abc/./def"; "/./abc/def"; "abc/.";
      "abc/def/ghi/../jkl"; "abc/def/../ghi/../jkl"; "abc/def/.."; "abc/def/../..";
      "/abc/def/../.."; "abc/def/../../.."; "/abc/def/../../..";
      "abc/def/../../../ghi/jkl/../../../mno"; "/../abc";
      "abc/./../def"; "abc//./../def"; "abc/../../././../def" ]
  = [ "abc"; "abc/def"; "a/b/c"; "."; ".."; "../.."; "../../abc"; "/abc"; "/";
      "."; "abc"; "abc/def"; "a/b/c"; "."; ".."; "../.."; "/abc";
      "abc/def/ghi"; "abc"; "abc/def"; "/abc/def"; "abc";
      "abc/def/jkl"; "abc/jkl"; "abc"; ".";
      "/"; ".."; "/";
      "../../mno"; "/abc";
      "def"; "def"; "../../def" ].
Proof. vm_compute. reflexivity. Qed.

Example join_table :
  map Join [ ["a"; "b"]; ["a"; ""]; [""; "b"]; ["/"; "a"]; ["a/"; "b"];
             ["a"; "/b"]; ["calendars"; "/john/work.ics"]; [""; ""] ]
  = [ "a/b"; "a"; "b"; "/a"; "a/b"; "a/b"; "calendars/john/work.ics"; "" ].
Proof. vm_compute. reflexivity. Qed.

Example dir_table :
  map Dir [ ""; "."; "/."; "/"; "/foo"; "x/"; "abc"; "abc/def"; "a/b/.x";
            "a/b/c."; "a/b/c.x" ]
  = [ "."; "."; "/"; "/"; "/"; "x"; "."; "abc"; "a/b"; "a/b"; "a/b" ].
Proof. vm_compute. reflexivity. Qed.

Example split_table :
  map (fun s => strings.Split s "/"%char) [ ""; "a"; "a/b"; "/a"; "a/"; "a//b" ]
  = [ [""]; ["a"]; ["a"; "b"]; [""; "a"]; ["a"; ""]; ["a"; ""; "b"] ].
Proof. vm_compute. reflexivity. Qed.

Example trim_table :
  map (fun s => strings.Trim s "/") [ ""; "/"; "//a/b//"; "a"; "/a/b.ics" ]
  = [ ""; ""; "a/b"; "a"; "a/b.ics" ].
Proof. vm_compute. reflexivity. Qed.

Example suffix_table :
  map (fun s => strings.HasSuffix s ".ics")
      [ ""; ".ics"; "/a/b.ics"; "/a/b.ics/"; "ics"; "/a.icsx" ]
  = [ false; true; true; false; false; false ].
Proof. vm_compute. reflexivity. Qed.

Example base_table :
  map path_Base [ ""; "/"; "/a/b.ics"; "a/b/"; "abc" ]
  = [ "."; "/"; "b.ics"; "b"; "abc" ].
Proof. vm_compute. reflexivity. Qed.

Example dotdot_table :
  map http.containsDotDot
      [ "/a/../b.ics"; "/a/..b.ics"; "/a/..\b.ics"; "/a..b/c.ics"; "a/..";
        "/alice/work.ics" ]
  = [ true; false; true; false; true; false ].
Proof. vm_compute. reflexivity. Qed.

End CleanTests.

(** The scenario of the server's documentation, run on the model: alice
    creates her calendar and anyone reads it; bob may not write it; a
    calendar never written is not found; other methods are refused. *)
Module Scenario.

Definition statusOf (r : http.Request) (fs : gmap string os.node)
  : option nat := http.Status (exampleServe r fs).1.

Definition bodyOf (r : http.Request) (fs : gmap string os.node) : string :=
  http.Written (exampleServe r fs).1.

Definition after (r : http.Request) (fs : gmap string os.node)
  : gmap string os.node := (exampleServe r fs).2.

Example put_then_get :
  statusOf (PUT "/alice/work.ics" aliceCred "X") exampleStore = Some 204 /\
  after (PUT "/alice/work.ics" aliceCred "X") exampleStore
    = storeWithWork "X" /\
  statusOf (GET "/alice/work.ics" None) (storeWithWork "X") = Some 200 /\
  bodyOf (GET "/alice/work.ics" None) (storeWithWork "X") = "X".
Proof. repeat split; vm_compute; reflexivity. Qed.

Example put_as_bob_forbidden :
  statusOf (PUT "/alice/work.ics" (Some ("bob", "hunter2")) "Y")
    (storeWithWork "X") = Some 403 /\
  after (PUT "/alice/work.ics" (Some ("bob", "hunter2")) "Y")
    (storeWithWork "X") = storeWithWork "X".
Proof. repeat split; vm_compute; reflexivity. Qed.

Example put_unknown_user_unauthorized :
  statusOf (PUT "/alice/work.ics" (Some ("carol", "pw")) "Y")
    (storeWithWork "X") = Some 401.
Proof. vm_compute; reflexivity. Qed.

Example get_never_written :
  statusOf (GET "/bob/work.ics" None) (storeWithWork "X") = Some 404.
Proof. vm_compute; reflexivity. Qed.

Example other_method_refused :
  http.Status
    (exampleServe
       {| http.Method := "DELETE"; http.URLPath := "/alice/work.ics";
          http.RawQuery := "";
          http.BasicAuth := aliceCred; http.Context := ∅; http.Body := "" |}
       (storeWithWork "X")).1 = Some 405.
Proof. vm_compute; reflexivity. Qed.

Example overwrite_on_directory_fails :
  statusOf (PUT "/alice/a.ics" aliceCred "Y")
    (after (PUT "/alice/a.ics/b.ics" aliceCred "X") exampleStore) = Some 500.
Proof. vm_compute; reflexivity. Qed.

End Scenario.

(* ===================================================================== *)
(** ** Facts about strings *)
(* ===================================================================== *)

Module StringFacts.
Import strings.

(** [hasByte s c]: the byte [c] occurs in [s]. *)
Definition hasByte (s : string) (c : ascii) : bool := inCutset c s.

Lemma append_nil_r (s : string) : s +:+ "" = s.
Proof. induction s as [|c s IH]; simpl; [reflexivity | now rewrite IH]. Qed.

Lemma append_assoc (a b c : string) : (a +:+ b) +:+ c = a +:+ (b +:+ c).
Proof. induction a as [|x a IH]; simpl; [reflexivity | now rewrite IH]. Qed.

Lemma length_append (a b : string) :
  String.length (a +:+ b) = String.length a + String.length b.
Proof. induction a as [|x a IH]; simpl; [reflexivity | now rewrite IH]. Qed.

Lemma append_eq_nil (a b : string) : a +:+ b = "" -> a = "" /\ b = "".
Proof. destruct a; simpl; [auto | discriminate]. Qed.

Lemma substring_all (s : string) : String.substring 0 (String.length s) s = s.
Proof. induction s as [|c s IH]; simpl; [reflexivity | now rewrite IH]. Qed.

Lemma substring_skip (a b : string) :
  String.substring (String.length a) (String.length b) (a +:+ b) = b.
Proof. induction a as [|x a IH]; simpl; [apply substring_all | exact IH]. Qed.

Lemma substring_split (s : string) (n m : nat) :
  n + m = String.length s ->
  String.substring 0 n s +:+ String.substring n m s = s.
Proof.
  revert n m. induction s as [|c s IH]; intros n m H; simpl in *.
  - destruct n, m; simpl in *; try lia; reflexivity.
  - destruct n as [|n]; simpl.
    + destruct m as [|m]; simpl in *; [lia|].
      f_equal. replace m with (String.length s) by lia. apply substring_all.
    + f_equal. apply IH. lia.
Qed.

(** [HasSuffix] holds exactly of the strings that end with the suffix. *)
Lemma HasSuffix_app (a b : string) : HasSuffix (a +:+ b) b = true.
Proof.
  unfold HasSuffix. rewrite length_append.
  replace (String.length a + String.length b - String.length b)
    with (String.length a) by lia.
  rewrite substring_skip, String.eqb_refl, andb_true_r.
  apply Nat.leb_le. lia.
Qed.

Lemma HasSuffix_inv (s suffix : string) :
  HasSuffix s suffix = true -> exists pre, s = pre +:+ suffix.
Proof.
  unfold HasSuffix. intros H. apply andb_true_iff in H as [Hlen Heq].
  apply Nat.leb_le in Hlen. apply String.eqb_eq in Heq.
  exists (String.substring 0 (String.length s - String.length suffix) s).
  rewrite <- (substring_split s (String.length s - String.length suffix)
                (String.length suffix)) at 1 by lia.
  now rewrite Heq.
Qed.

(** The last byte of a string. *)
Fixpoint lastByte (s : string) : option ascii :=
  match s with
  | EmptyString => None
  | String c EmptyString => Some c
  | String _ s' => lastByte s'
  end.

Lemma lastByte_app (a b : string) : b <> "" -> lastByte (a +:+ b) = lastByte b.
Proof.
  intros Hb. induction a as [|x a IH]; simpl; [reflexivity|].
  destruct (a +:+ b) eqn:E; [|exact IH].
  apply append_eq_nil in E as [_ E]. contradiction.
Qed.

Lemma HasSuffix_lastByte (s suffix : string) :
  suffix <> "" -> HasSuffix s suffix = true -> lastByte s = lastByte suffix.
Proof.
  intros Hne H. apply HasSuffix_inv in H as [pre ->]. now apply lastByte_app.
Qed.

(** A path ending in [.ics] does not end in [/index.html], nor in a
    slash. *)
Lemma ics_not_index (path : string) :
  HasSuffix path ".ics" = true -> HasSuffix path "/index.html" = false.
Proof.
  intros H. destruct (HasSuffix path "/index.html") eqn:E; [|reflexivity].
  apply HasSuffix_lastByte in H; [|discriminate].
  apply HasSuffix_lastByte in E; [|discriminate].
  rewrite H in E. discriminate.
Qed.

Lemma ics_not_slash (path : string) :
  HasSuffix path ".ics" = true -> HasSuffix path "/" = false.
Proof.
  intros H. destruct (HasSuffix path "/") eqn:E; [|reflexivity].
  apply HasSuffix_lastByte in H; [|discriminate].
  apply HasSuffix_lastByte in E; [|discriminate].
  rewrite H in E. discriminate.
Qed.

Lemma hasByte_app (a b : string) (c : ascii) :
  hasByte (a +:+ b) c = hasByte a c || hasByte b c.
Proof.
  unfold hasByte. induction a as [|x a IH]; simpl; [reflexivity|].
  now rewrite IH, orb_assoc.
Qed.

(** *** Split *)

Lemma Split_not_nil (s : string) (sep : ascii) : Split s sep <> [].
Proof.
  destruct s as [|c s]; simpl; [discriminate|].
  destruct (Ascii.eqb c sep); [discriminate|].
  destruct (Split s sep); discriminate.
Qed.

Lemma Split_cons_other (c : ascii) (s : string) (sep : ascii) :
  Ascii.eqb c sep = false ->
  exists h t, Split s sep = h :: t /\ Split (String c s) sep = String c h :: t.
Proof.
  intros Hc. simpl. rewrite Hc.
  destruct (Split s sep) as [|h t] eqn:E; [now apply Split_not_nil in E|].
  eauto.
Qed.

Lemma Split_no_sep (s : string) (sep : ascii) :
  hasByte s sep = false -> Split s sep = [s].
Proof.
  unfold hasByte. induction s as [|c s IH]; simpl; [reflexivity|].
  intros H. apply orb_false_iff in H as [Hc Hs].
  rewrite Ascii.eqb_sym in Hc. rewrite Hc, (IH Hs). reflexivity.
Qed.

Lemma Split_app_sep (a b : string) (sep : ascii) :
  hasByte a sep = false ->
  Split (a +:+ String sep b) sep = a :: Split b sep.
Proof.
  unfold hasByte. induction a as [|c a IH]; simpl; intros H.
  - now rewrite Ascii.eqb_refl.
  - apply orb_false_iff in H as [Hc Ha].
    rewrite Ascii.eqb_sym in Hc. rewrite Hc, (IH Ha). reflexivity.
Qed.

Lemma Split_elems_no_sep (s : string) (sep : ascii) :
  Forall (fun e => hasByte e sep = false) (Split s sep).
Proof.
  induction s as [|c s IH]; simpl.
  - repeat constructor.
  - destruct (Ascii.eqb c sep) eqn:Hc.
    + constructor; [reflexivity | exact IH].
    + destruct (Split s sep) as [|h t]; [repeat constructor; simpl|].
      * unfold hasByte; simpl. now rewrite Ascii.eqb_sym, Hc.
      * inversion IH; subst. constructor; [|assumption].
        unfold hasByte in *; simpl. rewrite Ascii.eqb_sym, Hc. assumption.
Qed.

(** Joining the pieces with the separator gives the string back. *)
Lemma Join_Split (s : string) (sep : ascii) :
  Join (Split s sep) (String sep "") = s.
Proof.
  unfold Join. induction s as [|c s IH]; simpl; [reflexivity|].
  destruct (Ascii.eqb c sep) eqn:Hc.
  - apply Ascii.eqb_eq in Hc; subst c.
    destruct (Split s sep) as [|h t] eqn:E; [now apply Split_not_nil in E|].
    simpl in *. now rewrite IH.
  - destruct (Split s sep) as [|h t] eqn:E; [now apply Split_not_nil in E|].
    destruct t; simpl in *; now rewrite IH.
Qed.

(** Splitting a join of separator-free pieces gives the pieces back. *)
Lemma Split_Join (elems : list string) (sep : ascii) :
  elems <> [] ->
  Forall (fun e => hasByte e sep = false) elems ->
  Split (Join elems (String sep "")) sep = elems.
Proof.
  unfold Join. induction elems as [|e rest IH]; intros Hne Hall; [congruence|].
  inversion Hall as [|? ? He Hrest]; subst.
  destruct rest as [|e' rest'].
  - simpl. now apply Split_no_sep.
  - change (String.concat (String sep "") (e :: e' :: rest'))
      with (e +:+ String sep (String.concat (String sep "") (e' :: rest'))).
    rewrite Split_app_sep by assumption.
    f_equal. apply IH; [discriminate | assumption].
Qed.

(** Appending separator-free bytes extends the last piece. *)
Lemma Split_app_last (a b : string) (sep : ascii) :
  hasByte b sep = false ->
  Split (a +:+ b) sep =
  (removelast (Split a sep) ++ [List.last (Split a sep) "" +:+ b])%list.
Proof.
  intros Hb. induction a as [|c a IH].
  - simpl. now apply Split_no_sep.
  - simpl. destruct (Ascii.eqb c sep).
    + rewrite IH.
      destruct (Split a sep) as [|h t] eqn:E; [now apply Split_not_nil in E|].
      reflexivity.
    + rewrite IH.
      destruct (Split a sep) as [|h t] eqn:E; [now apply Split_not_nil in E|].
      destruct t as [|h' t']; reflexivity.
Qed.

(** Splitting a run of separators followed by a separator-free string. *)
Fixpoint repeatByte (c : ascii) (n : nat) : string :=
  match n with
  | O => EmptyString
  | S n' => String c (repeatByte c n')
  end.

Lemma Split_repeat (n : nat) (s : string) (sep : ascii) :
  hasByte s sep = false ->
  Split (repeatByte sep n +:+ s) sep = (replicate n "" ++ [s])%list.
Proof.
  intros Hs. induction n as [|n IH]; simpl.
  - now apply Split_no_sep.
  - now rewrite Ascii.eqb_refl, IH.
Qed.

(** *** Trim *)

Lemma TrimLeft_decomp (s : string) (c : ascii) :
  exists n, s = repeatByte c n +:+ TrimLeft s (String c "") /\
            (n = 0 -> TrimLeft s (String c "") = s).
Proof.
  induction s as [|x s IH]; simpl.
  - exists 0. split; reflexivity.
  - rewrite orb_false_r. destruct (Ascii.eqb x c) eqn:Hx.
    + apply Ascii.eqb_eq in Hx; subst x. destruct IH as [n [IH _]].
      exists (S n). split; [simpl; now rewrite <- IH | discriminate].
    + exists 0. split; reflexivity.
Qed.

Lemma TrimLeft_keep (s cutset : string) (c : ascii) :
  inCutset c cutset = false -> TrimLeft (String c s) cutset = String c s.
Proof. intros H. simpl. now rewrite H. Qed.

Lemma TrimLeft_app (a b cutset : string) (c : ascii) :
  inCutset c cutset = false ->
  TrimLeft (a +:+ String c b) cutset = TrimLeft a cutset +:+ String c b.
Proof.
  intros H. induction a as [|x a IH]; simpl.
  - now rewrite H.
  - destruct (inCutset x cutset); [exact IH | reflexivity].
Qed.

Lemma TrimRight_app (a b cutset : string) :
  b <> "" -> TrimRight b cutset = b -> TrimRight (a +:+ b) cutset = a +:+ b.
Proof.
  intros Hne Hb. induction a as [|x a IH]; simpl; [exact Hb|].
  rewrite IH. destruct (a +:+ b) eqn:E; [|reflexivity].
  apply append_eq_nil in E as [_ E]. contradiction.
Qed.

(** Trimming slashes off a path that ends in [.ics] only removes the
    leading ones. *)
Lemma Trim_ics (path : string) :
  HasSuffix path ".ics" = true ->
  exists n, path = repeatByte "/"%char n +:+ Trim path "/" /\
            HasSuffix (Trim path "/") ".ics" = true.
Proof.
  intros H. apply HasSuffix_inv in H as [pre ->].
  destruct (TrimLeft_decomp pre "/"%char) as [n [Hn _]].
  exists n. unfold Trim.
  rewrite (TrimLeft_app pre "ics" "/" "."%char) by reflexivity.
  rewrite TrimRight_app by (reflexivity || discriminate).
  split; [|apply HasSuffix_app].
  rewrite <- append_assoc. now rewrite <- Hn.
Qed.

End StringFacts.

(* ===================================================================== *)
(** ** Facts about cleaned paths and storage locations *)
(* ===================================================================== *)

Module PathFacts.
Import strings filepath StringFacts.

(** A proper path element: not empty, not [.], not [..], and without
    separator. *)
Definition properElem (e : string) : bool :=
  negb (String.eqb e "") && negb (String.eqb e ".") &&
  negb (String.eqb e "..") && negb (hasByte e Separator).

(** [isDescendant root loc]: the elements of [loc] are those of [root]
    followed by at least one more element, all of them proper. So [loc]
    names something strictly below [root]. *)
Definition isDescendant (root loc : string) : bool :=
  let rs := Split root Separator in
  let ls := Split loc Separator in
  (length rs <? length ls)%nat &&
  bool_decide (take (length rs) ls = rs) &&
  forallb properElem (drop (length rs) ls).

Lemma properElem_spec (e : string) :
  properElem e = true <->
  e <> "" /\ e <> "." /\ e <> ".." /\ hasByte e Separator = false.
Proof.
  unfold properElem. rewrite !andb_true_iff, !negb_true_iff.
  rewrite !String.eqb_neq. tauto.
Qed.

Lemma cleanStep_proper (b : bool) (out : list string) (e : string) :
  properElem e = true -> cleanStep b out e = e :: out.
Proof.
  intros H. apply properElem_spec in H as (H1 & H2 & H3 & _).
  unfold cleanStep. repeat case_decide; tauto.
Qed.

Lemma cleanStep_skip (b : bool) (out : list string) (e : string) :
  e = "" \/ e = "." -> cleanStep b out e = out.
Proof. intros H. unfold cleanStep. case_decide; tauto. Qed.

Lemma fold_cleanStep_proper (b : bool) (elems out : list string) :
  Forall (fun e => properElem e = true) elems ->
  fold_left (cleanStep b) elems out = (rev elems ++ out)%list.
Proof.
  revert out. induction elems as [|e elems IH]; intros out H; [reflexivity|].
  inversion H; subst. simpl.
  rewrite cleanStep_proper by assumption. rewrite IH by assumption.
  now rewrite <- app_assoc.
Qed.

(** In a rooted path every element that [Clean] keeps is proper. *)
Lemma fold_cleanStep_rooted (elems out : list string) :
  Forall (fun e => hasByte e Separator = false) elems ->
  Forall (fun e => properElem e = true) out ->
  Forall (fun e => properElem e = true) (fold_left (cleanStep true) elems out).
Proof.
  revert out. induction elems as [|e elems IH]; intros out He Hout; [exact Hout|].
  inversion He; subst. simpl. apply IH; [assumption|].
  unfold cleanStep. repeat case_decide.
  - assumption.
  - destruct out as [|top below]; [constructor|].
    inversion Hout; subst. case_decide; [|assumption].
    subst top. discriminate.
  - constructor; [|assumption]. apply properElem_spec. tauto.
Qed.

Lemma cleanElems_rooted_proper (path : string) :
  Forall (fun e => properElem e = true)
         (cleanElems true (Split path Separator)).
Proof.
  unfold cleanElems. apply Forall_rev.
  apply fold_cleanStep_rooted; [apply Split_elems_no_sep | constructor].
Qed.

Lemma cleanElems_last (b : bool) (init : list string) (e : string) :
  properElem e = true ->
  cleanElems b (init ++ [e]) = (cleanElems b init ++ [e])%list.
Proof.
  intros H. unfold cleanElems. rewrite fold_left_app. simpl.
  now rewrite cleanStep_proper.
Qed.

(** The last element of a path that ends in [.ics] is proper and ends in
    [.ics] itself. *)
Lemma ics_last_elem (path : string) :
  HasSuffix path ".ics" = true ->
  exists init e,
    Split path Separator = (init ++ [e])%list /\
    properElem e = true /\ HasSuffix e ".ics" = true.
Proof.
  intros H. apply HasSuffix_inv in H as [pre ->].
  rewrite Split_app_last by reflexivity.
  exists (removelast (Split pre Separator)),
         (List.last (Split pre Separator) "" +:+ ".ics").
  split; [reflexivity|]. split; [|apply HasSuffix_app].
  apply properElem_spec.
  assert (Hlen : 4 <= String.length
                        (List.last (Split pre Separator) "" +:+ ".ics")).
  { rewrite length_append. simpl. lia. }
  repeat split; try (intros E; rewrite E in Hlen; simpl in Hlen; lia).
  rewrite hasByte_app. apply orb_false_iff. split; [|reflexivity].
  pose proof (Split_elems_no_sep pre Separator) as Hall.
  pose proof (Split_not_nil pre Separator) as Hne.
  rewrite (app_removelast_last "" Hne) in Hall.
  apply Forall_app in Hall as [_ Hall]. now inversion Hall.
Qed.

Lemma proper_no_sep (elems : list string) :
  Forall (fun e => properElem e = true) elems ->
  Forall (fun e => hasByte e Separator = false) elems.
Proof.
  intros Hall. eapply Forall_impl; [exact Hall|].
  intros e H. now apply properElem_spec in H.
Qed.

(** Cleaning [dataDir], a separator and the cleaned request path keeps
    [dataDir] and appends the cleaned elements. *)
Lemma clean_under_dataDir (lead elems : list string) :
  Forall (fun e => e = "" \/ e = ".") lead ->
  Forall (fun e => properElem e = true) elems ->
  cleanElems false (dataDir :: lead ++ elems) = dataDir :: elems.
Proof.
  intros Hlead Helems. unfold cleanElems. simpl.
  rewrite (cleanStep_proper false [] dataDir) by reflexivity.
  rewrite fold_left_app.
  assert (Hskip : fold_left (cleanStep false) lead [dataDir] = [dataDir]).
  { induction Hlead as [|e lead He _ IH]; [reflexivity|].
    simpl. now rewrite cleanStep_skip. }
  rewrite Hskip, fold_cleanStep_proper by assumption.
  rewrite rev_app_distr, rev_involutive. reflexivity.
Qed.

Lemma Clean_dataDir_slash (rest : string) (elems : list string) :
  cleanElems false (dataDir :: Split rest Separator) = dataDir :: elems ->
  Clean (dataDir +:+ "/" +:+ rest) = strings.Join (dataDir :: elems) "/".
Proof.
  intros H. unfold Clean. rewrite decide_False by discriminate.
  change (rooted (dataDir +:+ "/" +:+ rest)) with false. cbv iota.
  change (dataDir +:+ "/" +:+ rest) with (dataDir +:+ String Separator rest).
  rewrite Split_app_sep by reflexivity. now rewrite H.
Qed.

(** [Clean] keeps or drops elements, so it introduces no separator. *)
Lemma cleanStep_no_sep (b : bool) (out : list string) (e : string) :
  hasByte e Separator = false ->
  Forall (fun x => hasByte x Separator = false) out ->
  Forall (fun x => hasByte x Separator = false) (cleanStep b out e).
Proof.
  intros He Hout. unfold cleanStep. repeat case_decide.
  - assumption.
  - destruct out as [|top below].
    + destruct b; repeat constructor. assumption.
    + inversion Hout; subst. case_decide; [|assumption].
      constructor; assumption.
  - constructor; assumption.
Qed.

Lemma cleanElems_no_sep (b : bool) (elems : list string) :
  Forall (fun x => hasByte x Separator = false) elems ->
  Forall (fun x => hasByte x Separator = false) (cleanElems b elems).
Proof.
  intros Hall. unfold cleanElems. apply Forall_rev.
  assert (H : forall out,
    Forall (fun x => hasByte x Separator = false) out ->
    Forall (fun x => hasByte x Separator = false)
           (fold_left (cleanStep b) elems out)).
  { induction Hall as [|e elems He _ IH]; intros out Hout; [exact Hout|].
    simpl. apply IH. now apply cleanStep_no_sep. }
  apply H. constructor.
Qed.

End PathFacts.

(* ===================================================================== *)
(** ** The storage location of a request path *)
(* ===================================================================== *)

Module Location.
Import strings filepath StringFacts PathFacts.

Lemma Join_two (a b : string) : strings.Join [a; b] "/" = a +:+ "/" +:+ b.
Proof. reflexivity. Qed.

(** The location is [dataDir] followed by the elements that [Clean]
    keeps, as long as none of them is [..]. *)
Lemma filePathOf_elems (path : string) :
  Forall (fun e => properElem e = true)
         (cleanElems (rooted path) (Split path Separator)) ->
  filePathOf path =
  strings.Join (dataDir :: cleanElems (rooted path) (Split path Separator)) "/".
Proof.
  intros Hall. unfold filePathOf.
  change (filepath.Join [dataDir; Clean path])
    with (Clean (dataDir +:+ "/" +:+ Clean path)).
  apply Clean_dataDir_slash.
  pose proof (proper_no_sep _ Hall) as Hsep.
  unfold Clean. case_decide as Hp.
  - subst path. reflexivity.
  - destruct (rooted path) eqn:Hr;
      destruct (cleanElems _ (Split path Separator)) as [|c cs] eqn:Hcs.
    + exact (clean_under_dataDir [""; ""] [] ltac:(auto) ltac:(auto)).
    + change ("/" +:+ strings.Join (c :: cs) "/")
        with ("" +:+ String Separator (strings.Join (c :: cs) "/")).
      rewrite Split_app_sep by reflexivity.
      rewrite Split_Join by (assumption || discriminate).
      exact (clean_under_dataDir [""] (c :: cs) ltac:(auto) Hall).
    + exact (clean_under_dataDir ["."] [] ltac:(auto) ltac:(auto)).
    + rewrite Split_Join by (assumption || discriminate).
      exact (clean_under_dataDir [] (c :: cs) ltac:(auto) Hall).
Qed.

Lemma forallb_proper (elems : list string) :
  Forall (fun e => properElem e = true) elems ->
  forallb properElem elems = true.
Proof.
  induction 1 as [|x l Hx _ IH]; [reflexivity|]. simpl. now rewrite Hx, IH.
Qed.

Lemma isDescendant_Join (elems : list string) :
  elems <> [] ->
  Forall (fun e => properElem e = true) elems ->
  isDescendant dataDir (strings.Join (dataDir :: elems) "/") = true.
Proof.
  intros Hne Hall. unfold isDescendant.
  rewrite Split_Join;
    [|discriminate | constructor; [reflexivity | now apply proper_no_sep]].
  change (Split dataDir Separator) with [dataDir]. simpl.
  rewrite drop_0. destruct elems as [|e elems]; [congruence|].
  change ((1 <? S (length (e :: elems)))%nat) with true. simpl andb.
  exact (forallb_proper (e :: elems) Hall).
Qed.

(** The location of a rooted path that ends in [.ics]. *)
Lemma filePathOf_rooted_ics (path : string) :
  rooted path = true ->
  HasSuffix path ".ics" = true ->
  exists init e,
    properElem e = true /\ HasSuffix e ".ics" = true /\
    Forall (fun x => properElem x = true) init /\
    filePathOf path = strings.Join (dataDir :: init ++ [e]) "/".
Proof.
  intros Hr Hs.
  destruct (ics_last_elem path Hs) as (init & e & Hsplit & He & Hes).
  pose proof (cleanElems_rooted_proper path) as Hall.
  pose proof (filePathOf_elems path) as Hloc.
  rewrite Hr in Hloc. specialize (Hloc Hall).
  rewrite Hsplit, cleanElems_last in Hloc, Hall by assumption.
  apply Forall_app in Hall as [Hinit _].
  exists (cleanElems true init), e. auto.
Qed.

(** The storage location of a path that ends in [.ics] ends with the
    last element of the path, whatever comes before it. *)
Lemma filePathOf_last (path : string) :
  HasSuffix path ".ics" = true ->
  exists init e,
    Split (filePathOf path) Separator = (init ++ [e])%list /\
    properElem e = true /\ HasSuffix e ".ics" = true.
Proof.
  intros Hs.
  destruct (ics_last_elem path Hs) as (init0 & e & Hsplit & He & Hes).
  pose proof (Split_elems_no_sep path Separator) as Hpsep.
  assert (HE : cleanElems (rooted path) (Split path Separator) =
               (cleanElems (rooted path) init0 ++ [e])%list)
    by (rewrite Hsplit; now apply cleanElems_last).
  pose proof (cleanElems_no_sep (rooted path) _ Hpsep) as HEsep.
  rewrite HE in HEsep.
  remember (cleanElems (rooted path) init0) as E eqn:HeqE. clear HeqE.
  assert (Hne : (E ++ [e])%list <> []) by (destruct E; discriminate).
  assert (Hcp : exists lead,
            Forall (fun x => hasByte x Separator = false) lead /\
            Split (Clean path) Separator = (lead ++ E ++ [e])%list).
  { unfold Clean. case_decide as Hp; [subst path; discriminate|].
    rewrite HE. destruct (rooted path).
    - exists [""]. split; [repeat constructor|].
      change ("/" +:+ strings.Join (E ++ [e]) "/")
        with ("" +:+ String Separator (strings.Join (E ++ [e]) "/")).
      rewrite Split_app_sep by reflexivity.
      now rewrite Split_Join by assumption.
    - exists []. split; [constructor|].
      destruct (E ++ [e])%list as [|c cs] eqn:Hcs; [congruence|].
      now rewrite Split_Join by assumption. }
  destruct Hcp as (lead & Hlead & Hcp).
  unfold filePathOf.
  change (filepath.Join [dataDir; Clean path])
    with (Clean (dataDir +:+ "/" +:+ Clean path)).
  unfold Clean at 1. rewrite decide_False by discriminate.
  change (rooted (dataDir +:+ "/" +:+ Clean path)) with false. cbv iota.
  change (dataDir +:+ "/" +:+ Clean path)
    with (dataDir +:+ String Separator (Clean path)).
  rewrite Split_app_sep by reflexivity. rewrite Hcp.
  assert (Hassoc : (dataDir :: lead ++ E ++ [e])%list =
                   ((dataDir :: lead ++ E) ++ [e])%list)
    by (simpl; now rewrite <- app_assoc).
  assert (Hsep : Forall (fun x => hasByte x Separator = false)
                        (dataDir :: lead ++ E ++ [e])).
  { constructor; [reflexivity|]. apply Forall_app. split; assumption. }
  pose proof (cleanElems_no_sep false _ Hsep) as HFsep.
  rewrite Hassoc in HFsep |- *.
  rewrite cleanElems_last in HFsep |- * by assumption.
  remember (cleanElems false (dataDir :: lead ++ E)) as F eqn:HeqF.
  clear HeqF.
  exists F, e. split; [|split; assumption].
  destruct (F ++ [e])%list as [|c cs] eqn:Hcs;
    [destruct F; discriminate|].
  apply Split_Join; [discriminate | assumption].
Qed.

(** The file part of the storage location of a path that ends in
    [.ics] is a proper element. *)
Lemma fileName_filePathOf (path : string) :
  HasSuffix path ".ics" = true ->
  properElem (http.fileName (filePathOf path)) = true.
Proof.
  intros Hs. destruct (filePathOf_last path Hs) as (init & e & Hsplit & He & _).
  unfold http.fileName. rewrite Hsplit. now rewrite last_last.
Qed.

(** For a proper element without NUL byte, the name check of a file
    server that validates names is the check for valid UTF-8. *)
Lemma Localize_proper (validates : bool) (e : string) :
  properElem e = true -> os.hasNUL e = false ->
  http.Localize validates e = negb validates || utf8.ValidString e.
Proof.
  intros He Hnul. apply properElem_spec in He as (H1 & H2 & H3 & Hsep).
  unfold http.Localize, http.ValidPath. rewrite Hnul.
  change "/"%char with Separator. rewrite (Split_no_sep _ _ Hsep).
  apply String.eqb_neq in H1, H2, H3. simpl forallb.
  rewrite H1, H2, H3. simpl. now rewrite !andb_true_r.
Qed.

Lemma cleanElems_empties (b : bool) (n : nat) :
  cleanElems b (replicate n "") = [].
Proof.
  unfold cleanElems.
  assert (H : forall out, fold_left (cleanStep b) (replicate n "") out = out).
  { induction n as [|n IH]; intros out; [reflexivity|].
    simpl. rewrite cleanStep_skip by auto. apply IH. }
  now rewrite H.
Qed.

(** A path that ends in [.ics] and has a single segment once its slashes
    are trimmed is stored directly under the root, under that segment. *)
Lemma single_segment_location (path : string) :
  HasSuffix path ".ics" = true ->
  length (pathParts path) < 2 ->
  hasByte (Trim path "/") Separator = false /\
  filePathOf path = dataDir +:+ "/" +:+ Trim path "/".
Proof.
  intros Hs Hl. destruct (Trim_ics path Hs) as (n & Hpath & Hsuf).
  unfold pathParts in Hl. remember (Trim path "/") as seg eqn:Hseg.
  clear Hseg. change (length (Split seg Separator) < 2) in Hl.
  assert (Hsplit : Split seg Separator = [seg]).
  { pose proof (Join_Split seg Separator) as HJ.
    pose proof (Split_not_nil seg Separator) as Hne.
    destruct (Split seg Separator) as [|x [|y l]]; simpl in Hl;
      [congruence | | lia].
    unfold strings.Join in HJ. simpl in HJ. congruence. }
  assert (Hsep : hasByte seg Separator = false).
  { pose proof (Split_elems_no_sep seg Separator) as Hall.
    rewrite Hsplit in Hall. now inversion Hall. }
  assert (Hproper : properElem seg = true).
  { destruct (ics_last_elem seg Hsuf) as (init & e & Hie & He & _).
    rewrite Hsplit in Hie. destruct init as [|a init]; simpl in Hie.
    - congruence.
    - destruct init; discriminate. }
  split; [assumption|].
  assert (Hcs : cleanElems (rooted path) (Split path Separator) = [seg]).
  { rewrite Hpath at 2. rewrite Split_repeat by assumption.
    rewrite cleanElems_last by assumption.
    now rewrite cleanElems_empties. }
  rewrite filePathOf_elems; rewrite Hcs; [reflexivity|].
  repeat constructor. assumption.
Qed.

Lemma single_segment_no_owner (seg : string) :
  hasByte seg Separator = false ->
  locationOwner (dataDir +:+ "/" +:+ seg) = None.
Proof.
  intros H. unfold locationOwner.
  change (dataDir +:+ "/" +:+ seg) with (dataDir +:+ String Separator seg).
  rewrite Split_app_sep by reflexivity.
  now rewrite Split_no_sep.
Qed.

(** The path of the calendar [name] of [owner] ends in [.ics]; when
    [owner] is a non-empty name without slash, its first raw segment is
    [owner] and it has at least two segments. *)
Lemma calendarPath_suffix (owner name : string) :
  HasSuffix (calendarPath owner name) ".ics" = true.
Proof.
  unfold calendarPath.
  replace ("/" +:+ owner +:+ "/" +:+ name +:+ ".ics")
    with (("/" +:+ owner +:+ "/" +:+ name) +:+ ".ics")
    by now rewrite !append_assoc.
  apply HasSuffix_app.
Qed.

Lemma calendarPath_parts (owner name : string) :
  owner <> "" ->
  hasByte owner Separator = false ->
  pathParts (calendarPath owner name) =
  owner :: Split (name +:+ ".ics") Separator.
Proof.
  intros Hne Hsep. unfold pathParts, calendarPath, Trim.
  change ("/" +:+ owner +:+ "/" +:+ name +:+ ".ics")
    with (String "/"%char (owner +:+ "/" +:+ name +:+ ".ics")).
  change (TrimLeft (String "/"%char (owner +:+ "/" +:+ name +:+ ".ics")) "/")
    with (TrimLeft (owner +:+ "/" +:+ name +:+ ".ics") "/").
  destruct owner as [|c owner']; [congruence|].
  assert (Hc : inCutset c "/" = false).
  { unfold hasByte in Hsep. simpl in Hsep.
    apply orb_false_iff in Hsep as [Hc _].
    simpl. rewrite orb_false_r. now rewrite Ascii.eqb_sym. }
  change (String c owner' +:+ "/" +:+ name +:+ ".ics")
    with (String c (owner' +:+ "/" +:+ name +:+ ".ics")).
  rewrite TrimLeft_keep by assumption.
  change (String c (owner' +:+ "/" +:+ name +:+ ".ics"))
    with (String c owner' +:+ "/" +:+ name +:+ ".ics").
  replace (String c owner' +:+ "/" +:+ name +:+ ".ics")
    with ((String c owner' +:+ "/" +:+ name) +:+ ".ics")
    by now rewrite !append_assoc.
  rewrite TrimRight_app by (reflexivity || discriminate).
  rewrite !append_assoc.
  change ("/" +:+ name +:+ ".ics") with (String Separator (name +:+ ".ics")).
  now rewrite Split_app_sep.
Qed.

End Location.

(* ===================================================================== *)
(** ** Facts about the file system *)
(* ===================================================================== *)

Module StoreFacts.
Import strings StringFacts.

Lemma rev_Split_cons (name : string) :
  exists e parent,
    rev (Split name filepath.Separator) = e :: parent /\
    strings.Join (rev (e :: parent)) "/" = name.
Proof.
  pose proof (Split_not_nil name filepath.Separator) as Hne.
  pose proof (Join_Split name filepath.Separator) as HJ.
  destruct (rev (Split name filepath.Separator)) as [|e parent] eqn:Er.
  - apply (f_equal (@rev string)) in Er. rewrite rev_involutive in Er.
    simpl in Er. congruence.
  - exists e, parent. split; [reflexivity|].
    rewrite <- Er, rev_involutive. exact HJ.
Qed.

(** *** Entries *)

Lemma entry_insert_ne fs k v k' :
  k' <> k -> os.entry (<[k := v]> fs) k' = os.entry fs k'.
Proof.
  intros Hne. unfold os.entry. case_decide; [reflexivity|].
  now rewrite lookup_insert_ne by congruence.
Qed.

Lemma entry_insert_eq fs k v :
  os.entry fs k <> Some os.Directory -> os.entry (<[k := v]> fs) k = Some v.
Proof.
  unfold os.entry. case_decide; [congruence|].
  intros _. apply lookup_insert_eq.
Qed.

Lemma entry_lookup fs k :
  os.entry fs k <> Some os.Directory -> os.entry fs k = fs !! k.
Proof. unfold os.entry. case_decide; congruence. Qed.

Lemma entry_directory fs k :
  fs !! k = Some os.Directory -> os.entry fs k = Some os.Directory.
Proof. intros H. unfold os.entry. case_decide; [reflexivity | exact H]. Qed.

Lemma entry_special fs k :
  os.entry fs k <> Some os.Directory -> k <> "." /\ k <> "/".
Proof. unfold os.entry. case_decide; [congruence | tauto]. Qed.

(** *** Resolution *)

Lemma walk_cons_inl fs e parent n :
  os.walk fs (e :: parent) = inl n ->
  os.walk fs parent = inl os.Directory /\
  (os.NAME_MAX <? String.length e)%nat = false /\
  os.entry fs (strings.Join (rev (e :: parent)) "/") = Some n.
Proof.
  cbn [os.walk].
  destruct (os.walk fs parent) as [[?|]|]; try discriminate.
  destruct (os.NAME_MAX <? String.length e)%nat; [discriminate|].
  destruct (os.entry fs _) as [m|]; [|discriminate].
  intros H. inversion H. auto.
Qed.

(** Writing under a name that is not a directory leaves every walk that
    ends in a directory as it is. *)
Lemma walk_insert_dir fs k v (l : list string) :
  os.walk fs l = inl os.Directory ->
  os.entry fs k <> Some os.Directory ->
  os.walk (<[k := v]> fs) l = inl os.Directory.
Proof.
  intros Hw Hk. induction l as [|e parent IH]; [reflexivity|].
  apply walk_cons_inl in Hw as (Hp & Hlen & He).
  cbn [os.walk]. rewrite (IH Hp), Hlen.
  rewrite entry_insert_ne by congruence. now rewrite He.
Qed.

Lemma resolve_inl fs name x :
  os.resolve fs name = inl x ->
  os.nameError name = None /\
  x = os.entry fs name /\
  exists e parent,
    rev (Split name filepath.Separator) = e :: parent /\
    os.walk fs parent = inl os.Directory /\
    (os.NAME_MAX <? String.length e)%nat = false.
Proof.
  unfold os.resolve. destruct (os.nameError name); [discriminate|].
  destruct (rev (Split name filepath.Separator)) as [|e parent];
    [discriminate|].
  destruct (os.walk fs parent) as [[?|]|] eqn:Hw; try discriminate.
  destruct (os.NAME_MAX <? String.length e)%nat eqn:Hlen; [discriminate|].
  intros H. inversion H. split; [reflexivity|]. split; [reflexivity|].
  exists e, parent. auto.
Qed.

Lemma resolve_insert fs name x k v :
  os.resolve fs name = inl x ->
  os.entry fs k <> Some os.Directory ->
  os.resolve (<[k := v]> fs) name = inl (os.entry (<[k := v]> fs) name).
Proof.
  intros Hr Hk.
  apply resolve_inl in Hr as (Hn & _ & e & parent & Er & Hw & Hlen).
  unfold os.resolve. rewrite Hn, Er.
  now rewrite (walk_insert_dir _ _ _ _ Hw Hk), Hlen.
Qed.

Lemma Stat_resolve fs name n :
  os.Stat fs name = inl n <-> os.resolve fs name = inl (Some n).
Proof.
  unfold os.Stat. destruct (os.resolve fs name) as [[m|]|err]; split;
    intros H; inversion H; reflexivity.
Qed.

(** A name that [Stat] finds is stored under that name. *)
Lemma Stat_entry fs name n :
  os.Stat fs name = inl n -> os.entry fs name = Some n.
Proof.
  intros H. apply Stat_resolve in H. apply resolve_inl in H as (_ & H & _).
  now symmetry.
Qed.

Lemma Stat_File_lookup fs name content :
  os.Stat fs name = inl (os.File content) ->
  fs !! name = Some (os.File content).
Proof.
  intros H. apply Stat_entry in H. rewrite entry_lookup in H; congruence.
Qed.

(** [Stat] of a name made of one short element looks it up in the
    working directory. *)
Lemma Stat_single fs name :
  os.nameError name = None ->
  hasByte name filepath.Separator = false ->
  (os.NAME_MAX <? String.length name)%nat = false ->
  name <> "." ->
  os.Stat fs name =
  match fs !! name with
  | Some n => inl n
  | None => inr os.ENOENT
  end.
Proof.
  intros Hn Hsep Hlen Hdot. unfold os.Stat, os.resolve.
  rewrite Hn, (Split_no_sep _ _ Hsep). cbn [rev app os.walk]. rewrite Hlen.
  unfold os.entry. rewrite decide_False; [now destruct (fs !! name)|].
  intros [E | [E | E]]; subst name; try discriminate. contradiction.
Qed.

Lemma hasNUL_Split (name : string) :
  os.hasNUL name = false ->
  Forall (fun e => os.hasNUL e = false)
         (strings.Split name filepath.Separator).
Proof.
  unfold os.hasNUL. induction name as [|c name IH]; simpl; intros H.
  - repeat constructor.
  - apply orb_false_iff in H as [Hc Hn]. specialize (IH Hn).
    destruct (Ascii.eqb c filepath.Separator).
    + constructor; [reflexivity | exact IH].
    + destruct (strings.Split name filepath.Separator) as [|h t];
        [repeat constructor; simpl; now rewrite Hc|].
      inversion IH; subst. constructor; [|assumption].
      simpl. now rewrite Hc.
Qed.

(** A name that [Stat] finds has no NUL byte, nor has its file part. *)
Lemma Stat_no_NUL fs name n :
  os.Stat fs name = inl n -> os.hasNUL (http.fileName name) = false.
Proof.
  intros Hst. apply Stat_resolve in Hst.
  apply resolve_inl in Hst as (Hn & _).
  assert (Hnul : os.hasNUL name = false).
  { unfold os.nameError in Hn. destruct (os.hasNUL name); congruence. }
  unfold http.fileName. pose proof (hasNUL_Split name Hnul) as Hall.
  pose proof (Split_not_nil name filepath.Separator) as Hne.
  rewrite (app_removelast_last "" Hne) in Hall.
  apply Forall_app in Hall as [_ Hall]. now inversion Hall.
Qed.

(** *** Mkdir and MkdirAll *)

Lemma Mkdir_inv fs name fs' :
  os.Mkdir fs name = inl fs' ->
  os.resolve fs name = inl None /\ fs !! name = None /\
  fs' = <[name := os.Directory]> fs.
Proof.
  unfold os.Mkdir. destruct (os.resolve fs name) as [[m|]|err] eqn:Hr;
    try discriminate.
  intros H. inversion H. split; [reflexivity|]. split; [|reflexivity].
  apply resolve_inl in Hr as (_ & He & _).
  rewrite <- entry_lookup; congruence.
Qed.

Lemma Mkdir_Stat fs name fs' :
  os.Mkdir fs name = inl fs' -> os.Stat fs' name = inl os.Directory.
Proof.
  intros H. apply Mkdir_inv in H as (Hr & _ & ->).
  assert (He : os.entry fs name <> Some os.Directory).
  { apply resolve_inl in Hr as (_ & <- & _). discriminate. }
  apply Stat_resolve.
  rewrite (resolve_insert _ _ _ name os.Directory Hr He).
  now rewrite entry_insert_eq.
Qed.

(** [mkdirAll] only adds directories, under names that were free, and
    each such name is the path made of the first elements of the one it
    was asked to create; this holds whether it succeeds or not. *)
Lemma mkdirAll_changes (revElems : list string) fs fs' err :
  os.mkdirAll fs revElems = (fs', err) ->
  forall k,
    fs' !! k = fs !! k \/
    (fs !! k = None /\ fs' !! k = Some os.Directory /\
     exists l, l <> [] /\ l `suffix_of` revElems /\
               k = strings.Join (rev l) "/").
Proof.
  revert fs' err. induction revElems as [|c parent IH]; intros fs' err H k.
  - simpl in H. inversion H. now left.
  - cbn [os.mkdirAll] in H.
    assert (Hup : forall fs1 err1,
      os.mkdirAll fs parent = (fs1, err1) ->
      fs1 !! k = fs !! k \/
      (fs !! k = None /\ fs1 !! k = Some os.Directory /\
       exists l, l <> [] /\ l `suffix_of` c :: parent /\
                 k = strings.Join (rev l) "/")).
    { intros fs1 err1 Hp.
      destruct (IH fs1 err1 Hp k) as [Hsame|(Hn & Hd & l & Hl & Hsuf & Hkl)];
        [now left|].
      right. repeat split; try assumption.
      exists l. repeat split; try assumption. now apply suffix_cons_r. }
    destruct (os.Stat fs (strings.Join (rev (c :: parent)) "/")) as [[?|]|e0].
    + inversion H. now left.
    + inversion H. now left.
    + destruct (os.mkdirAll fs parent) as [fs1 [e1|]] eqn:Ep.
      * inversion H; subst. exact (Hup _ _ eq_refl).
      * destruct (os.Mkdir fs1 (strings.Join (rev (c :: parent)) "/"))
          as [fs2|e2] eqn:Em.
        -- inversion H; subst. apply Mkdir_inv in Em as (_ & Hfree & ->).
           destruct (decide (k = strings.Join (rev (c :: parent)) "/"))
             as [->|Hk].
           ++ right. rewrite lookup_insert_eq.
              destruct (Hup _ _ eq_refl) as [Hsame|(_ & Hd & _)];
                [|congruence].
              split; [congruence|]. split; [reflexivity|].
              exists (c :: parent). repeat split; [discriminate | reflexivity].
           ++ rewrite lookup_insert_ne by congruence.
              exact (Hup _ _ eq_refl).
        -- destruct (os.Stat fs1 (strings.Join (rev (c :: parent)) "/"))
             as [[?|]|e3]; inversion H; subst; exact (Hup _ _ eq_refl).
Qed.

Lemma mkdirAll_keeps (revElems : list string) fs fs' err k node :
  os.mkdirAll fs revElems = (fs', err) ->
  fs !! k = Some node -> fs' !! k = Some node.
Proof.
  intros H Hk. destruct (mkdirAll_changes _ _ _ _ H k) as [->|(Hn & _)];
    [assumption | congruence].
Qed.

Lemma MkdirAll_keeps fs path fs' err k node :
  os.MkdirAll fs path = (fs', err) ->
  fs !! k = Some node -> fs' !! k = Some node.
Proof. unfold os.MkdirAll. apply mkdirAll_keeps. Qed.

(** After a successful [MkdirAll] the path is a directory. *)
Lemma MkdirAll_directory fs path fs' :
  os.MkdirAll fs path = (fs', None) -> os.Stat fs' path = inl os.Directory.
Proof.
  unfold os.MkdirAll.
  destruct (rev_Split_cons path) as (e & parent & -> & Hname).
  cbn [os.mkdirAll]. rewrite Hname.
  destruct (os.Stat fs path) as [[?|]|e0] eqn:Est.
  - discriminate.
  - intros H. inversion H. subst. exact Est.
  - destruct (os.mkdirAll fs parent) as [fs1 [e1|]]; [discriminate|].
    destruct (os.Mkdir fs1 path) as [fs2|e2] eqn:Em.
    + intros H. inversion H. subst. exact (Mkdir_Stat _ _ _ Em).
    + destruct (os.Stat fs1 path) as [[?|]|e3] eqn:E2; intros H; inversion H.
      subst. exact E2.
Qed.

Lemma MkdirAll_existing fs path :
  os.Stat fs path = inl os.Directory -> os.MkdirAll fs path = (fs, None).
Proof.
  intros Hst. unfold os.MkdirAll.
  destruct (rev_Split_cons path) as (e & parent & -> & Hname).
  cbn [os.mkdirAll]. now rewrite Hname, Hst.
Qed.

(** *** WriteFile *)

Lemma WriteFile_inv fs name data fs' :
  os.WriteFile fs name data = Some fs' ->
  fs' = <[name := os.File data]> fs /\
  os.entry fs name <> Some os.Directory /\
  os.resolve fs name = inl (os.entry fs name).
Proof.
  unfold os.WriteFile.
  destruct (os.resolve fs name) as [x|err] eqn:Hr; [|discriminate].
  pose proof (resolve_inl _ _ _ Hr) as (_ & Hx & _). subst x.
  destruct (os.entry fs name) as [[?|]|]; intros H; inversion H;
    repeat split; discriminate.
Qed.

Lemma WriteFile_target fs name data fs' :
  os.WriteFile fs name data = Some fs' ->
  fs' = <[name := os.File data]> fs /\
  name <> "." /\ name <> "/" /\ fs !! name <> Some os.Directory.
Proof.
  intros H. apply WriteFile_inv in H as (-> & He & _).
  split; [reflexivity|].
  destruct (entry_special _ _ He) as [H1 H2].
  split; [assumption|]. split; [assumption|].
  intros Hd. apply He. now apply entry_directory.
Qed.

(** What was written is what [Stat] finds. *)
Lemma Stat_WriteFile fs name data fs' :
  os.WriteFile fs name data = Some fs' ->
  os.Stat fs' name = inl (os.File data).
Proof.
  intros H. apply WriteFile_inv in H as (-> & He & Hr).
  apply Stat_resolve.
  rewrite (resolve_insert _ _ _ name (os.File data) Hr He).
  now rewrite entry_insert_eq.
Qed.

Lemma WriteFile_existing fs name old data :
  os.Stat fs name = inl (os.File old) ->
  os.WriteFile fs name data = Some (<[name := os.File data]> fs).
Proof.
  intros Hst. apply Stat_resolve in Hst. unfold os.WriteFile.
  now rewrite Hst.
Qed.

(** After the two storage steps of a PUT the target is a file and its
    directory a directory. *)
Lemma stored fs dir name data fs1 fs2 :
  os.MkdirAll fs dir = (fs1, None) ->
  os.WriteFile fs1 name data = Some fs2 ->
  os.Stat fs2 name = inl (os.File data) /\
  os.Stat fs2 dir = inl os.Directory.
Proof.
  intros Hm Hw. pose proof (MkdirAll_directory _ _ _ Hm) as Hd.
  split; [exact (Stat_WriteFile _ _ _ _ Hw)|].
  apply WriteFile_inv in Hw as (-> & He & _).
  pose proof (Stat_entry _ _ _ Hd) as Hde.
  apply Stat_resolve in Hd. apply Stat_resolve.
  rewrite (resolve_insert _ _ _ name (os.File data) Hd He).
  rewrite entry_insert_ne by congruence. now rewrite Hde.
Qed.

End StoreFacts.

(** Runs of the model on the failures of name resolution and on the
    parts of a request the file server looks at. *)
Module ResolutionTests.

Import Scenario.

(** A file name of 256 bytes and a directory name of 300 bytes. *)
Definition longName : string :=
  StringFacts.repeatByte "a"%char 252 +:+ ".ics".

Definition longDir : string := StringFacts.repeatByte "d"%char 300.

Example stat_table :
  map (os.Stat (storeWithWork "X"))
      [ "calendars"; "calendars/alice"; "calendars/alice/work.ics";
        "calendars/bob"; "calendars/bob/work.ics";
        "calendars/alice/work.ics/x.ics";
        "calendars/alice/" +:+ longName; "calendars/bob/" +:+ longName;
        "calendars/alice/" +:+ String "000"%char "x.ics"; ""; "." ]
  = [ inl os.Directory; inl os.Directory; inl (os.File "X");
      inr os.ENOENT; inr os.ENOENT;
      inr os.ENOTDIR;
      inr os.ENAMETOOLONG; inr os.ENOENT;
      inr os.EINVAL; inr os.ENOENT; inl os.Directory ].
Proof. vm_compute. reflexivity. Qed.

(** A GET below a regular file is answered 404 by the file server, and
    400 when its path has a [..] element; a GET of an over-long name in
    an existing directory is answered 500. *)
Example get_below_file :
  statusOf (GET "/alice/work.ics/x.ics" None) (storeWithWork "X") = Some 404 /\
  statusOf (GET "/bob/../alice/work.ics/x.ics" None) (storeWithWork "X")
    = Some 400.
Proof. split; vm_compute; reflexivity. Qed.

Example get_long_name :
  String.length longName = 256 /\
  statusOf (GET ("/alice/" +:+ longName) None) (storeWithWork "X")
    = Some 500 /\
  statusOf (GET ("/bob/" +:+ longName) None) (storeWithWork "X") = Some 404.
Proof. repeat split; vm_compute; reflexivity. Qed.

(** A PUT of an over-long name is answered 500. The directories created
    before the failure stay. *)
Example put_long_name :
  exampleServe (PUT ("/alice/" +:+ longName) aliceCred "X") exampleStore =
    (http.Error http.newResponseWriter "Internal Server Error" 500,
     <["calendars/alice" := os.Directory]> exampleStore) /\
  exampleServe (PUT ("/alice/" +:+ longDir +:+ "/x.ics") aliceCred "X")
    exampleStore =
    (http.Error http.newResponseWriter "Internal Server Error" 500,
     <["calendars/alice" := os.Directory]> exampleStore).
Proof. split; vm_compute; reflexivity. Qed.

Definition enye : string := String "195"%char (String "177"%char "").
Definition euro : string :=
  String "226"%char (String "130"%char (String "172"%char "")).
Definition grin : string :=
  String "240"%char (String "159"%char (String "152"%char
    (String "128"%char ""))).

Example utf8_table :
  map utf8.ValidString
      [ ""; "a"; "work.ics"; enye; euro; grin; "a" +:+ euro +:+ "b";
        String "255"%char "";
        String "192"%char (String "128"%char "");
        String "224"%char (String "128"%char (String "128"%char ""));
        String "237"%char (String "160"%char (String "128"%char ""));
        String "244"%char (String "144"%char (String "128"%char
          (String "128"%char "")));
        String "195"%char "";
        String "128"%char "";
        String "226"%char (String "130"%char "") ]
  = [ true; true; true; true; true; true; true;
      false; false; false; false; false; false; false; false ].
Proof. vm_compute. reflexivity. Qed.

(** A calendar whose name is the single byte 0xFF, which is not valid
    UTF-8: the PUT stores it, [os.Stat] finds it, and a file server
    that validates names refuses to open it; one that does not sends
    it. *)
Definition oddPath : string := "/alice/" +:+ String "255"%char ".ics".

Example invalid_name :
  http.containsDotDot oddPath = false /\
  utf8.ValidString (servedName oddPath) = false /\
  statusOf (PUT oddPath aliceCred "X") exampleStore = Some 204 /\
  os.Stat (after (PUT oddPath aliceCred "X") exampleStore)
    (filePathOf oddPath) = inl (os.File "X") /\
  statusOf (GET oddPath None) (after (PUT oddPath aliceCred "X") exampleStore)
    = Some 500 /\
  bodyOf (GET oddPath None) (after (PUT oddPath aliceCred "X") exampleStore)
    = "500 Internal Server Error" +:+ http.newline /\
  http.Status
    (serve exampleUsers false exampleDetect exampleDirectory
       (GET oddPath None)
       (after (PUT oddPath aliceCred "X") exampleStore)).1 = Some 200.
Proof. repeat split; vm_compute; reflexivity. Qed.

(** HEAD is not a method of the calendar router; at the root path it
    gets the headers of the index page and no body. *)
Example head_requests :
  statusOf (HEAD "/alice/work.ics") (storeWithWork "X") = Some 405 /\
  rootHandler exampleUsers true exampleDetect exampleDirectory
    http.newResponseWriter (HEAD "/") storeWithIndex =
  ({| http.Header :=
        {[ "Content-Type" := "application/octet-stream";
           "Accept-Ranges" := "bytes"; "Content-Length" := "9" ]};
      http.Status := Some 200; http.Written := "" |}, storeWithIndex).
Proof. split; vm_compute; reflexivity. Qed.

(** The redirection away from a directory keeps the query string. *)
Example redirect_keeps_query :
  http.Header
    (exampleServe
       {| http.Method := "GET"; http.URLPath := "/alice";
          http.RawQuery := "x=1"; http.BasicAuth := None;
          http.Context := ∅; http.Body := "" |}
       (storeWithWork "X")).1 !! "Location" = None /\
  http.Header
    (exampleServe
       {| http.Method := "GET"; http.URLPath := "/alice/a.ics";
          http.RawQuery := "x=1"; http.BasicAuth := None;
          http.Context := ∅; http.Body := "" |}
       (<["calendars/alice/a.ics" := os.Directory]> (storeWithWork "X"))).1
    !! "Location" = Some "a.ics/?x=1".
Proof. split; vm_compute; reflexivity. Qed.

End ResolutionTests.

(* ===================================================================== *)
(** ** Properties of the server *)
(* ===================================================================== *)

(** C1. For every inbound URL path, which net/http delivers with a
    leading slash, the storage location that both the GET and the PUT
    handler compute behind their [.ics] check, the storage root joined
    with the cleaned request path, is a strict descendant of the storage
    root [calendars]: the root's name followed by at least one element,
    none of which is empty, [.] or [..]. This holds whatever [.] and
    [..] elements the path contains. *)
Theorem storage_location_under_root (path : string) :
  filepath.rooted path = true ->
  strings.HasSuffix path ".ics" = true ->
  PathFacts.isDescendant dataDir (filePathOf path) = true.
Proof.
  intros Hr Hs.
  destruct (Location.filePathOf_rooted_ics path Hr Hs)
    as (init & e & He & _ & Hinit & ->).
  apply Location.isDescendant_Join.
  - destruct init; discriminate.
  - apply Forall_app. split; [assumption | repeat constructor; assumption].
Qed.


(** The hypothesis of a leading slash is needed: a relative path with a
    leading [..] would leave the storage root. *)
Remark relative_path_leaves_root :
  filePathOf "../x.ics" = "x.ics" /\
  PathFacts.isDescendant dataDir (filePathOf "../x.ics") = false.
Proof. split; reflexivity. Qed.

Section ServerFacts.

Variable users : gmap string string.
Variable validatesNames : bool.
Variable detectContentType : string -> string -> string.
Variable serveDirectory :
  gmap string os.node -> string -> string -> http.ResponseWriter ->
  http.ResponseWriter.

Local Abbreviation calendarHandler' :=
  (calendarHandler users validatesNames detectContentType serveDirectory).
Local Abbreviation rootHandler' :=
  (rootHandler users validatesNames detectContentType serveDirectory).
Local Abbreviation handleGetCalendar' :=
  (handleGetCalendar validatesNames detectContentType serveDirectory).
Local Abbreviation serve' := (serve users validatesNames detectContentType serveDirectory).

(** The request carries Basic credentials that match an entry of the
    credential store. *)
Definition credentialsOK (creds : gmap string string) (r : http.Request)
  : bool :=
  match http.BasicAuth r with
  | Some (username, password) =>
      bool_decide (creds !! username = Some password)
  | None => false
  end.

(** The response of [authMiddleware] to a request it rejects. *)
Definition unauthorized (w : http.ResponseWriter) : http.ResponseWriter :=
  http.Error (http.HeaderSet "WWW-Authenticate" challenge w)
             "Unauthorized" http.StatusUnauthorized.

(** *** Response writer *)

Lemma Status_Error (w : http.ResponseWriter) (msg : string) (code : nat) :
  http.Status w = None -> http.Status (http.Error w msg code) = Some code.
Proof.
  intros H. unfold http.Error, http.Write, http.WriteHeader. simpl.
  rewrite H. reflexivity.
Qed.

Lemma Written_Error (w : http.ResponseWriter) (msg : string) (code : nat) :
  http.Written (http.Error w msg code) =
  http.Written w +:+ msg +:+ http.newline.
Proof.
  unfold http.Error, http.Write, http.WriteHeader, http.HeaderSet,
    http.HeaderDel. simpl.
  destruct (http.Status w); reflexivity.
Qed.

Lemma Status_unauthorized :
  http.Status (unauthorized http.newResponseWriter) = Some 401.
Proof. reflexivity. Qed.

(** *** Authentication *)

Lemma authMiddleware_rejects (next : HandlerFunc) w r fs :
  credentialsOK users r = false ->
  authMiddleware users next w r fs = (unauthorized w, fs).
Proof.
  unfold credentialsOK, authMiddleware.
  destruct (http.BasicAuth r) as [[username password]|]; [|reflexivity].
  intros H. apply bool_decide_eq_false in H.
  destruct (users !! username) as [expected|] eqn:E; simpl; [|reflexivity].
  destruct (String.eqb_spec expected password) as [->|Hne]; [|reflexivity].
  congruence.
Qed.

Lemma authMiddleware_accepts (next : HandlerFunc) w r fs username password :
  http.BasicAuth r = Some (username, password) ->
  users !! username = Some password ->
  authMiddleware users next w r fs =
  next w (http.WithValue r "user" username) fs.
Proof.
  intros Hr Hu. unfold authMiddleware. rewrite Hr, Hu. simpl.
  now rewrite String.eqb_refl.
Qed.

Lemma credentialsOK_inv r :
  credentialsOK users r = true ->
  exists username password,
    http.BasicAuth r = Some (username, password) /\
    users !! username = Some password.
Proof.
  unfold credentialsOK.
  destruct (http.BasicAuth r) as [[username password]|]; [|discriminate].
  intros H. apply bool_decide_eq_true in H. eauto.
Qed.

Lemma calendarHandler_put w r fs :
  http.Method r = http.MethodPut ->
  calendarHandler' w r fs =
  authMiddleware users (handlePutCalendar) w r fs.
Proof.
  intros H. unfold calendarHandler. rewrite H.
  rewrite decide_False by discriminate. now rewrite decide_True.
Qed.

Lemma calendarHandler_get w r fs :
  http.Method r = http.MethodGet ->
  calendarHandler' w r fs = handleGetCalendar' w r fs.
Proof. intros H. unfold calendarHandler. now rewrite H, decide_True. Qed.

(** C4. For PUT requests, whatever their paths and bodies, the failure
    response is the same in the three cases: no credentials, an existing
    user name with a wrong secret, a user name absent from the
    credential store. It is status 401 with the challenge header
    [WWW-Authenticate: Basic realm="Restricted"] and the body
    [Unauthorized]. *)
Theorem unauthenticated_responses_identical
    (rNone rWrong rAbsent : http.Request) (fs : gmap string os.node)
    (uWrong pWrong expected uAbsent pAbsent : string) :
  http.Method rNone = http.MethodPut ->
  http.Method rWrong = http.MethodPut ->
  http.Method rAbsent = http.MethodPut ->
  http.BasicAuth rNone = None ->
  http.BasicAuth rWrong = Some (uWrong, pWrong) ->
  users !! uWrong = Some expected -> expected <> pWrong ->
  http.BasicAuth rAbsent = Some (uAbsent, pAbsent) ->
  users !! uAbsent = None ->
  (serve' rNone fs).1 = (serve' rWrong fs).1 /\
  (serve' rWrong fs).1 = (serve' rAbsent fs).1 /\
  http.Status (serve' rAbsent fs).1 = Some http.StatusUnauthorized /\
  http.Header (serve' rAbsent fs).1 !! "WWW-Authenticate" = Some challenge /\
  http.Written (serve' rAbsent fs).1 = "Unauthorized" +:+ http.newline.
Proof.
  intros M1 M2 M3 A1 A2 U2 Hne A3 U3.
  assert (H1 : serve' rNone fs = (unauthorized http.newResponseWriter, fs)).
  { unfold serve. rewrite calendarHandler_put by assumption.
    apply authMiddleware_rejects. unfold credentialsOK. now rewrite A1. }
  assert (H2 : serve' rWrong fs = (unauthorized http.newResponseWriter, fs)).
  { unfold serve. rewrite calendarHandler_put by assumption.
    apply authMiddleware_rejects. unfold credentialsOK. rewrite A2.
    apply bool_decide_eq_false. congruence. }
  assert (H3 : serve' rAbsent fs = (unauthorized http.newResponseWriter, fs)).
  { unfold serve. rewrite calendarHandler_put by assumption.
    apply authMiddleware_rejects. unfold credentialsOK. rewrite A3.
    apply bool_decide_eq_false. congruence. }
  rewrite H1, H2, H3. repeat split; reflexivity.
Qed.

(** C7. For every PUT request that the router dispatches, the
    credentials are checked before the path is looked at: without valid
    credentials the response is 401 with the challenge header and the
    file system is untouched, whatever the path; status 400 is only
    produced when the credentials are valid, and then it is produced for
    every path that does not end in [.ics]. *)
Theorem put_authenticates_before_path (r : http.Request)
    (fs : gmap string os.node) :
  http.Method r = http.MethodPut ->
  (credentialsOK users r = false ->
     serve' r fs = (unauthorized http.newResponseWriter, fs) /\
     http.Status (serve' r fs).1 = Some http.StatusUnauthorized /\
     http.Header (serve' r fs).1 !! "WWW-Authenticate" = Some challenge) /\
  (http.Status (serve' r fs).1 = Some http.StatusBadRequest ->
     credentialsOK users r = true) /\
  (credentialsOK users r = true ->
     strings.HasSuffix (http.URLPath r) ".ics" = false ->
     http.Status (serve' r fs).1 = Some http.StatusBadRequest).
Proof.
  intros M.
  assert (Hrej : credentialsOK users r = false ->
                 serve' r fs = (unauthorized http.newResponseWriter, fs)).
  { intros H. unfold serve. rewrite calendarHandler_put by assumption.
    now apply authMiddleware_rejects. }
  split; [|split].
  - intros H. rewrite (Hrej H). repeat split; reflexivity.
  - intros H400. destruct (credentialsOK users r) eqn:E; [reflexivity|].
    rewrite (Hrej eq_refl) in H400. discriminate.
  - intros Hok Hsuf. apply credentialsOK_inv in Hok as (u & p & Hb & Hu).
    unfold serve. rewrite calendarHandler_put by assumption.
    rewrite (authMiddleware_accepts _ _ _ _ u p) by assumption.
    unfold handlePutCalendar. simpl. rewrite Hsuf. reflexivity.
Qed.

(** *** The outcomes of an authenticated PUT *)

Inductive putOutcome (username : string) (r : http.Request)
    (fs : gmap string os.node)
  : http.ResponseWriter * gmap string os.node -> Prop :=
  | PutBadSuffix :
      strings.HasSuffix (http.URLPath r) ".ics" = false ->
      putOutcome username r fs
        (http.Error http.newResponseWriter "Invalid path. Must end with .ics"
           http.StatusBadRequest, fs)
  | PutBadFormat :
      strings.HasSuffix (http.URLPath r) ".ics" = true ->
      length (pathParts (http.URLPath r)) < 2 ->
      putOutcome username r fs
        (http.Error http.newResponseWriter
           "Invalid path format. Expected /{username}/{calendar}.ics"
           http.StatusBadRequest, fs)
  | PutForbidden :
      strings.HasSuffix (http.URLPath r) ".ics" = true ->
      2 <= length (pathParts (http.URLPath r)) ->
      username <> nth 0 (pathParts (http.URLPath r)) "" ->
      putOutcome username r fs
        (http.Error http.newResponseWriter
           "Forbidden. You can only edit your own calendars."
           http.StatusForbidden, fs)
  | PutMkdirFailed fs1 err :
      strings.HasSuffix (http.URLPath r) ".ics" = true ->
      2 <= length (pathParts (http.URLPath r)) ->
      username = nth 0 (pathParts (http.URLPath r)) "" ->
      os.MkdirAll fs (filepath.Dir (filePathOf (http.URLPath r)))
        = (fs1, Some err) ->
      putOutcome username r fs
        (http.Error http.newResponseWriter "Internal Server Error"
           http.StatusInternalServerError, fs1)
  | PutWriteFailed fs1 :
      strings.HasSuffix (http.URLPath r) ".ics" = true ->
      2 <= length (pathParts (http.URLPath r)) ->
      username = nth 0 (pathParts (http.URLPath r)) "" ->
      os.MkdirAll fs (filepath.Dir (filePathOf (http.URLPath r)))
        = (fs1, None) ->
      os.WriteFile fs1 (filePathOf (http.URLPath r)) (http.Body r) = None ->
      putOutcome username r fs
        (http.Error http.newResponseWriter "Internal Server Error"
           http.StatusInternalServerError, fs1)
  | PutWritten fs1 fs2 :
      strings.HasSuffix (http.URLPath r) ".ics" = true ->
      2 <= length (pathParts (http.URLPath r)) ->
      username = nth 0 (pathParts (http.URLPath r)) "" ->
      os.MkdirAll fs (filepath.Dir (filePathOf (http.URLPath r)))
        = (fs1, None) ->
      os.WriteFile fs1 (filePathOf (http.URLPath r)) (http.Body r) = Some fs2 ->
      putOutcome username r fs
        (http.WriteHeader http.StatusNoContent http.newResponseWriter, fs2).

Lemma handlePutCalendar_outcome r fs username :
  putOutcome username r fs
    (handlePutCalendar http.newResponseWriter
       (http.WithValue r "user" username) fs).
Proof.
  unfold handlePutCalendar.
  change (http.URLPath (http.WithValue r "user" username))
    with (http.URLPath r).
  change (http.Body (http.WithValue r "user" username)) with (http.Body r).
  change (http.Context (http.WithValue r "user" username))
    with (<["user" := username]> (http.Context r)).
  rewrite lookup_insert_eq.
  change (filepath.Join [dataDir; filepath.Clean (http.URLPath r)])
    with (filePathOf (http.URLPath r)).
  fold (pathParts (http.URLPath r)).
  destruct (strings.HasSuffix (http.URLPath r) ".ics") eqn:Hs; simpl negb;
    cbv iota; [|now constructor].
  destruct (Nat.ltb_spec (length (pathParts (http.URLPath r))) 2) as [Hl|Hl];
    [now constructor|].
  rewrite orb_false_l.
  destruct (String.eqb_spec username (nth 0 (pathParts (http.URLPath r)) ""))
    as [He|He]; simpl negb; cbv iota; [|now constructor].
  destruct (os.MkdirAll fs (filepath.Dir (filePathOf (http.URLPath r))))
    as [fs1 [err|]] eqn:Hm; [now apply (PutMkdirFailed _ _ _ fs1 err)|].
  destruct (os.WriteFile fs1 (filePathOf (http.URLPath r)) (http.Body r))
    as [fs2|] eqn:Hw; [now apply (PutWritten _ _ _ fs1 fs2) |
                        now apply (PutWriteFailed _ _ _ fs1)].
Qed.

(** Every authenticated PUT ends in one of the six outcomes. *)
Lemma put_outcome r fs username password :
  http.Method r = http.MethodPut ->
  http.BasicAuth r = Some (username, password) ->
  users !! username = Some password ->
  putOutcome username r fs (serve' r fs).
Proof.
  intros M Hb Hu. unfold serve. rewrite calendarHandler_put by assumption.
  rewrite (authMiddleware_accepts _ _ _ _ username password) by assumption.
  apply handlePutCalendar_outcome.
Qed.

(** *** The outcomes of a GET *)

Definition calendarType : string := "text/calendar; charset=utf-8".

Definition typedWriter : http.ResponseWriter :=
  http.HeaderSet "Content-Type" calendarType http.newResponseWriter.

Inductive getOutcome (r : http.Request) (fs : gmap string os.node)
  : http.ResponseWriter -> Prop :=
  | GetBadSuffix :
      strings.HasSuffix (http.URLPath r) ".ics" = false ->
      getOutcome r fs (http.NotFound http.newResponseWriter r)
  | GetMissing :
      strings.HasSuffix (http.URLPath r) ".ics" = true ->
      os.Stat fs (filePathOf (http.URLPath r)) = inr os.ENOENT ->
      getOutcome r fs (http.NotFound http.newResponseWriter r)
  | GetRefused :
      strings.HasSuffix (http.URLPath r) ".ics" = true ->
      os.Stat fs (filePathOf (http.URLPath r)) <> inr os.ENOENT ->
      http.containsDotDot (http.URLPath r) = true ->
      getOutcome r fs
        (http.serveError typedWriter "invalid URL path" http.StatusBadRequest)
  | GetOpenFailed err :
      strings.HasSuffix (http.URLPath r) ".ics" = true ->
      os.Stat fs (filePathOf (http.URLPath r)) <> inr os.ENOENT ->
      http.containsDotDot (http.URLPath r) = false ->
      http.DirOpen validatesNames fs (filePathOf (http.URLPath r)) = inr err ->
      getOutcome r fs
        (http.serveError typedWriter (http.toHTTPError err).1
           (http.toHTTPError err).2)
  | GetDirectory :
      strings.HasSuffix (http.URLPath r) ".ics" = true ->
      os.Stat fs (filePathOf (http.URLPath r)) = inl os.Directory ->
      http.containsDotDot (http.URLPath r) = false ->
      http.DirOpen validatesNames fs (filePathOf (http.URLPath r)) = inl os.Directory ->
      getOutcome r fs
        (http.localRedirect typedWriter r
           (path_Base (http.URLPath r) +:+ "/"))
  | GetFile content :
      strings.HasSuffix (http.URLPath r) ".ics" = true ->
      os.Stat fs (filePathOf (http.URLPath r)) = inl (os.File content) ->
      http.containsDotDot (http.URLPath r) = false ->
      http.DirOpen validatesNames fs (filePathOf (http.URLPath r))
        = inl (os.File content) ->
      getOutcome r fs
        (http.serveContent detectContentType typedWriter r
           (http.fileName (filePathOf (http.URLPath r))) content).

(** What [Open] finds is what [Stat] finds. *)
Lemma DirOpen_inl fs name n :
  http.DirOpen validatesNames fs name = inl n -> os.Stat fs name = inl n.
Proof.
  unfold http.DirOpen. destruct (negb _); [discriminate|].
  destruct (os.Stat fs name); intros H; inversion H. reflexivity.
Qed.

(** A name that [Stat] finds is opened, unless the file server refuses
    its file part. *)
Lemma DirOpen_Stat fs name n :
  http.Localize validatesNames (http.fileName name) = true ->
  os.Stat fs name = inl n -> http.DirOpen validatesNames fs name = inl n.
Proof. intros Hl Hst. unfold http.DirOpen. now rewrite Hl, Hst. Qed.

Lemma DirOpen_found fs name n :
  os.Stat fs name = inl n ->
  http.DirOpen validatesNames fs name = inl n \/
  http.DirOpen validatesNames fs name = inr http.ErrInvalidPath.
Proof.
  intros Hst. unfold http.DirOpen.
  destruct (http.Localize validatesNames (http.fileName name));
    simpl negb; cbv iota;
    [left; now rewrite Hst | now right].
Qed.

(** The file server accepts the file part of an existing storage
    location, provided it is valid UTF-8 when the server validates
    names. *)
Lemma served_name_accepted fs path n :
  strings.HasSuffix path ".ics" = true ->
  os.Stat fs (filePathOf path) = inl n ->
  (validatesNames = true -> utf8.ValidString (servedName path) = true) ->
  http.Localize validatesNames (http.fileName (filePathOf path)) = true.
Proof.
  intros Hs Hst Hutf.
  rewrite Location.Localize_proper.
  - destruct validatesNames; [exact (Hutf eq_refl) | reflexivity].
  - now apply Location.fileName_filePathOf.
  - exact (StoreFacts.Stat_no_NUL _ _ _ Hst).
Qed.

Lemma get_outcome r fs :
  http.Method r = http.MethodGet ->
  exists resp, serve' r fs = (resp, fs) /\ getOutcome r fs resp.
Proof.
  intros M. unfold serve. rewrite calendarHandler_get by assumption.
  unfold handleGetCalendar.
  change (filepath.Join [dataDir; filepath.Clean (http.URLPath r)])
    with (filePathOf (http.URLPath r)).
  destruct (strings.HasSuffix (http.URLPath r) ".ics") eqn:Hs; simpl negb;
    cbv iota; [|eexists; split; [reflexivity | now constructor]].
  destruct (os.IsNotExist (os.Stat fs (filePathOf (http.URLPath r))))
    eqn:Hne.
  { eexists; split; [reflexivity|]. apply GetMissing; [assumption|].
    destruct (os.Stat fs (filePathOf (http.URLPath r))) as [?|[]];
      try discriminate; reflexivity. }
  assert (Hst : os.Stat fs (filePathOf (http.URLPath r)) <> inr os.ENOENT).
  { intros E. rewrite E in Hne. discriminate. }
  eexists; split; [reflexivity|].
  unfold ServeFile, http.ServeFile. fold calendarType. fold typedWriter.
  destruct (http.containsDotDot (http.URLPath r)) eqn:Hdd;
    [now apply GetRefused|].
  rewrite (StringFacts.ics_not_index _ Hs).
  destruct (http.DirOpen validatesNames fs (filePathOf (http.URLPath r)))
    as [[content|]|err] eqn:Hopen.
  - pose proof (DirOpen_inl _ _ _ Hopen). now apply GetFile.
  - pose proof (DirOpen_inl _ _ _ Hopen).
    unfold http.lastIsSlash. rewrite (StringFacts.ics_not_slash _ Hs).
    now apply GetDirectory.
  - now apply (GetOpenFailed _ _ err).
Qed.

Lemma serveContent_typed r name content :
  http.Method r = http.MethodGet ->
  http.Status (http.serveContent detectContentType typedWriter r name content)
    = Some http.StatusOK /\
  http.Written (http.serveContent detectContentType typedWriter r name content)
    = content /\
  http.Header (http.serveContent detectContentType typedWriter r name content)
    !! "Content-Type" = Some calendarType.
Proof.
  intros M. unfold http.serveContent. rewrite M.
  rewrite decide_False by discriminate. repeat split; reflexivity.
Qed.

Lemma Status_toHTTPError w err :
  http.Status w = None ->
  http.Status (http.serveError w (http.toHTTPError err).1
                 (http.toHTTPError err).2) = Some http.StatusNotFound \/
  http.Status (http.serveError w (http.toHTTPError err).1
                 (http.toHTTPError err).2)
    = Some http.StatusInternalServerError.
Proof.
  intros Hw. unfold http.serveError.
  destruct err as [|[]]; simpl http.toHTTPError; simpl fst; simpl snd;
    rewrite Status_Error by exact Hw; auto.
Qed.

(** A GET answers 200 only when it sends a stored file. *)
Lemma get_200_is_file r fs resp :
  http.Method r = http.MethodGet ->
  getOutcome r fs resp ->
  http.Status resp = Some http.StatusOK ->
  exists content,
    os.Stat fs (filePathOf (http.URLPath r)) = inl (os.File content) /\
    http.containsDotDot (http.URLPath r) = false /\
    http.Written resp = content /\
    http.Header resp !! "Content-Type" = Some calendarType.
Proof.
  intros M Hout H200.
  destruct Hout as [| | |err Hs Hst Hdd Hopen| |content Hs Hst Hdd];
    try discriminate.
  - destruct (Status_toHTTPError typedWriter err eq_refl) as [E|E];
      rewrite E in H200; discriminate.
  - exists content.
    destruct (serveContent_typed r
                (http.fileName (filePathOf (http.URLPath r))) content M)
      as (_ & Hw & Hct).
    auto.
Qed.

(** *** Ownership *)


(** C8 (amended). For every request path that ends in [.ics] and has
    fewer than two segments once leading and trailing slashes are
    trimmed: a PUT with valid credentials receives 400 Bad Request and
    writes nothing (a PUT without valid credentials receives 401, as
    for any other path); the location a GET resolves lies directly under
    the storage root, in no owner's directory, so a GET answers 200 only
    with a file stored at that location. *)
Theorem short_path_rejected (path : string) :
  strings.HasSuffix path ".ics" = true ->
  length (strings.Split (strings.Trim path "/") "/"%char) < 2 ->
  (forall r fs,
     http.Method r = http.MethodPut -> http.URLPath r = path ->
     credentialsOK users r = true ->
     http.Status (serve' r fs).1 = Some http.StatusBadRequest /\
     (serve' r fs).2 = fs) /\
  filePathOf path = dataDir +:+ "/" +:+ strings.Trim path "/" /\
  locationOwner (filePathOf path) = None /\
  (forall r fs,
     http.Method r = http.MethodGet -> http.URLPath r = path ->
     http.Status (serve' r fs).1 = Some http.StatusOK ->
     exists content,
       fs !! (dataDir +:+ "/" +:+ strings.Trim path "/")
         = Some (os.File content) /\
       http.Written (serve' r fs).1 = content).
Proof.
  intros Hs Hl.
  destruct (Location.single_segment_location path Hs Hl) as [Hsep Hloc].
  split; [|split; [|split]].
  - intros r fs M Hp Hok. subst path.
    apply credentialsOK_inv in Hok as (u & p & Hb & Hu).
    pose proof (put_outcome r fs u p M Hb Hu) as H.
    fold (pathParts (http.URLPath r)) in Hl.
    destruct H; simpl fst; simpl snd; try lia; try congruence.
    split; reflexivity.
  - exact Hloc.
  - rewrite Hloc. now apply Location.single_segment_no_owner.
  - intros r fs M Hp H200. subst path.
    destruct (get_outcome r fs M) as (resp & Hserve & Hout).
    rewrite Hserve in *. simpl fst in *.
    destruct (get_200_is_file r fs resp M Hout H200)
      as (content & Hst & _ & Hw & _).
    exists content. split; [|assumption].
    rewrite Hloc in Hst. exact (StoreFacts.Stat_File_lookup _ _ _ Hst).
Qed.

(** *** Writing and reading back *)

(** A PUT answered 204 carried valid credentials and went through the
    directory creation and the file write. *)
Lemma put_204_inv r fs :
  http.Method r = http.MethodPut ->
  http.Status (serve' r fs).1 = Some http.StatusNoContent ->
  exists fs1 fs2,
    credentialsOK users r = true /\
    strings.HasSuffix (http.URLPath r) ".ics" = true /\
    os.MkdirAll fs (filepath.Dir (filePathOf (http.URLPath r)))
      = (fs1, None) /\
    os.WriteFile fs1 (filePathOf (http.URLPath r)) (http.Body r) = Some fs2 /\
    serve' r fs =
      (http.WriteHeader http.StatusNoContent http.newResponseWriter, fs2).
Proof.
  intros M H204. destruct (credentialsOK users r) eqn:Hok.
  - destruct (credentialsOK_inv r Hok) as (u & p & Hb & Hu).
    pose proof (put_outcome r fs u p M Hb Hu) as H.
    destruct H as [Hs|Hs Hl|Hs Hl Hne|fs1 err Hs Hl He Hm|fs1 Hs Hl He Hm Hw
                   |fs1 fs2 Hs Hl He Hm Hw]; try discriminate.
    exists fs1, fs2. auto.
  - unfold serve in H204. rewrite calendarHandler_put in H204 by assumption.
    rewrite authMiddleware_rejects in H204 by assumption. discriminate.
Qed.

(** A GET of a path that ends in [.ics], has no [..] element and
    resolves to a stored file sends that file, provided the name of the
    file is valid UTF-8 when the file server validates names. *)
Lemma get_serves_file g fs content :
  http.Method g = http.MethodGet ->
  strings.HasSuffix (http.URLPath g) ".ics" = true ->
  http.containsDotDot (http.URLPath g) = false ->
  (validatesNames = true ->
     utf8.ValidString (servedName (http.URLPath g)) = true) ->
  os.Stat fs (filePathOf (http.URLPath g)) = inl (os.File content) ->
  (serve' g fs).2 = fs /\
  http.Status (serve' g fs).1 = Some http.StatusOK /\
  http.Written (serve' g fs).1 = content /\
  http.Header (serve' g fs).1 !! "Content-Type" = Some calendarType.
Proof.
  intros M Hs Hdd Hutf Hst.
  destruct (get_outcome g fs M) as (resp & -> & Hout). simpl fst; simpl snd.
  destruct Hout as [| | |err ? ? ? Hopen| |content']; try congruence.
  - rewrite (DirOpen_Stat _ _ _ (served_name_accepted _ _ _ Hs Hst Hutf) Hst)
      in Hopen.
    discriminate.
  - assert (content' = content) by congruence. subst content'.
    split; [reflexivity|]. now apply serveContent_typed.
Qed.

(** The file server and the GET handler do not look at the credentials
    of the request. *)
Lemma ServeFile_credentials fs w r cred name :
  ServeFile validatesNames detectContentType serveDirectory fs w
    (http.withBasicAuth r cred) name =
  ServeFile validatesNames detectContentType serveDirectory fs w r name.
Proof. reflexivity. Qed.

Lemma handleGetCalendar_credentials w r cred fs :
  handleGetCalendar' w (http.withBasicAuth r cred) fs =
  handleGetCalendar' w r fs.
Proof.
  unfold handleGetCalendar.
  change (http.URLPath (http.withBasicAuth r cred)) with (http.URLPath r).
  now rewrite ServeFile_credentials.
Qed.

(** C5 (amended). For every location that holds a file with content
    C1, a PUT answered 204 leaves the stored document equal to exactly
    the payload C2 of the request (full replacement). A subsequent GET
    of a path that resolves to the location and has no [..] element
    answers 200 with body C2, provided the name of the file is valid
    UTF-8 when the file server validates names (Go 1.23 and later);
    whatever its path, a GET of the location that answers 200 answers
    with body C2: the old content, or any combination with it, is never
    returned. (The file-serving routine refuses a GET whose path has a
    [..] element, and since Go 1.23 a file name that is not valid
    UTF-8.) *)
Theorem put_replaces_content (r : http.Request) (fs : gmap string os.node)
    (C1 : string) :
  http.Method r = http.MethodPut ->
  os.Stat fs (filePathOf (http.URLPath r)) = inl (os.File C1) ->
  http.Status (serve' r fs).1 = Some http.StatusNoContent ->
  os.Stat (serve' r fs).2 (filePathOf (http.URLPath r))
    = inl (os.File (http.Body r)) /\
  forall g,
    http.Method g = http.MethodGet ->
    strings.HasSuffix (http.URLPath g) ".ics" = true ->
    filePathOf (http.URLPath g) = filePathOf (http.URLPath r) ->
    (http.Status (serve' g (serve' r fs).2).1 = Some http.StatusOK ->
       http.Written (serve' g (serve' r fs).2).1 = http.Body r) /\
    (http.containsDotDot (http.URLPath g) = false ->
     (validatesNames = true ->
        utf8.ValidString (servedName (http.URLPath g)) = true) ->
       http.Status (serve' g (serve' r fs).2).1 = Some http.StatusOK /\
       http.Written (serve' g (serve' r fs).2).1 = http.Body r).
Proof.
  intros M _ H204.
  destruct (put_204_inv r fs M H204) as (fs1 & fs2 & _ & _ & _ & Hw & ->).
  simpl snd. pose proof (StoreFacts.Stat_WriteFile _ _ _ _ Hw) as Hst.
  split; [assumption|]. intros g Mg Hs Hloc. rewrite <- Hloc in Hst. split.
  - intros H200. destruct (get_outcome g fs2 Mg) as (resp & Hg & Hout).
    rewrite Hg in *. simpl fst in *.
    destruct (get_200_is_file g fs2 resp Mg Hout H200)
      as (content & Hst' & _ & Hwr & _). congruence.
  - intros Hdd Hutf.
    destruct (get_serves_file g fs2 (http.Body r) Mg Hs Hdd Hutf Hst)
      as (_ & H200 & Hwr & _). auto.
Qed.

(** C6 (amended). For every GET request, the response (status,
    headers, body) and the file system are the same whatever credentials
    the request carries and whatever the credential store holds: neither
    is consulted, at the router and at the root handler. A response with
    status 200 is a stored file sent with media type
    [text/calendar; charset=utf-8], and a stored file is sent so to any
    requester whose path ends in [.ics] and has no [..] element,
    provided the name of the file is valid UTF-8 when the file server
    validates names (Go 1.23 and later). (The file-serving routine
    refuses a GET whose path has a [..] element, and since Go 1.23 a
    file name that is not valid UTF-8, also when the file exists.) *)
Theorem get_ignores_credentials (r : http.Request)
    (fs : gmap string os.node) :
  http.Method r = http.MethodGet ->
  (forall cred otherUsers,
     serve otherUsers validatesNames detectContentType serveDirectory
       (http.withBasicAuth r cred) fs = serve' r fs) /\
  (forall cred otherUsers w,
     rootHandler otherUsers validatesNames detectContentType serveDirectory w
       (http.withBasicAuth r cred) fs = rootHandler' w r fs) /\
  (http.Status (serve' r fs).1 = Some http.StatusOK ->
     exists content,
       os.Stat fs (filePathOf (http.URLPath r)) = inl (os.File content) /\
       http.Written (serve' r fs).1 = content /\
       http.Header (serve' r fs).1 !! "Content-Type" = Some calendarType) /\
  (forall content cred,
     strings.HasSuffix (http.URLPath r) ".ics" = true ->
     http.containsDotDot (http.URLPath r) = false ->
     (validatesNames = true ->
        utf8.ValidString (servedName (http.URLPath r)) = true) ->
     os.Stat fs (filePathOf (http.URLPath r)) = inl (os.File content) ->
     http.Status (serve' (http.withBasicAuth r cred) fs).1
       = Some http.StatusOK /\
     http.Written (serve' (http.withBasicAuth r cred) fs).1 = content /\
     http.Header (serve' (http.withBasicAuth r cred) fs).1 !! "Content-Type"
       = Some calendarType).
Proof.
  intros M.
  assert (Hind : forall cred otherUsers,
            serve otherUsers validatesNames detectContentType serveDirectory
              (http.withBasicAuth r cred) fs = serve' r fs).
  { intros cred otherUsers. unfold serve, calendarHandler.
    change (http.Method (http.withBasicAuth r cred)) with (http.Method r).
    rewrite M. rewrite !decide_True by reflexivity.
    apply handleGetCalendar_credentials. }
  split; [exact Hind|]. split; [|split].
  - intros cred otherUsers w. unfold rootHandler, calendarHandler.
    change (http.Method (http.withBasicAuth r cred)) with (http.Method r).
    change (http.URLPath (http.withBasicAuth r cred)) with (http.URLPath r).
    destruct (decide (http.URLPath r = "/"));
      [now rewrite ServeFile_credentials|].
    rewrite M. rewrite !decide_True by reflexivity.
    apply handleGetCalendar_credentials.
  - intros H200. destruct (get_outcome r fs M) as (resp & Hg & Hout).
    rewrite Hg in *. simpl fst in *.
    destruct (get_200_is_file r fs resp M Hout H200)
      as (content & Hst & _ & Hwr & Hct). eauto.
  - intros content cred Hs Hdd Hutf Hst. rewrite Hind.
    destruct (get_serves_file r fs content M Hs Hdd Hutf Hst) as (_ & H).
    exact H.
Qed.

(** C3 (amended). For every user name U of the credential store that is
    a non-empty name without slash, every calendar name N and every
    payload D: a PUT to /U/N.ics with U's credentials and body D passes
    the path and ownership checks; it is answered 204 with an empty body
    when the directory creation and the file write succeed, and 500
    otherwise. After a 204, a subsequent GET of the same path, with any
    or no credentials, is answered 200 with media type text/calendar and
    body exactly D, provided the path has no [..] element and, when
    the file server validates names (Go 1.23 and later), the name of the
    file is valid UTF-8. *)
Theorem write_then_read (U secret N D : string) (fs : gmap string os.node) :
  users !! U = Some secret ->
  U <> "" ->
  StringFacts.hasByte U "/"%char = false ->
  match os.MkdirAll fs (filepath.Dir (filePathOf (calendarPath U N))) with
  | (fs1, Some _) =>
      serve' (PUT (calendarPath U N) (Some (U, secret)) D) fs =
        (http.Error http.newResponseWriter "Internal Server Error"
           http.StatusInternalServerError, fs1)
  | (fs1, None) =>
      match os.WriteFile fs1 (filePathOf (calendarPath U N)) D with
      | None =>
          serve' (PUT (calendarPath U N) (Some (U, secret)) D) fs =
            (http.Error http.newResponseWriter "Internal Server Error"
               http.StatusInternalServerError, fs1)
      | Some fs2 =>
          serve' (PUT (calendarPath U N) (Some (U, secret)) D) fs =
            (http.WriteHeader http.StatusNoContent http.newResponseWriter,
             fs2) /\
          http.Status
            (serve' (PUT (calendarPath U N) (Some (U, secret)) D) fs).1
            = Some http.StatusNoContent /\
          http.Written
            (serve' (PUT (calendarPath U N) (Some (U, secret)) D) fs).1
            = "" /\
          (http.containsDotDot (calendarPath U N) = false ->
           (validatesNames = true ->
              utf8.ValidString (servedName (calendarPath U N)) = true) ->
           forall cred,
             (serve' (GET (calendarPath U N) cred) fs2).2 = fs2 /\
             http.Status (serve' (GET (calendarPath U N) cred) fs2).1
               = Some http.StatusOK /\
             http.Written (serve' (GET (calendarPath U N) cred) fs2).1 = D /\
             http.Header (serve' (GET (calendarPath U N) cred) fs2).1
               !! "Content-Type" = Some calendarType)
      end
  end.
Proof.
  intros Hu Hne Hsep.
  pose proof (Location.calendarPath_suffix U N) as Hs.
  pose proof (Location.calendarPath_parts U N Hne Hsep) as Hparts.
  pose proof (StringFacts.Split_not_nil (N +:+ ".ics") filepath.Separator)
    as Hnn.
  pose proof (put_outcome (PUT (calendarPath U N) (Some (U, secret)) D)
                fs U secret eq_refl eq_refl Hu) as H.
  simpl http.URLPath in H. simpl http.Body in H.
  destruct H as [Hs'|Hs' Hl|Hs' Hl Hx|fs1 err Hs' Hl He Hm|fs1 Hs' Hl He Hm Hw
                 |fs1 fs2 Hs' Hl He Hm Hw];
    simpl http.URLPath in *; simpl http.Body in *.
  - congruence.
  - rewrite Hparts in Hl.
    destruct (strings.Split (N +:+ ".ics") filepath.Separator); [congruence|].
    simpl in Hl. lia.
  - rewrite Hparts in Hx. simpl in Hx. congruence.
  - rewrite Hm. reflexivity.
  - rewrite Hm, Hw. reflexivity.
  - rewrite Hm, Hw. split; [reflexivity|]. split; [reflexivity|].
    split; [reflexivity|]. intros Hdd Hutf cred.
    exact (get_serves_file (GET (calendarPath U N) cred) fs2 D
             eq_refl Hs Hdd Hutf (StoreFacts.Stat_WriteFile _ _ _ _ Hw)).
Qed.

(** *** Side effects *)

Lemma handleGetCalendar_frame w r fs : (handleGetCalendar' w r fs).2 = fs.
Proof.
  unfold handleGetCalendar.
  destruct (negb (strings.HasSuffix (http.URLPath r) ".ics")); [reflexivity|].
  destruct (os.IsNotExist _); reflexivity.
Qed.

Lemma calendarHandler_frame w r fs :
  http.Method r <> http.MethodPut \/ credentialsOK users r = false ->
  (calendarHandler' w r fs).2 = fs.
Proof.
  intros H. unfold calendarHandler. case_decide as Hget.
  - apply handleGetCalendar_frame.
  - case_decide as Hput; [|reflexivity].
    destruct H as [H|H]; [contradiction|].
    now rewrite authMiddleware_rejects.
Qed.

Lemma rootHandler_frame w r fs :
  http.Method r <> http.MethodPut \/ credentialsOK users r = false ->
  (rootHandler' w r fs).2 = fs.
Proof.
  intros H. unfold rootHandler. case_decide; [reflexivity|].
  now apply calendarHandler_frame.
Qed.

(** C9 (amended). The file system changes only in the PUT handler: a
    GET request, a request with any other method than PUT, and a PUT
    without valid credentials leave every file and directory as it was,
    at the router and at the root handler. A write completed by a PUT
    is visible to every subsequent GET of the same path when that path
    has no [..] element and, when the file server validates names (Go
    1.23 and later), the name of the file is valid UTF-8: the GET
    answers 200 with the body written. (The file-serving routine
    refuses a GET whose path has a [..] element, and since Go 1.23 a
    file name that is not valid UTF-8.) *)
Theorem side_effects_confined (w : http.ResponseWriter) (r : http.Request)
    (fs : gmap string os.node) :
  (http.Method r <> http.MethodPut \/ credentialsOK users r = false ->
     (calendarHandler' w r fs).2 = fs /\ (rootHandler' w r fs).2 = fs) /\
  (http.Method r = http.MethodPut ->
     http.Status (serve' r fs).1 = Some http.StatusNoContent ->
     http.containsDotDot (http.URLPath r) = false ->
     (validatesNames = true ->
        utf8.ValidString (servedName (http.URLPath r)) = true) ->
     forall cred,
       http.Status (serve' (GET (http.URLPath r) cred) (serve' r fs).2).1
         = Some http.StatusOK /\
       http.Written (serve' (GET (http.URLPath r) cred) (serve' r fs).2).1
         = http.Body r /\
       (serve' (GET (http.URLPath r) cred) (serve' r fs).2).2
         = (serve' r fs).2).
Proof.
  split.
  - intros H. split; [now apply calendarHandler_frame
                     | now apply rootHandler_frame].
  - intros M H204 Hdd Hutf cred.
    destruct (put_204_inv r fs M H204) as (fs1 & fs2 & _ & Hs & _ & Hw & ->).
    simpl snd. pose proof (StoreFacts.Stat_WriteFile _ _ _ _ Hw) as Hst.
    destruct (get_serves_file (GET (http.URLPath r) cred) fs2 (http.Body r)
                eq_refl Hs Hdd Hutf Hst) as (Hfs & H200 & Hwr & _).
    auto.
Qed.

End ServerFacts.

(* ===================================================================== *)
(** ** Concrete runs *)
(* ===================================================================== *)

Lemma storage_location_under_root_witness :
  filepath.rooted "/alice/../../../etc/./passwd.ics" = true /\
  filePathOf "/alice/../../../etc/./passwd.ics" = "calendars/etc/passwd.ics" /\
  PathFacts.isDescendant dataDir
    (filePathOf "/alice/../../../etc/./passwd.ics") = true.
Proof.
  split; [reflexivity|]. split; [reflexivity|].
  apply (storage_location_under_root "/alice/../../../etc/./passwd.ics");
    reflexivity.
Defined.

(** C2. The ownership check does not protect another owner's namespace:
    a PUT by alice to /alice/../bob/x.ics, whose owner segment after
    normalization is bob, is answered 204 and creates bob's directory
    and a file in it. *)
Theorem traversal_put_crosses_owners :
  exampleUsers !! "alice" = Some "s3cr3t" /\
  normalizedOwner "/alice/../bob/x.ics" = "bob" /\
  locationOwner (filePathOf "/alice/../bob/x.ics") = Some "bob" /\
  exampleStore !! "calendars/bob" = None /\
  exampleStore !! "calendars/bob/x.ics" = None /\
  http.Status
    (exampleServe (PUT "/alice/../bob/x.ics" aliceCred "X") exampleStore).1
    = Some http.StatusNoContent /\
  (exampleServe (PUT "/alice/../bob/x.ics" aliceCred "X") exampleStore).2
    !! "calendars/bob" = Some os.Directory /\
  (exampleServe (PUT "/alice/../bob/x.ics" aliceCred "X") exampleStore).2
    !! "calendars/bob/x.ics" = Some (os.File "X").
Proof. repeat split; vm_compute; reflexivity. Qed.

(** The claim C3 as it is stated: for every user of the credential
    store, every calendar name and every payload, the PUT succeeds and
    the GET that follows returns the payload. *)
Definition write_then_read_as_stated : Prop :=
  forall (users : gmap string string) validates detect directory
         (U secret N D : string) (fs : gmap string os.node),
    users !! U = Some secret ->
    http.Status
      (serve users validates detect directory
         (PUT (calendarPath U N) (Some (U, secret)) D) fs).1
      = Some http.StatusNoContent /\
    forall cred,
      http.Status
        (serve users validates detect directory (GET (calendarPath U N) cred)
           (serve users validates detect directory
              (PUT (calendarPath U N) (Some (U, secret)) D) fs).2).1
        = Some http.StatusOK /\
      http.Written
        (serve users validates detect directory (GET (calendarPath U N) cred)
           (serve users validates detect directory
              (PUT (calendarPath U N) (Some (U, secret)) D) fs).2).1
        = D.

(** For the user name team/alice of the credential store, the PUT to
    that user's calendar is answered 403: the first raw segment of
    /team/alice/work.ics is team. *)
Lemma write_then_read_counterexample : ~ write_then_read_as_stated.
Proof.
  intros H.
  destruct (H teamUsers true exampleDetect exampleDirectory
              "team/alice" "pw" "work" "X" exampleStore eq_refl) as [H204 _].
  vm_compute in H204. discriminate H204.
Qed.

Lemma write_then_read_witness :
  exampleUsers !! "alice" = Some "s3cr3t" /\
  http.containsDotDot (calendarPath "alice" "work") = false /\
  http.Status
    (exampleServe (PUT (calendarPath "alice" "work") aliceCred "X")
       exampleStore).1 = Some http.StatusNoContent /\
  (exampleServe (PUT (calendarPath "alice" "work") aliceCred "X")
     exampleStore).2 = storeWithWork "X" /\
  http.Status
    (exampleServe (GET (calendarPath "alice" "work") None)
       (storeWithWork "X")).1 = Some http.StatusOK /\
  http.Written
    (exampleServe (GET (calendarPath "alice" "work") None)
       (storeWithWork "X")).1 = "X".
Proof.
  pose proof (write_then_read exampleUsers true exampleDetect exampleDirectory
                "alice" "s3cr3t" "work" "X" exampleStore
                eq_refl ltac:(discriminate) eq_refl) as H.
  change (os.MkdirAll exampleStore
            (filepath.Dir (filePathOf (calendarPath "alice" "work"))))
    with (<["calendars/alice" := os.Directory]> exampleStore,
          @None os.errno) in H.
  change (os.WriteFile (<["calendars/alice" := os.Directory]> exampleStore)
            (filePathOf (calendarPath "alice" "work")) "X")
    with (Some (storeWithWork "X")) in H.
  cbv beta iota in H. destruct H as (Hput & H204 & _ & Hget).
  split; [reflexivity|]. split; [reflexivity|]. split; [exact H204|].
  split; [exact (f_equal snd Hput)|].
  destruct (Hget eq_refl (fun _ => eq_refl) None) as (_ & H200 & Hw & _).
  split; [exact H200 | exact Hw].
Defined.

Lemma unauthenticated_responses_identical_witness :
  (exampleServe (PUT "/alice/work.ics" None "X") exampleStore).1 =
  (exampleServe (PUT "/alice/work.ics" (Some ("alice", "guess")) "X")
     exampleStore).1 /\
  (exampleServe (PUT "/alice/work.ics" (Some ("alice", "guess")) "X")
     exampleStore).1 =
  (exampleServe (PUT "/alice/work.ics" (Some ("mallory", "guess")) "X")
     exampleStore).1 /\
  http.Status
    (exampleServe (PUT "/alice/work.ics" (Some ("mallory", "guess")) "X")
       exampleStore).1 = Some 401.
Proof.
  destruct (unauthenticated_responses_identical
              exampleUsers true exampleDetect exampleDirectory
              (PUT "/alice/work.ics" None "X")
              (PUT "/alice/work.ics" (Some ("alice", "guess")) "X")
              (PUT "/alice/work.ics" (Some ("mallory", "guess")) "X")
              exampleStore "alice" "guess" "s3cr3t" "mallory" "guess"
              eq_refl eq_refl eq_refl eq_refl eq_refl eq_refl
              ltac:(discriminate) eq_refl eq_refl)
    as (H1 & H2 & H3 & _).
  split; [exact H1|]. split; [exact H2 | exact H3].
Defined.

Lemma put_replaces_content_witness :
  os.Stat (storeWithWork "A") (filePathOf "/alice/work.ics")
    = inl (os.File "A") /\
  http.Status
    (exampleServe (PUT "/alice/work.ics" aliceCred "B") (storeWithWork "A")).1
    = Some http.StatusNoContent /\
  os.Stat
    (exampleServe (PUT "/alice/work.ics" aliceCred "B") (storeWithWork "A")).2
    (filePathOf "/alice/work.ics") = inl (os.File "B") /\
  http.Written
    (exampleServe (GET "/alice/work.ics" None)
       (exampleServe (PUT "/alice/work.ics" aliceCred "B")
          (storeWithWork "A")).2).1 = "B".
Proof.
  destruct (put_replaces_content exampleUsers true exampleDetect exampleDirectory
              (PUT "/alice/work.ics" aliceCred "B") (storeWithWork "A") "A"
              eq_refl eq_refl eq_refl) as [Hstored Hget].
  split; [reflexivity|]. split; [reflexivity|]. split; [exact Hstored|].
  destruct (Hget (GET "/alice/work.ics" None) eq_refl eq_refl eq_refl)
    as [_ Hserved].
  destruct (Hserved eq_refl (fun _ => eq_refl)) as [_ Hw]. exact Hw.
Defined.

(** The claim C5 as it is stated, for its read-back part: after a PUT
    answered 204 onto a location that held a file, a subsequent read of
    the same path returns the payload. *)
Definition put_read_back_as_stated : Prop :=
  forall (users : gmap string string) validates detect directory
         (r : http.Request) (fs : gmap string os.node) (C1 : string) cred,
    http.Method r = http.MethodPut ->
    os.Stat fs (filePathOf (http.URLPath r)) = inl (os.File C1) ->
    http.Status (serve users validates detect directory r fs).1
      = Some http.StatusNoContent ->
    http.Status
      (serve users validates detect directory (GET (http.URLPath r) cred)
         (serve users validates detect directory r fs).2).1 = Some http.StatusOK /\
    http.Written
      (serve users validates detect directory (GET (http.URLPath r) cred)
         (serve users validates detect directory r fs).2).1 = http.Body r.

(** alice's calendar work holds A. Her PUT of B to
    /alice/../alice/work.ics is answered 204 and replaces the content;
    the read of the same path is refused with 400 and returns neither A
    nor B. *)
Lemma put_replaces_content_counterexample : ~ put_read_back_as_stated.
Proof.
  intros H.
  destruct (H exampleUsers true exampleDetect exampleDirectory
              (PUT "/alice/../alice/work.ics" aliceCred "B")
              (storeWithWork "A") "A" None eq_refl eq_refl eq_refl)
    as [H200 _].
  vm_compute in H200. discriminate H200.
Qed.

(** The claim C6 as it is stated, for its last part: an existing file
    is served with the calendar media type to any requester of a
    calendar path. *)
Definition existing_file_served_as_stated : Prop :=
  forall (users : gmap string string) validates detect directory
         (r : http.Request) (fs : gmap string os.node) (content : string),
    http.Method r = http.MethodGet ->
    strings.HasSuffix (http.URLPath r) ".ics" = true ->
    os.Stat fs (filePathOf (http.URLPath r)) = inl (os.File content) ->
    http.Status (serve users validates detect directory r fs).1 = Some http.StatusOK /\
    http.Header (serve users validates detect directory r fs).1 !! "Content-Type"
      = Some "text/calendar; charset=utf-8".

(** The location of /bob/../alice/work.ics is alice's calendar work,
    an existing file; the GET is refused with 400 and media type
    text/plain. *)
Lemma get_ignores_credentials_counterexample :
  ~ existing_file_served_as_stated.
Proof.
  intros H.
  destruct (H exampleUsers true exampleDetect exampleDirectory
              (GET "/bob/../alice/work.ics" None) (storeWithWork "A") "A"
              eq_refl eq_refl eq_refl) as [H200 _].
  vm_compute in H200. discriminate H200.
Qed.

Lemma get_ignores_credentials_witness :
  exampleServe (http.withBasicAuth (GET "/alice/work.ics" None)
                  (Some ("mallory", "guess"))) (storeWithWork "A") =
  exampleServe (GET "/alice/work.ics" None) (storeWithWork "A") /\
  http.Header
    (exampleServe (http.withBasicAuth (GET "/alice/work.ics" None)
                     (Some ("mallory", "guess"))) (storeWithWork "A")).1
    !! "Content-Type" = Some "text/calendar; charset=utf-8".
Proof.
  destruct (get_ignores_credentials exampleUsers true exampleDetect
              exampleDirectory (GET "/alice/work.ics" None)
              (storeWithWork "A") eq_refl) as (Hind & _ & _ & Hserved).
  split; [exact (Hind (Some ("mallory", "guess")) exampleUsers)|].
  destruct (Hserved "A" (Some ("mallory", "guess"))
              eq_refl eq_refl (fun _ => eq_refl) eq_refl)
    as (_ & _ & Hct). exact Hct.
Defined.

Lemma put_authenticates_before_path_witness :
  strings.HasSuffix "/alice/notes.txt" ".ics" = false /\
  http.Status (exampleServe (PUT "/alice/notes.txt" None "X") exampleStore).1
    = Some http.StatusUnauthorized /\
  http.Status (exampleServe (PUT "/alice/notes.txt" aliceCred "X")
                 exampleStore).1 = Some http.StatusBadRequest.
Proof.
  destruct (put_authenticates_before_path exampleUsers true exampleDetect
              exampleDirectory (PUT "/alice/notes.txt" None "X") exampleStore
              eq_refl) as (Hrej & _ & _).
  destruct (put_authenticates_before_path exampleUsers true exampleDetect
              exampleDirectory (PUT "/alice/notes.txt" aliceCred "X")
              exampleStore eq_refl) as (_ & _ & Hbad).
  split; [reflexivity|]. split.
  - destruct (Hrej eq_refl) as (_ & H401 & _). exact H401.
  - exact (Hbad eq_refl eq_refl).
Defined.

(** The claim C8 as it is stated, for its PUT part: every PUT to a path
    that ends in [.ics] and has fewer than two segments receives 400. *)
Definition short_path_put_as_stated : Prop :=
  forall (users : gmap string string) validates detect directory
         (r : http.Request) (fs : gmap string os.node),
    http.Method r = http.MethodPut ->
    strings.HasSuffix (http.URLPath r) ".ics" = true ->
    length (pathParts (http.URLPath r)) < 2 ->
    http.Status (serve users validates detect directory r fs).1
      = Some http.StatusBadRequest.

(** A PUT to /x.ics without credentials receives 401. *)
Lemma short_path_put_counterexample : ~ short_path_put_as_stated.
Proof.
  intros H.
  pose proof (H exampleUsers true exampleDetect exampleDirectory
                (PUT "/x.ics" None "X") exampleStore eq_refl eq_refl
                ltac:(vm_compute; lia)) as H400.
  vm_compute in H400. discriminate H400.
Qed.

Lemma short_path_rejected_witness :
  strings.HasSuffix "/x.ics" ".ics" = true /\
  length (pathParts "/x.ics") < 2 /\
  http.Status (exampleServe (PUT "/x.ics" aliceCred "X") exampleStore).1
    = Some http.StatusBadRequest /\
  filePathOf "/x.ics" = "calendars/x.ics" /\
  locationOwner (filePathOf "/x.ics") = None.
Proof.
  destruct (short_path_rejected exampleUsers true exampleDetect exampleDirectory
              "/x.ics" eq_refl ltac:(vm_compute; lia))
    as (Hput & Hloc & Hown & _).
  split; [reflexivity|]. split; [vm_compute; lia|]. split.
  - destruct (Hput (PUT "/x.ics" aliceCred "X") exampleStore
                eq_refl eq_refl eq_refl) as [H400 _]. exact H400.
  - split; [exact Hloc | exact Hown].
Defined.

(** The claim C9 as it is stated, for its last part: a write completed
    by a PUT is visible to every subsequent GET of the same path. *)
Definition write_visible_as_stated : Prop :=
  forall (users : gmap string string) validates detect directory
         (r : http.Request) (fs : gmap string os.node) cred,
    http.Method r = http.MethodPut ->
    http.Status (serve users validates detect directory r fs).1
      = Some http.StatusNoContent ->
    http.Status
      (serve users validates detect directory (GET (http.URLPath r) cred)
         (serve users validates detect directory r fs).2).1 = Some http.StatusOK /\
    http.Written
      (serve users validates detect directory (GET (http.URLPath r) cred)
         (serve users validates detect directory r fs).2).1 = http.Body r.

(** alice's PUT to /alice/../alice/x.ics is answered 204 and stores
    calendars/alice/x.ics; the GET of the same path is refused with 400
    because of its [..] element. *)
Lemma write_visible_counterexample : ~ write_visible_as_stated.
Proof.
  intros H.
  destruct (H exampleUsers true exampleDetect exampleDirectory
              (PUT "/alice/../alice/x.ics" aliceCred "X") exampleStore None
              eq_refl eq_refl) as [H200 _].
  vm_compute in H200. discriminate H200.
Qed.

Lemma side_effects_confined_witness :
  (exampleServe (GET "/alice/work.ics" None) (storeWithWork "A")).2
    = storeWithWork "A" /\
  (exampleServe (PUT "/alice/work.ics" None "B") (storeWithWork "A")).2
    = storeWithWork "A" /\
  http.Written
    (exampleServe (GET "/alice/work.ics" None)
       (exampleServe (PUT "/alice/work.ics" aliceCred "B")
          (storeWithWork "A")).2).1 = "B".
Proof.
  split; [|split].
  - destruct (side_effects_confined exampleUsers true exampleDetect
                exampleDirectory http.newResponseWriter
                (GET "/alice/work.ics" None) (storeWithWork "A"))
      as [Hframe _].
    assert (Hget : http.Method (GET "/alice/work.ics" None)
                   <> http.MethodPut) by discriminate.
    destruct (Hframe (or_introl Hget)) as [H _]. exact H.
  - destruct (side_effects_confined exampleUsers true exampleDetect
                exampleDirectory http.newResponseWriter
                (PUT "/alice/work.ics" None "B") (storeWithWork "A"))
      as [Hframe _].
    destruct (Hframe (or_intror eq_refl)) as [H _]. exact H.
  - destruct (side_effects_confined exampleUsers true exampleDetect
                exampleDirectory http.newResponseWriter
                (PUT "/alice/work.ics" aliceCred "B") (storeWithWork "A"))
      as [_ Hvis].
    destruct (Hvis eq_refl eq_refl eq_refl (fun _ => eq_refl) None)
      as (_ & Hw & _).
    exact Hw.
Defined.


(* ===================================================================== *)
(** ** The layout of the storage tree *)
(* ===================================================================== *)

Module LayoutFacts.
Import strings filepath StringFacts PathFacts.

Lemma proper_not_rooted (e rest : string) :
  properElem e = true -> rooted (e +:+ rest) = false.
Proof.
  intros H. apply properElem_spec in H as (Hne & _ & _ & Hsep).
  destruct e as [|c e]; [congruence|].
  unfold hasByte in Hsep. simpl in Hsep.
  apply orb_false_iff in Hsep as [Hc _].
  simpl. unfold IsPathSeparator. now rewrite Ascii.eqb_sym.
Qed.

Lemma Join_cons (e : string) (elems : list string) :
  elems <> [] ->
  strings.Join (e :: elems) "/" = e +:+ "/" +:+ strings.Join elems "/".
Proof. destruct elems; [congruence | reflexivity]. Qed.

Lemma Join_snoc (elems : list string) (e : string) :
  elems <> [] ->
  strings.Join (elems ++ [e]) "/" = strings.Join elems "/" +:+ "/" +:+ e.
Proof.
  induction elems as [|x elems IH]; intros Hne; [congruence|].
  destruct elems as [|y elems]; [reflexivity|].
  change ((x :: y :: elems) ++ [e])%list with (x :: ((y :: elems) ++ [e]))%list.
  rewrite Join_cons by (simpl; discriminate).
  rewrite IH by discriminate.
  rewrite (Join_cons x (y :: elems)) by discriminate.
  now rewrite !append_assoc.
Qed.

(** The last element of a path that ends in [.ics] is a proper
    element. *)
Lemma ics_proper (name : string) :
  hasByte name Separator = false -> properElem (name +:+ ".ics") = true.
Proof.
  intros H. apply properElem_spec.
  assert (Hlen : 4 <= String.length (name +:+ ".ics")).
  { rewrite length_append. simpl. lia. }
  repeat split; try (intros E; rewrite E in Hlen; simpl in Hlen; lia).
  rewrite hasByte_app, H. reflexivity.
Qed.

Lemma Join_not_rooted (elems : list string) (rest : string) :
  elems <> [] ->
  Forall (fun x => properElem x = true) elems ->
  rooted (strings.Join elems "/" +:+ rest) = false.
Proof.
  intros Hne Hall. destruct elems as [|x [|y l]]; [congruence| |].
  - simpl strings.Join. inversion Hall; subst. now apply proper_not_rooted.
  - rewrite Join_cons by discriminate. rewrite !append_assoc.
    inversion Hall; subst. now apply proper_not_rooted.
Qed.

(** [filepath.Dir] of a relative path of proper elements drops the last
    element. *)
Lemma Dir_Join (elems : list string) (e : string) :
  elems <> [] ->
  Forall (fun x => properElem x = true) elems ->
  properElem e = true ->
  Dir (strings.Join (elems ++ [e]) "/") = strings.Join elems "/".
Proof.
  intros Hne Hall He. unfold Dir, dirPart.
  rewrite Split_Join;
    [| destruct elems; discriminate
     | apply proper_no_sep, Forall_app; split;
       [assumption | repeat constructor; assumption]].
  rewrite removelast_last.
  destruct elems as [|x l]; [congruence|]. cbv iota.
  remember (x :: l) as elems eqn:Helems. clear Helems x l.
  assert (Hd : strings.Join elems "/" +:+ "/" =
               strings.Join (elems ++ [""]) "/").
  { rewrite Join_snoc by assumption. reflexivity. }
  unfold Clean. case_decide as Hempty.
  { apply append_eq_nil in Hempty as [_ Hempty]. discriminate. }
  rewrite (Join_not_rooted elems "/" Hne Hall), Hd.
  rewrite Split_Join;
    [| destruct elems; discriminate
     | apply Forall_app; split;
       [now apply proper_no_sep | repeat constructor]].
  unfold cleanElems. rewrite fold_left_app.
  rewrite (fold_cleanStep_proper false elems []) by assumption.
  simpl. rewrite cleanStep_skip by auto.
  rewrite app_nil_r, rev_involutive.
  destruct elems; [congruence | reflexivity].
Qed.

(** The storage location of a rooted [.ics] path and its directory. *)
Lemma rooted_ics_layout (path : string) :
  rooted path = true ->
  HasSuffix path ".ics" = true ->
  exists init e,
    Forall (fun x => properElem x = true) (dataDir :: init) /\
    properElem e = true /\
    Split (filePathOf path) Separator = (dataDir :: init ++ [e])%list /\
    Split (Dir (filePathOf path)) Separator = dataDir :: init /\
    filePathOf path = strings.Join (dataDir :: init ++ [e]) "/".
Proof.
  intros Hr Hs.
  destruct (Location.filePathOf_rooted_ics path Hr Hs)
    as (init & e & He & _ & Hinit & Hloc).
  assert (Hall : Forall (fun x => properElem x = true) (dataDir :: init))
    by (constructor; [reflexivity | assumption]).
  exists init, e. split; [assumption|]. split; [assumption|].
  rewrite Hloc.
  change (dataDir :: init ++ [e])%list with ((dataDir :: init) ++ [e])%list.
  split; [|split; [|reflexivity]].
  - apply Split_Join; [discriminate|]. apply proper_no_sep.
    apply Forall_app. split; [assumption | repeat constructor; assumption].
  - rewrite Dir_Join by (assumption || discriminate).
    apply Split_Join; [discriminate | now apply proper_no_sep].
Qed.

(** The location of the calendar [name] of [owner], for plain names. *)
Lemma calendarPath_location (owner name : string) :
  properElem owner = true ->
  hasByte name Separator = false ->
  filePathOf (calendarPath owner name) =
  strings.Join [dataDir; owner; name +:+ ".ics"] "/".
Proof.
  intros Ho Hn. pose proof (ics_proper name Hn) as Hp.
  assert (Hsplit : Split (calendarPath owner name) Separator =
                   [""; owner; name +:+ ".ics"]).
  { unfold calendarPath.
    change ("/" +:+ owner +:+ "/" +:+ name +:+ ".ics")
      with ("" +:+ String Separator
                     (owner +:+ String Separator (name +:+ ".ics"))).
    rewrite Split_app_sep by reflexivity.
    apply properElem_spec in Ho as (_ & _ & _ & Ho).
    rewrite Split_app_sep by assumption.
    apply properElem_spec in Hp as (_ & _ & _ & Hp).
    now rewrite Split_no_sep. }
  assert (Hcs : cleanElems (rooted (calendarPath owner name))
                  (Split (calendarPath owner name) Separator) =
                [owner; name +:+ ".ics"]).
  { rewrite Hsplit. change (rooted (calendarPath owner name)) with true.
    unfold cleanElems. simpl fold_left.
    rewrite (cleanStep_skip true [] "") by auto.
    rewrite (cleanStep_proper true [] owner) by assumption.
    now rewrite cleanStep_proper by assumption. }
  rewrite Location.filePathOf_elems; rewrite Hcs; [reflexivity|].
  repeat constructor; assumption.
Qed.

Lemma append_inv_tail (a b c : string) : a +:+ c = b +:+ c -> a = b.
Proof.
  revert b. induction a as [|x a IH]; intros b H.
  - destruct b as [|y b]; [reflexivity|].
    apply (f_equal String.length) in H. simpl in H.
    rewrite length_append in H. lia.
  - destruct b as [|y b].
    + apply (f_equal String.length) in H. simpl in H.
      rewrite length_append in H. lia.
    + simpl in H. inversion H. f_equal. now apply IH.
Qed.

(** For a rooted path, [Clean] yields a rooted path with the same
    cleaned elements. *)
Lemma Clean_rooted (path : string) :
  rooted path = true ->
  Clean path =
  "/" +:+ strings.Join (cleanElems true (Split path Separator)) "/".
Proof.
  intros Hr. unfold Clean. case_decide as He; [subst; discriminate|].
  now rewrite Hr.
Qed.

Lemma cleanElems_Clean_rooted (path : string) :
  rooted path = true ->
  rooted (Clean path) = true /\
  cleanElems true (Split (Clean path) Separator) =
  cleanElems true (Split path Separator).
Proof.
  intros Hr. rewrite (Clean_rooted path Hr). split; [reflexivity|].
  pose proof (cleanElems_rooted_proper path) as Hall.
  change ("/" +:+ strings.Join (cleanElems true (Split path Separator)) "/")
    with ("" +:+ String Separator
            (strings.Join (cleanElems true (Split path Separator)) "/")).
  rewrite Split_app_sep by reflexivity.
  destruct (cleanElems true (Split path Separator)) as [|c cs] eqn:Hcs.
  - reflexivity.
  - rewrite Split_Join by (discriminate || now apply proper_no_sep).
    unfold cleanElems.
    change (fold_left (cleanStep true) ("" :: c :: cs) [])
      with (fold_left (cleanStep true) (c :: cs) (cleanStep true [] "")).
    rewrite (cleanStep_skip true [] "") by auto.
    rewrite fold_cleanStep_proper by assumption.
    now rewrite app_nil_r, rev_involutive.
Qed.

End LayoutFacts.

(* ===================================================================== *)
(** ** Further properties of the handlers *)
(* ===================================================================== *)

(** The layout documented for the storage tree,
    ./calendars/{username}/{calendar}.ics: for a user name that is a
    proper path element and a calendar name without slash, the calendar
    is stored at exactly that name, in the owner's directory. *)
Theorem storage_layout (owner name : string) :
  PathFacts.properElem owner = true ->
  StringFacts.hasByte name "/"%char = false ->
  filePathOf (calendarPath owner name) =
    dataDir +:+ "/" +:+ owner +:+ "/" +:+ name +:+ ".ics" /\
  locationOwner (filePathOf (calendarPath owner name)) = Some owner.
Proof.
  intros Ho Hn.
  rewrite (LayoutFacts.calendarPath_location owner name Ho Hn).
  split; [reflexivity|].
  unfold locationOwner.
  rewrite StringFacts.Split_Join.
  - reflexivity.
  - discriminate.
  - pose proof (LayoutFacts.ics_proper name Hn) as Hp.
    apply PathFacts.proper_no_sep. repeat constructor; assumption.
Qed.

Lemma storage_layout_witness :
  PathFacts.properElem "john" = true /\
  filePathOf (calendarPath "john" "work") = "calendars/john/work.ics" /\
  locationOwner (filePathOf (calendarPath "john" "work")) = Some "john".
Proof.
  split; [reflexivity|].
  exact (storage_layout "john" "work" eq_refl eq_refl).
Defined.

(** Two different (owner, calendar) pairs of plain names are never
    stored in the same file. *)
Theorem distinct_calendars_distinct_files (owner1 name1 owner2 name2 : string) :
  PathFacts.properElem owner1 = true ->
  PathFacts.properElem owner2 = true ->
  StringFacts.hasByte name1 "/"%char = false ->
  StringFacts.hasByte name2 "/"%char = false ->
  filePathOf (calendarPath owner1 name1) =
  filePathOf (calendarPath owner2 name2) ->
  owner1 = owner2 /\ name1 = name2.
Proof.
  intros Ho1 Ho2 Hn1 Hn2 Heq.
  rewrite (LayoutFacts.calendarPath_location _ _ Ho1 Hn1) in Heq.
  rewrite (LayoutFacts.calendarPath_location _ _ Ho2 Hn2) in Heq.
  apply (f_equal (fun s => strings.Split s filepath.Separator)) in Heq.
  pose proof (LayoutFacts.ics_proper name1 Hn1) as Hp1.
  pose proof (LayoutFacts.ics_proper name2 Hn2) as Hp2.
  rewrite !StringFacts.Split_Join in Heq;
    try discriminate;
    try (apply PathFacts.proper_no_sep; repeat constructor; assumption).
  inversion Heq as [[Ho Hn]].
  split; [reflexivity|]. now apply LayoutFacts.append_inv_tail in Hn.
Qed.

Lemma distinct_calendars_distinct_files_witness :
  filePathOf (calendarPath "john" "work") =
  filePathOf (calendarPath "john" "work") /\
  "john" = "john" /\ "work" = "work".
Proof.
  split; [reflexivity|].
  exact (distinct_calendars_distinct_files "john" "work" "john" "work"
           eq_refl eq_refl eq_refl eq_refl eq_refl).
Defined.

(** Spelling does not matter for a rooted path: the location depends
    only on the cleaned path, and it is the storage root followed by the
    cleaned path (the storage root itself when the path cleans to the
    root). *)
Theorem location_of_cleaned_path (path : string) :
  filepath.rooted path = true ->
  filePathOf (filepath.Clean path) = filePathOf path /\
  filePathOf path =
    (if decide (filepath.Clean path = "/") then dataDir
     else dataDir +:+ filepath.Clean path).
Proof.
  intros Hr.
  destruct (LayoutFacts.cleanElems_Clean_rooted path Hr) as [Hr' Hcs].
  pose proof (PathFacts.cleanElems_rooted_proper path) as Hall.
  pose proof (Location.filePathOf_elems path) as Hloc.
  rewrite Hr in Hloc. specialize (Hloc Hall).
  pose proof (Location.filePathOf_elems (filepath.Clean path)) as Hloc'.
  rewrite Hr', Hcs in Hloc'. specialize (Hloc' Hall).
  split; [congruence|].
  rewrite Hloc, (LayoutFacts.Clean_rooted path Hr).
  destruct (filepath.cleanElems true
              (strings.Split path filepath.Separator)) as [|c cs].
  - reflexivity.
  - rewrite decide_False.
    + rewrite LayoutFacts.Join_cons by discriminate. reflexivity.
    + destruct cs; simpl; intros E; inversion E as [E'].
      * inversion Hall as [|? ? Hc _]; subst. discriminate.
      * apply StringFacts.append_eq_nil in E' as [-> _].
        inversion Hall as [|? ? Hc _]; subst. discriminate.
Qed.

Lemma location_of_cleaned_path_witness :
  filepath.Clean "//john/./x/../work.ics" = "/john/work.ics" /\
  filePathOf "//john/./x/../work.ics" = filePathOf "/john/work.ics" /\
  filePathOf "//john/./x/../work.ics" = "calendars/john/work.ics".
Proof.
  destruct (location_of_cleaned_path "//john/./x/../work.ics" eq_refl)
    as [Hsame Hloc].
  split; [reflexivity|]. split; [symmetry; exact Hsame | exact Hloc].
Defined.

Section StoreProps.

Variable users : gmap string string.
Variable validatesNames : bool.
Variable detectContentType : string -> string -> string.
Variable serveDirectory :
  gmap string os.node -> string -> string -> http.ResponseWriter ->
  http.ResponseWriter.

Local Abbreviation calendarHandler' :=
  (calendarHandler users validatesNames detectContentType serveDirectory).
Local Abbreviation rootHandler' :=
  (rootHandler users validatesNames detectContentType serveDirectory).
Local Abbreviation serve' := (serve users validatesNames detectContentType serveDirectory).

(** The storage tree a request leaves: the one it found, that tree with
    directories of the target created (all of them, or some when the
    creation fails on the way), or the latter with the target
    written. *)
Inductive storeAfter (path body : string) (fs : gmap string os.node)
  : gmap string os.node -> Prop :=
  | StoreSame : storeAfter path body fs fs
  | StoreDirs fs1 err :
      strings.HasSuffix path ".ics" = true ->
      os.MkdirAll fs (filepath.Dir (filePathOf path)) = (fs1, err) ->
      storeAfter path body fs fs1
  | StoreWritten fs1 fs2 :
      strings.HasSuffix path ".ics" = true ->
      os.MkdirAll fs (filepath.Dir (filePathOf path)) = (fs1, None) ->
      os.WriteFile fs1 (filePathOf path) body = Some fs2 ->
      storeAfter path body fs fs2.

Lemma handlePutCalendar_store w r fs :
  storeAfter (http.URLPath r) (http.Body r) fs (handlePutCalendar w r fs).2.
Proof.
  unfold handlePutCalendar.
  change (filepath.Join [dataDir; filepath.Clean (http.URLPath r)])
    with (filePathOf (http.URLPath r)).
  destruct (strings.HasSuffix (http.URLPath r) ".ics") eqn:Hs; simpl negb;
    cbv iota; [|constructor].
  destruct (_ <? 2)%nat; [constructor|].
  destruct (negb _ || negb _); [constructor|].
  destruct (os.MkdirAll fs (filepath.Dir (filePathOf (http.URLPath r))))
    as [fs1 [err|]] eqn:Hm; [now apply (StoreDirs _ _ fs fs1 (Some err))|].
  destruct (os.WriteFile fs1 (filePathOf (http.URLPath r)) (http.Body r))
    as [fs2|] eqn:Hw; simpl snd.
  - now apply (StoreWritten _ _ fs fs1 fs2).
  - now apply (StoreDirs _ _ fs fs1 None).
Qed.

Lemma calendarHandler_store w r fs :
  storeAfter (http.URLPath r) (http.Body r) fs (calendarHandler' w r fs).2.
Proof.
  unfold calendarHandler. case_decide as Hget.
  - rewrite handleGetCalendar_frame. constructor.
  - case_decide as Hput; [|constructor].
    destruct (credentialsOK users r) eqn:Hok.
    + destruct (credentialsOK_inv users r Hok) as (u & p & Hb & Hu).
      rewrite (authMiddleware_accepts users _ _ _ _ u p Hb Hu).
      exact (handlePutCalendar_store w (http.WithValue r "user" u) fs).
    + rewrite authMiddleware_rejects by assumption. constructor.
Qed.

Lemma rootHandler_store w r fs :
  storeAfter (http.URLPath r) (http.Body r) fs (rootHandler' w r fs).2.
Proof.
  unfold rootHandler. case_decide; [constructor|].
  apply calendarHandler_store.
Qed.

(** No request deletes anything or touches another file: every node
    other than the request's own storage location is still there,
    unchanged, after the request; a directory is never replaced, not
    even at the storage location; and every name that existed still
    exists. *)
Theorem request_keeps_existing_nodes (w : http.ResponseWriter)
    (r : http.Request) (fs : gmap string os.node) :
  (forall k node,
     k <> filePathOf (http.URLPath r) ->
     fs !! k = Some node -> (rootHandler' w r fs).2 !! k = Some node) /\
  (forall k,
     fs !! k = Some os.Directory ->
     (rootHandler' w r fs).2 !! k = Some os.Directory) /\
  (forall k, is_Some (fs !! k) -> is_Some ((rootHandler' w r fs).2 !! k)).
Proof.
  pose proof (rootHandler_store w r fs) as H.
  destruct H as [|fs1 err Hs Hm|fs1 fs2 Hs Hm Hw].
  - repeat split; auto.
  - repeat split.
    + intros k node _ Hk. exact (StoreFacts.MkdirAll_keeps _ _ _ _ _ _ Hm Hk).
    + intros k Hk. exact (StoreFacts.MkdirAll_keeps _ _ _ _ _ _ Hm Hk).
    + intros k [node Hk]. exists node.
      exact (StoreFacts.MkdirAll_keeps _ _ _ _ _ _ Hm Hk).
  - apply StoreFacts.WriteFile_target in Hw as (-> & _ & _ & Hnd).
    repeat split.
    + intros k node Hne Hk. rewrite lookup_insert_ne by congruence.
      exact (StoreFacts.MkdirAll_keeps _ _ _ _ _ _ Hm Hk).
    + intros k Hk.
      pose proof (StoreFacts.MkdirAll_keeps _ _ _ _ _ _ Hm Hk) as Hk1.
      destruct (decide (k = filePathOf (http.URLPath r))) as [->|Hne];
        [contradiction|].
      now rewrite lookup_insert_ne by congruence.
    + intros k [node Hk].
      destruct (decide (k = filePathOf (http.URLPath r))) as [->|Hne].
      * rewrite lookup_insert_eq. eauto.
      * rewrite lookup_insert_ne by congruence. exists node.
        exact (StoreFacts.MkdirAll_keeps _ _ _ _ _ _ Hm Hk).
Qed.

(** The names that differ between a storage tree and the one a request
    with a rooted path leaves lie on the way from the storage root to
    the storage location. *)
Lemma storeAfter_changes path body fs fs' k :
  filepath.rooted path = true ->
  storeAfter path body fs fs' ->
  fs' !! k <> fs !! k ->
  strings.Split k "/"%char `prefix_of`
    strings.Split (filePathOf path) "/"%char /\
  (k <> filePathOf path -> fs !! k = None /\ fs' !! k = Some os.Directory).
Proof.
  intros Hr H Hch.
  assert (Hdirs : forall fs1 err,
    strings.HasSuffix path ".ics" = true ->
    os.MkdirAll fs (filepath.Dir (filePathOf path)) = (fs1, err) ->
    fs1 !! k <> fs !! k ->
    strings.Split k "/"%char `prefix_of`
      strings.Split (filePathOf path) "/"%char /\
    fs !! k = None /\ fs1 !! k = Some os.Directory).
  { intros fs1 err Hs Hm Hne.
    destruct (LayoutFacts.rooted_ics_layout _ Hr Hs)
      as (init & e & Hall & He & Hsl & Hsd & _).
    unfold os.MkdirAll in Hm. rewrite Hsd in Hm.
    destruct (StoreFacts.mkdirAll_changes _ _ _ _ Hm k)
      as [Hsame|(Hn & Hd & l & Hl & Hsuf & Hk)]; [contradiction|].
    split; [|auto].
    change filepath.Separator with "/"%char in Hsl. rewrite Hsl.
    destruct Hsuf as [pre Hpre].
    apply (f_equal (@rev string)) in Hpre.
    rewrite rev_involutive, rev_app_distr in Hpre.
    assert (Hsplit : strings.Split k "/"%char = rev l).
    { rewrite Hk. apply StringFacts.Split_Join.
      - intros E. apply (f_equal (@rev string)) in E.
        rewrite rev_involutive in E. simpl in E. congruence.
      - apply PathFacts.proper_no_sep in Hall.
        rewrite Hpre in Hall.
        now apply Forall_app in Hall as [Hall _]. }
    rewrite Hsplit.
    change (dataDir :: init ++ [e])%list with ((dataDir :: init) ++ [e])%list.
    apply prefix_app_r. rewrite Hpre. now exists (rev pre). }
  destruct H as [|fs1 err Hs Hm|fs1 fs2 Hs Hm Hw]; [contradiction| |].
  - destruct (Hdirs fs1 err Hs Hm Hch) as (Hp & Hn & Hd). auto.
  - apply StoreFacts.WriteFile_target in Hw as (-> & _ & _ & _).
    destruct (decide (k = filePathOf path)) as [->|Hne].
    + split; [reflexivity | contradiction].
    + rewrite lookup_insert_ne in Hch |- * by congruence.
      destruct (Hdirs fs1 None Hs Hm Hch) as (Hp & Hn & Hd). auto.
Qed.

(** The names a request with a rooted path changes all lie on the way
    from the storage root to its storage location: their elements are
    the first elements of the location's. Apart from the location
    itself, a changed name was free before and is a directory after. *)
Theorem request_touches_only_its_path (w : http.ResponseWriter)
    (r : http.Request) (fs : gmap string os.node) (k : string) :
  filepath.rooted (http.URLPath r) = true ->
  (rootHandler' w r fs).2 !! k <> fs !! k ->
  strings.Split k "/"%char `prefix_of`
    strings.Split (filePathOf (http.URLPath r)) "/"%char /\
  (k <> filePathOf (http.URLPath r) ->
   fs !! k = None /\ (rootHandler' w r fs).2 !! k = Some os.Directory).
Proof.
  intros Hr Hch.
  pose proof (rootHandler_store w r fs) as Hstore.
  exact (storeAfter_changes _ _ _ _ k Hr Hstore Hch).
Qed.

(** Isolation of owners for plain names: a request to the calendar path
    of [owner] (a proper path element) with a calendar name without
    slash leaves every name in the directory of any other owner as it
    was, whatever the method, the credentials and the outcome. *)
Theorem request_leaves_other_owners (w : http.ResponseWriter)
    (r : http.Request) (fs : gmap string os.node)
    (owner name other k : string) (rest : list string) :
  PathFacts.properElem owner = true ->
  StringFacts.hasByte name "/"%char = false ->
  http.URLPath r = calendarPath owner name ->
  other <> owner ->
  strings.Split k "/"%char = dataDir :: other :: rest ->
  (rootHandler' w r fs).2 !! k = fs !! k.
Proof.
  intros Ho Hn Hpath Hne Hk.
  destruct (option_eq_dec (dec := os.node_eq_dec)
              ((rootHandler' w r fs).2 !! k) (fs !! k)) as [|Hch];
    [assumption|].
  exfalso.
  assert (Hr : filepath.rooted (http.URLPath r) = true)
    by (rewrite Hpath; reflexivity).
  destruct (storeAfter_changes _ _ _ _ k Hr (rootHandler_store w r fs) Hch)
    as [Hpre _].
  rewrite Hpath, (LayoutFacts.calendarPath_location owner name Ho Hn) in Hpre.
  rewrite StringFacts.Split_Join in Hpre.
  - rewrite Hk in Hpre. destruct Hpre as [tl Htl].
    simpl in Htl. inversion Htl. congruence.
  - discriminate.
  - pose proof (LayoutFacts.ics_proper name Hn) as Hp.
    apply PathFacts.proper_no_sep. repeat constructor; assumption.
Qed.

End StoreProps.

Section HandlerProps.

Variable users : gmap string string.
Variable validatesNames : bool.
Variable detectContentType : string -> string -> string.
Variable serveDirectory :
  gmap string os.node -> string -> string -> http.ResponseWriter ->
  http.ResponseWriter.

Local Abbreviation calendarHandler' :=
  (calendarHandler users validatesNames detectContentType serveDirectory).
Local Abbreviation rootHandler' :=
  (rootHandler users validatesNames detectContentType serveDirectory).
Local Abbreviation serve' := (serve users validatesNames detectContentType serveDirectory).

(** A PUT answered 204 has created the calendar's directory: afterwards
    the storage location is a file holding the request body and its
    parent is a directory; the response has no header and no body. *)
Theorem put_success_creates_directory (r : http.Request)
    (fs : gmap string os.node) :
  http.Method r = http.MethodPut ->
  http.Status (serve' r fs).1 = Some http.StatusNoContent ->
  os.Stat (serve' r fs).2 (filePathOf (http.URLPath r))
    = inl (os.File (http.Body r)) /\
  os.Stat (serve' r fs).2 (filepath.Dir (filePathOf (http.URLPath r)))
    = inl os.Directory /\
  http.Header (serve' r fs).1 = ∅ /\
  http.Written (serve' r fs).1 = "".
Proof.
  intros M H204.
  destruct (put_204_inv users validatesNames detectContentType serveDirectory r fs M H204)
    as (fs1 & fs2 & _ & _ & Hm & Hw & ->).
  simpl fst; simpl snd.
  destruct (StoreFacts.stored _ _ _ _ _ _ Hm Hw) as [Hf Hd].
  repeat split; assumption.
Qed.

(** A calendar that was written can be written again: after a PUT
    answered 204, a PUT of the same path with the same credentials is
    answered 204 too and only replaces the content of the storage
    location; with the same body it leaves the storage tree as it
    is. *)
Theorem put_again_succeeds (r r' : http.Request) (fs : gmap string os.node) :
  http.Method r = http.MethodPut ->
  http.Method r' = http.MethodPut ->
  http.URLPath r' = http.URLPath r ->
  http.BasicAuth r' = http.BasicAuth r ->
  http.Status (serve' r fs).1 = Some http.StatusNoContent ->
  serve' r' (serve' r fs).2 =
    (http.WriteHeader http.StatusNoContent http.newResponseWriter,
     <[filePathOf (http.URLPath r) := os.File (http.Body r')]>
       (serve' r fs).2) /\
  (http.Body r' = http.Body r ->
   (serve' r' (serve' r fs).2).2 = (serve' r fs).2).
Proof.
  intros M M' Hpath Hauth H204.
  destruct (put_204_inv users validatesNames detectContentType serveDirectory r fs M H204)
    as (fs1 & fs2 & Hok & Hs & Hm & Hw & Hserve).
  destruct (credentialsOK_inv users r Hok) as (u & p & Hb & Hu).
  pose proof (put_outcome users validatesNames detectContentType serveDirectory
                r fs u p M Hb Hu) as Hout.
  rewrite Hserve in Hout. rewrite Hserve. simpl snd.
  assert (Hchecks : 2 <= length (pathParts (http.URLPath r)) /\
                    u = nth 0 (pathParts (http.URLPath r)) "").
  { inversion Hout; subst; try discriminate. auto. }
  destruct Hchecks as [Hl He].
  destruct (StoreFacts.stored _ _ _ _ _ _ Hm Hw) as [Hf Hd].
  rewrite <- Hauth in Hb.
  pose proof (put_outcome users validatesNames detectContentType serveDirectory
                r' fs2 u p M' Hb Hu) as Hout'.
  assert (Hstore :
    serve' r' fs2 =
    (http.WriteHeader http.StatusNoContent http.newResponseWriter,
     <[filePathOf (http.URLPath r) := os.File (http.Body r')]> fs2)).
  { destruct Hout' as [Hs'|Hs' Hl'|Hs' Hl' Hx|fs1' err' Hs' Hl' He' Hm'
                       |fs1' Hs' Hl' He' Hm' Hw'|fs1' fs2' Hs' Hl' He' Hm' Hw'];
      rewrite Hpath in *; try congruence; try lia.
    - rewrite (StoreFacts.MkdirAll_existing _ _ Hd) in Hm'. discriminate.
    - rewrite (StoreFacts.MkdirAll_existing _ _ Hd) in Hm'.
      inversion Hm'; subst fs1'.
      rewrite (StoreFacts.WriteFile_existing _ _ _ _ Hf) in Hw'.
      discriminate.
    - rewrite (StoreFacts.MkdirAll_existing _ _ Hd) in Hm'.
      inversion Hm'; subst fs1'.
      rewrite (StoreFacts.WriteFile_existing _ _ _ _ Hf) in Hw'.
      inversion Hw'. reflexivity. }
  split; [exact Hstore|].
  intros Hbody. rewrite Hstore. simpl snd. rewrite Hbody.
  apply insert_id. exact (StoreFacts.Stat_File_lookup _ _ _ Hf).
Qed.

(** A PUT never replaces a directory by a file: when the storage
    location of a PUT that passes authentication and the ownership check
    is a directory, the answer is 500 and the directory stays. *)
Theorem put_on_directory_fails (r : http.Request) (fs : gmap string os.node)
    (username password : string) :
  http.Method r = http.MethodPut ->
  http.BasicAuth r = Some (username, password) ->
  users !! username = Some password ->
  strings.HasSuffix (http.URLPath r) ".ics" = true ->
  2 <= length (pathParts (http.URLPath r)) ->
  username = nth 0 (pathParts (http.URLPath r)) "" ->
  fs !! filePathOf (http.URLPath r) = Some os.Directory ->
  http.Status (serve' r fs).1 = Some http.StatusInternalServerError /\
  (serve' r fs).2 !! filePathOf (http.URLPath r) = Some os.Directory.
Proof.
  intros M Hb Hu Hs Hl He Hdir.
  pose proof (put_outcome users validatesNames detectContentType serveDirectory
                r fs username password M Hb Hu) as Hout.
  destruct Hout as [Hs'|Hs' Hl'|Hs' Hl' Hx|fs1 err Hs' Hl' He' Hm
                    |fs1 Hs' Hl' He' Hm Hw|fs1 fs2 Hs' Hl' He' Hm Hw];
    try congruence; try lia; simpl fst; simpl snd.
  - split; [reflexivity|].
    exact (StoreFacts.MkdirAll_keeps _ _ _ _ _ _ Hm Hdir).
  - split; [reflexivity|].
    exact (StoreFacts.MkdirAll_keeps _ _ _ _ _ _ Hm Hdir).
  - apply StoreFacts.WriteFile_target in Hw as (_ & _ & _ & Hnd).
    pose proof (StoreFacts.MkdirAll_keeps _ _ _ _ _ _ Hm Hdir). contradiction.
Qed.

End HandlerProps.

Section RoutingProps.

Variable users : gmap string string.
Variable validatesNames : bool.
Variable detectContentType : string -> string -> string.
Variable serveDirectory :
  gmap string os.node -> string -> string -> http.ResponseWriter ->
  http.ResponseWriter.

Local Abbreviation calendarHandler' :=
  (calendarHandler users validatesNames detectContentType serveDirectory).
Local Abbreviation rootHandler' :=
  (rootHandler users validatesNames detectContentType serveDirectory).
Local Abbreviation serve' := (serve users validatesNames detectContentType serveDirectory).

(** [handlePutCalendar] fails closed: called on a request whose context
    carries no user (that is, without the middleware), it writes
    nothing, and it answers 403 to every path that passes the two format
    checks. *)
Theorem put_handler_without_identity (r : http.Request)
    (fs : gmap string os.node) :
  http.Context r !! "user" = None ->
  (handlePutCalendar http.newResponseWriter r fs).2 = fs /\
  (http.Status (handlePutCalendar http.newResponseWriter r fs).1
     = Some http.StatusBadRequest \/
   http.Status (handlePutCalendar http.newResponseWriter r fs).1
     = Some http.StatusForbidden) /\
  (strings.HasSuffix (http.URLPath r) ".ics" = true ->
   2 <= length (pathParts (http.URLPath r)) ->
   http.Status (handlePutCalendar http.newResponseWriter r fs).1
     = Some http.StatusForbidden).
Proof.
  intros Hctx. unfold handlePutCalendar. rewrite Hctx.
  fold (pathParts (http.URLPath r)).
  destruct (strings.HasSuffix (http.URLPath r) ".ics"); simpl negb; cbv iota.
  - destruct (Nat.ltb_spec (length (pathParts (http.URLPath r))) 2) as [Hl|Hl].
    + split; [reflexivity|]. split; [left; reflexivity|]. intros _ H. lia.
    + split; [reflexivity|]. split; [right; reflexivity|]. reflexivity.
  - split; [reflexivity|]. split; [left; reflexivity|]. discriminate.
Qed.

Lemma put_handler_without_identity_witness :
  (handlePutCalendar http.newResponseWriter
     (PUT "/alice/work.ics" aliceCred "X") exampleStore).2 = exampleStore /\
  http.Status
    (handlePutCalendar http.newResponseWriter
       (PUT "/alice/work.ics" aliceCred "X") exampleStore).1 = Some 403.
Proof.
  destruct (put_handler_without_identity
              (PUT "/alice/work.ics" aliceCred "X") exampleStore eq_refl)
    as (Hfs & _ & H403).
  split; [exact Hfs|]. apply H403; [reflexivity | vm_compute; lia].
Defined.

(** [authMiddleware] never runs the wrapped handler without valid
    credentials: its result is then the same whatever that handler is.
    With valid credentials it runs the handler once, on the same writer
    and file system, with a request that differs only in its context,
    where the key "user" holds the user name of the credentials,
    whatever that key held before. *)
Theorem middleware_guards_handler (next : HandlerFunc)
    (w : http.ResponseWriter) (r : http.Request) (fs : gmap string os.node) :
  (credentialsOK users r = false ->
   forall other : HandlerFunc,
     authMiddleware users next w r fs = authMiddleware users other w r fs) /\
  (forall username password,
     http.BasicAuth r = Some (username, password) ->
     users !! username = Some password ->
     exists r',
       authMiddleware users next w r fs = next w r' fs /\
       http.Context r' !! "user" = Some username /\
       (forall key, key <> "user" ->
                    http.Context r' !! key = http.Context r !! key) /\
       http.Method r' = http.Method r /\
       http.URLPath r' = http.URLPath r /\
       http.BasicAuth r' = http.BasicAuth r /\
       http.Body r' = http.Body r).
Proof.
  split.
  - intros Hbad other. now rewrite !authMiddleware_rejects.
  - intros username password Hb Hu.
    exists (http.WithValue r "user" username).
    split; [now apply (authMiddleware_accepts users next w r fs
                         username password)|].
    split; [apply lookup_insert_eq|].
    split; [|repeat split].
    intros key Hkey. simpl. now rewrite lookup_insert_ne by congruence.
Qed.

(** The file server's [Open] of index.html. *)
Lemma DirOpen_index fs :
  http.DirOpen validatesNames fs "index.html" =
  match fs !! "index.html" with
  | Some n => inl n
  | None => inr (http.ErrPath os.ENOENT)
  end.
Proof.
  unfold http.DirOpen.
  assert (Hl : http.Localize validatesNames (http.fileName "index.html")
               = true) by (destruct validatesNames; reflexivity).
  rewrite Hl. simpl negb. cbv iota.
  rewrite (StoreFacts.Stat_single fs "index.html" eq_refl eq_refl eq_refl)
    by discriminate.
  now destruct (fs !! "index.html").
Qed.

(** The root path is answered from index.html for every method and
    whatever the credentials, which are not checked: the result does
    not depend on them and the file system is not changed. The answer
    is 404 when index.html is missing; when it is a file the answer is
    200 with the media type chosen by the library, and the body is the
    file's content unless the method is HEAD, which gets no body. *)
Theorem root_serves_index (r : http.Request) (fs : gmap string os.node) :
  http.URLPath r = "/" ->
  (forall cred otherUsers,
     rootHandler otherUsers validatesNames detectContentType serveDirectory
       http.newResponseWriter (http.withBasicAuth r cred) fs =
     rootHandler' http.newResponseWriter r fs) /\
  (rootHandler' http.newResponseWriter r fs).2 = fs /\
  (fs !! "index.html" = None ->
   http.Status (rootHandler' http.newResponseWriter r fs).1
     = Some http.StatusNotFound) /\
  (forall content,
     fs !! "index.html" = Some (os.File content) ->
     http.Status (rootHandler' http.newResponseWriter r fs).1
       = Some http.StatusOK /\
     http.Written (rootHandler' http.newResponseWriter r fs).1 =
       (if decide (http.Method r = http.MethodHead) then "" else content) /\
     http.Header (rootHandler' http.newResponseWriter r fs).1 !! "Content-Type"
       = Some (detectContentType "index.html" content)).
Proof.
  intros Hpath.
  assert (Hroot : rootHandler' http.newResponseWriter r fs =
                  (ServeFile validatesNames detectContentType serveDirectory fs
                     http.newResponseWriter r "index.html", fs)).
  { unfold rootHandler. now rewrite decide_True by assumption. }
  split; [|rewrite Hroot; split; [reflexivity|]].
  - intros cred otherUsers. unfold rootHandler.
    change (http.URLPath (http.withBasicAuth r cred)) with (http.URLPath r).
    rewrite !decide_True by assumption. reflexivity.
  - unfold ServeFile, http.ServeFile. simpl fst. rewrite Hpath.
    change (http.containsDotDot "/") with false.
    change (strings.HasSuffix "/" "/index.html") with false.
    cbv iota. rewrite DirOpen_index. split.
    + intros ->. reflexivity.
    + intros content ->. unfold http.serveContent.
      destruct (decide (http.Method r = http.MethodHead));
        repeat split; reflexivity.
Qed.

(** A GET is answered 404 exactly when the path does not end in [.ics],
    or [os.Stat] reports that the storage location does not exist, or,
    for a path without [..] element, the file server cannot open the
    location for the same reason. The body is then the standard
    not-found text. A location that exists, file or directory, is never
    answered 404. *)
Theorem get_not_found_iff (r : http.Request) (fs : gmap string os.node) :
  http.Method r = http.MethodGet ->
  (http.Status (serve' r fs).1 = Some http.StatusNotFound <->
     strings.HasSuffix (http.URLPath r) ".ics" = false \/
     os.Stat fs (filePathOf (http.URLPath r)) = inr os.ENOENT \/
     (http.containsDotDot (http.URLPath r) = false /\
      http.DirOpen validatesNames fs (filePathOf (http.URLPath r))
        = inr (http.ErrPath os.ENOENT))) /\
  (http.Status (serve' r fs).1 = Some http.StatusNotFound ->
   http.Written (serve' r fs).1 = "404 page not found" +:+ http.newline) /\
  (forall node,
     strings.HasSuffix (http.URLPath r) ".ics" = true ->
     os.Stat fs (filePathOf (http.URLPath r)) = inl node ->
     http.Status (serve' r fs).1 <> Some http.StatusNotFound).
Proof.
  intros M.
  assert (Hfound : forall node,
    os.Stat fs (filePathOf (http.URLPath r)) = inl node ->
    http.DirOpen validatesNames fs (filePathOf (http.URLPath r))
      <> inr (http.ErrPath os.ENOENT)).
  { intros node Hn. destruct (DirOpen_found validatesNames _ _ _ Hn) as [E|E];
      rewrite E; discriminate. }
  destruct (get_outcome users validatesNames detectContentType serveDirectory r fs M)
    as (resp & -> & Hout).
  simpl fst.
  destruct Hout as [Hs|Hs Hst|Hs Hst Hdd|err Hs Hst Hdd Hopen|Hs Hst Hdd
                    |content Hs Hst Hdd].
  - split; [split; [now left | reflexivity]|].
    split; [reflexivity | congruence].
  - split; [split; [now right; left | reflexivity]|].
    split; [reflexivity | congruence].
  - split; [split; [discriminate|]|split; [discriminate|discriminate]].
    intros [?|[?|[? _]]]; congruence.
  - destruct err as [|[]]; simpl http.toHTTPError; simpl fst; simpl snd;
      try (split; [split; [discriminate|]|split; [discriminate|discriminate]];
           intros [?|[?|[_ ?]]]; congruence).
    split; [split; [now right; right | reflexivity]|].
    split; [reflexivity|].
    intros node _ Hn. exfalso. exact (Hfound node Hn Hopen).
  - split; [split; [discriminate|]|split; [discriminate|discriminate]].
    intros [?|[?|[_ ?]]]; congruence.
  - destruct (serveContent_typed detectContentType r
                (http.fileName (filePathOf (http.URLPath r))) content M)
      as [E _].
    rewrite E.
    split; [split; [discriminate|]|split; [discriminate|discriminate]].
    intros [?|[?|[_ ?]]]; congruence.
Qed.

(** A GET whose storage location is a directory is not served a
    listing: when its path has no [..] element, and the name of the
    location is valid UTF-8 if the file server validates names, it is
    redirected (301) to the last element of its path followed by a
    slash, and by the query string of the request when there is one,
    with an empty body. *)
Theorem get_directory_redirects (r : http.Request)
    (fs : gmap string os.node) :
  http.Method r = http.MethodGet ->
  strings.HasSuffix (http.URLPath r) ".ics" = true ->
  http.containsDotDot (http.URLPath r) = false ->
  (validatesNames = true ->
     utf8.ValidString (servedName (http.URLPath r)) = true) ->
  os.Stat fs (filePathOf (http.URLPath r)) = inl os.Directory ->
  http.Status (serve' r fs).1 = Some http.StatusMovedPermanently /\
  http.Header (serve' r fs).1 !! "Location"
    = Some (if decide (http.RawQuery r = "")
            then path_Base (http.URLPath r) +:+ "/"
            else (path_Base (http.URLPath r) +:+ "/")
                   +:+ "?" +:+ http.RawQuery r) /\
  http.Written (serve' r fs).1 = "" /\
  (serve' r fs).2 = fs.
Proof.
  intros M Hs Hdd Hutf Hst.
  destruct (get_outcome users validatesNames detectContentType serveDirectory r fs M)
    as (resp & -> & Hout).
  simpl fst; simpl snd.
  destruct Hout as [| | |err ? ? ? Hopen| |]; try congruence.
  - rewrite (DirOpen_Stat validatesNames _ _ _
               (served_name_accepted validatesNames _ _ _ Hs Hst Hutf) Hst)
      in Hopen.
    discriminate.
  - split; [reflexivity|]. split; [apply lookup_insert_eq|].
    split; reflexivity.
Qed.


End RoutingProps.

Lemma root_serves_index_witness :
  http.Status
    (rootHandler exampleUsers true exampleDetect exampleDirectory
       http.newResponseWriter (PUT "/" None "X") exampleStore).1 = Some 404 /\
  (rootHandler exampleUsers true exampleDetect exampleDirectory
     http.newResponseWriter (PUT "/" None "X") exampleStore).2 = exampleStore /\
  http.Written
    (rootHandler exampleUsers true exampleDetect exampleDirectory
       http.newResponseWriter (HEAD "/") storeWithIndex).1 = "" /\
  http.Written
    (rootHandler exampleUsers true exampleDetect exampleDirectory
       http.newResponseWriter (GET "/" None) storeWithIndex).1 = "<p>hi</p>".
Proof.
  destruct (root_serves_index exampleUsers true exampleDetect exampleDirectory
              (PUT "/" None "X") exampleStore eq_refl)
    as (_ & Hfs & H404 & _).
  destruct (root_serves_index exampleUsers true exampleDetect exampleDirectory
              (HEAD "/") storeWithIndex eq_refl) as (_ & _ & _ & Hhead).
  destruct (root_serves_index exampleUsers true exampleDetect exampleDirectory
              (GET "/" None) storeWithIndex eq_refl) as (_ & _ & _ & Hget).
  split; [exact (H404 eq_refl)|]. split; [exact Hfs|]. split.
  - destruct (Hhead "<p>hi</p>" eq_refl) as (_ & Hw & _). exact Hw.
  - destruct (Hget "<p>hi</p>" eq_refl) as (_ & Hw & _). exact Hw.
Defined.

(** Nothing is stored for bob; /alice/work.ics/x.ics lies below a
    regular file, which the file server reports as not found. *)
Lemma get_not_found_iff_witness :
  http.Status (exampleServe (GET "/bob/work.ics" None) (storeWithWork "A")).1
    = Some http.StatusNotFound /\
  os.Stat (storeWithWork "A") (filePathOf "/alice/work.ics/x.ics")
    = inr os.ENOTDIR /\
  http.Status
    (exampleServe (GET "/alice/work.ics/x.ics" None) (storeWithWork "A")).1
    = Some http.StatusNotFound.
Proof.
  destruct (get_not_found_iff exampleUsers true exampleDetect exampleDirectory
              (GET "/bob/work.ics" None) (storeWithWork "A") eq_refl)
    as [Hiff _].
  destruct (get_not_found_iff exampleUsers true exampleDetect exampleDirectory
              (GET "/alice/work.ics/x.ics" None) (storeWithWork "A") eq_refl)
    as [Hiff' _].
  split; [apply Hiff; right; left; reflexivity|].
  split; [reflexivity|].
  apply Hiff'. right. right. split; reflexivity.
Defined.


(** The storage tree after alice wrote /alice/a.ics/b.ics into the fresh
    tree: calendars/alice/a.ics is a directory. *)
Definition storeWithNested : gmap string os.node :=
  <["calendars/alice/a.ics/b.ics" := os.File "X"]>
    (<["calendars/alice/a.ics" := os.Directory]>
       (<["calendars/alice" := os.Directory]> exampleStore)).

Lemma request_touches_only_its_path_witness :
  (rootHandler exampleUsers true exampleDetect exampleDirectory
     http.newResponseWriter (PUT "/alice/work.ics" aliceCred "X")
     exampleStore).2 !! "calendars/alice" = Some os.Directory /\
  exampleStore !! "calendars/alice" = None /\
  strings.Split "calendars/alice" "/"%char `prefix_of`
    strings.Split (filePathOf "/alice/work.ics") "/"%char.
Proof.
  assert (Hch : (rootHandler exampleUsers true exampleDetect exampleDirectory
                   http.newResponseWriter (PUT "/alice/work.ics" aliceCred "X")
                   exampleStore).2 !! "calendars/alice"
                <> exampleStore !! "calendars/alice") by discriminate.
  destruct (request_touches_only_its_path exampleUsers true exampleDetect
              exampleDirectory http.newResponseWriter
              (PUT "/alice/work.ics" aliceCred "X") exampleStore
              "calendars/alice" eq_refl Hch) as [Hpre Hnew].
  assert (Hne : "calendars/alice" <> filePathOf "/alice/work.ics")
    by discriminate.
  destruct (Hnew Hne) as [Hfree Hdir].
  split; [exact Hdir|]. split; [exact Hfree | exact Hpre].
Defined.

Lemma request_leaves_other_owners_witness :
  (rootHandler exampleUsers true exampleDetect exampleDirectory
     http.newResponseWriter (PUT (calendarPath "alice" "work") aliceCred "X")
     exampleStore).2 !! "calendars/bob/work.ics"
  = exampleStore !! "calendars/bob/work.ics".
Proof.
  assert (Hne : "bob" <> "alice") by discriminate.
  exact (request_leaves_other_owners exampleUsers true exampleDetect
           exampleDirectory http.newResponseWriter
           (PUT (calendarPath "alice" "work") aliceCred "X") exampleStore
           "alice" "work" "bob" "calendars/bob/work.ics" ["work.ics"]
           eq_refl eq_refl eq_refl Hne eq_refl).
Defined.

Lemma put_success_creates_directory_witness :
  exampleStore !! "calendars/alice" = None /\
  os.Stat (exampleServe (PUT "/alice/work.ics" aliceCred "X") exampleStore).2
    "calendars/alice" = inl os.Directory /\
  os.Stat (exampleServe (PUT "/alice/work.ics" aliceCred "X") exampleStore).2
    "calendars/alice/work.ics" = inl (os.File "X").
Proof.
  destruct (put_success_creates_directory exampleUsers true exampleDetect
              exampleDirectory (PUT "/alice/work.ics" aliceCred "X")
              exampleStore eq_refl eq_refl) as (Hf & Hd & _).
  split; [reflexivity|]. split; [exact Hd | exact Hf].
Defined.

Lemma put_again_succeeds_witness :
  exampleServe (PUT "/alice/work.ics" aliceCred "B")
    (exampleServe (PUT "/alice/work.ics" aliceCred "A") exampleStore).2
  = (http.WriteHeader http.StatusNoContent http.newResponseWriter,
     storeWithWork "B").
Proof.
  destruct (put_again_succeeds exampleUsers true exampleDetect exampleDirectory
              (PUT "/alice/work.ics" aliceCred "A")
              (PUT "/alice/work.ics" aliceCred "B") exampleStore
              eq_refl eq_refl eq_refl eq_refl eq_refl) as [Hagain _].
  exact Hagain.
Defined.

Lemma put_on_directory_fails_witness :
  storeWithNested !! "calendars/alice/a.ics" = Some os.Directory /\
  http.Status (exampleServe (PUT "/alice/a.ics" aliceCred "Y")
                 storeWithNested).1 = Some 500 /\
  (exampleServe (PUT "/alice/a.ics" aliceCred "Y") storeWithNested).2
    !! "calendars/alice/a.ics" = Some os.Directory.
Proof.
  assert (Hl : 2 <= length (pathParts "/alice/a.ics")) by (vm_compute; lia).
  destruct (put_on_directory_fails exampleUsers true exampleDetect
              exampleDirectory (PUT "/alice/a.ics" aliceCred "Y")
              storeWithNested "alice" "s3cr3t"
              eq_refl eq_refl eq_refl eq_refl Hl eq_refl eq_refl)
    as [H500 Hdir].
  split; [reflexivity|]. split; [exact H500 | exact Hdir].
Defined.

Lemma get_directory_redirects_witness :
  http.Status (exampleServe (GET "/alice/a.ics" None) storeWithNested).1
    = Some 301 /\
  http.Header (exampleServe (GET "/alice/a.ics" None) storeWithNested).1
    !! "Location" = Some "a.ics/" /\
  http.Header
    (exampleServe
       {| http.Method := "GET"; http.URLPath := "/alice/a.ics";
          http.RawQuery := "x=1"; http.BasicAuth := None;
          http.Context := ∅; http.Body := "" |} storeWithNested).1
    !! "Location" = Some "a.ics/?x=1".
Proof.
  destruct (get_directory_redirects exampleUsers true exampleDetect
              exampleDirectory (GET "/alice/a.ics" None) storeWithNested
              eq_refl eq_refl eq_refl (fun _ => eq_refl) eq_refl)
    as (H301 & Hloc & _).
  destruct (get_directory_redirects exampleUsers true exampleDetect
              exampleDirectory
              {| http.Method := "GET"; http.URLPath := "/alice/a.ics";
                 http.RawQuery := "x=1"; http.BasicAuth := None;
                 http.Context := ∅; http.Body := "" |} storeWithNested
              eq_refl eq_refl eq_refl (fun _ => eq_refl) eq_refl)
    as (_ & Hquery & _).
  split; [exact H301|]. split; [exact Hloc | exact Hquery].
Defined.

(* ===================================================================== *)
(** ** Start-up: loadUsers and main *)
(* ===================================================================== *)

Module startup.

(** Error values: a [*fs.PathError] of package os, an error made by
    [fmt.Errorf] with the verb [%w] around another error, and an error
    of package encoding/json. *)
Inductive error : Type :=
  | PathError (op path : string) (err : os.errno)
  | WrapError (msg : string) (err : error)
  | JSONError (msg : string).

Definition errnoText (e : os.errno) : string :=
  match e with
  | os.ENOENT => "no such file or directory"
  | os.ENOTDIR => "not a directory"
  | os.EISDIR => "is a directory"
  | os.EEXIST => "file exists"
  | os.ENAMETOOLONG => "file name too long"
  | os.EINVAL => "invalid argument"
  end.

(** [err.Error()]. *)
Definition ErrorText (e : error) : string :=
  match e with
  | PathError op path err => op +:+ " " +:+ path +:+ ": " +:+ errnoText err
  | WrapError msg _ => msg
  | JSONError msg => msg
  end.

(** [os.IsNotExist(err)]. It looks inside the error types of package os
    only ([*PathError] here) and not inside an error that wraps another
    one with [fmt.Errorf]. *)
Definition IsNotExist (e : error) : bool :=
  match e with
  | PathError _ _ os.ENOENT => true
  | _ => false
  end.

(** [os.ReadFile(name)]: open, then read. *)
Definition ReadFile (fs : gmap string os.node) (name : string)
  : string + error :=
  match os.Stat fs name with
  | inr err => inr (PathError "open" name err)
  | inl os.Directory => inr (PathError "read" name os.EISDIR)
  | inl (os.File data) => inl data
  end.

(** [userFile] is the name of the file containing user credentials. *)
Definition userFile : string := "users.json".

Definition quote : string := String "034"%char EmptyString.

(** [json.MarshalIndent] of the default users, with two spaces of
    indentation. *)
Definition defaultData : string :=
  "{" +:+ http.newline +:+
  "  " +:+ quote +:+ "user1" +:+ quote +:+ ": " +:+
           quote +:+ "changeme" +:+ quote +:+ "," +:+ http.newline +:+
  "  " +:+ quote +:+ "user2" +:+ quote +:+ ": " +:+
           quote +:+ "pleasereset" +:+ quote +:+ http.newline +:+
  "}".

(** How the process ends up: stopped by [log.Fatalf], with the file
    system it leaves, or serving requests with [rootHandler] over the
    loaded users. *)
Inductive fatal : Type :=
  | CouldNotWriteDefault
  | DefaultCreated
  | FailedToLoadUsers (err : error)
  | FailedToCreateDataDir.

Inductive outcome : Type :=
  | Fatal (reason : fatal) (fs : gmap string os.node)
  | Serve (users : gmap string string) (fs : gmap string os.node).

Section Startup.

(** [json.Unmarshal] of a document into a [map[string]string] that is
    nil before: the map, or the text of the error. *)
Variable Unmarshal : string -> gmap string string + string.

(** [loadUsers] reads the file and unmarshals its JSON content into the
    [users] map, which it returns here. *)
Definition loadUsers (file : string) (fs : gmap string os.node)
  : gmap string string + error :=
  match ReadFile fs file with
  | inr err =>
      inr (WrapError ("could not read user file '" +:+ file +:+ "': "
                      +:+ ErrorText err) err)
  | inl data =>
      match Unmarshal data with
      | inr msg =>
          inr (WrapError ("could not parse user file '" +:+ file
                          +:+ "' as JSON: " +:+ msg) (JSONError msg))
      | inl users => inl users
      end
  end.

(** [main] up to the call of [http.ListenAndServe]. *)
Definition main (fs : gmap string os.node) : outcome :=
  match loadUsers userFile fs with
  | inr err =>
      if IsNotExist err then
        match os.WriteFile fs userFile defaultData with
        | None => Fatal CouldNotWriteDefault fs
        | Some fs' => Fatal DefaultCreated fs'
        end
      else Fatal (FailedToLoadUsers err) fs
  | inl users =>
      match os.MkdirAll fs dataDir with
      | (fs', Some _) => Fatal FailedToCreateDataDir fs'
      | (fs', None) => Serve users fs'
      end
  end.

(** Every error of [loadUsers] is a wrapped one, for which
    [os.IsNotExist] does not hold. *)
Lemma loadUsers_error_wrapped file fs err :
  loadUsers file fs = inr err -> IsNotExist err = false.
Proof.
  unfold loadUsers. destruct (ReadFile fs file) as [data|e].
  - destruct (Unmarshal data); intros H; inversion H; reflexivity.
  - intros H; inversion H; reflexivity.
Qed.

(** [Stat] of the two names [main] uses. *)
Lemma Stat_userFile fs :
  os.Stat fs userFile =
  match fs !! userFile with
  | Some n => inl n
  | None => inr os.ENOENT
  end.
Proof.
  apply StoreFacts.Stat_single; [reflexivity.. | discriminate].
Qed.

Lemma Stat_dataDir fs :
  os.Stat fs dataDir =
  match fs !! dataDir with
  | Some n => inl n
  | None => inr os.ENOENT
  end.
Proof.
  apply StoreFacts.Stat_single; [reflexivity.. | discriminate].
Qed.

(** [MkdirAll] of the data directory fails only on a file of that name,
    and then changes nothing. *)
Lemma MkdirAll_dataDir fs :
  os.MkdirAll fs dataDir =
  match fs !! dataDir with
  | Some os.Directory => (fs, None)
  | Some (os.File _) => (fs, Some os.ENOTDIR)
  | None => (<[dataDir := os.Directory]> fs, None)
  end.
Proof.
  unfold os.MkdirAll.
  change (rev (strings.Split dataDir filepath.Separator)) with [dataDir].
  cbn [os.mkdirAll rev app].
  change (strings.Join [dataDir] "/") with dataDir.
  rewrite Stat_dataDir.
  destruct (fs !! dataDir) as [[data|]|] eqn:Hd; try reflexivity.
  unfold os.Mkdir, os.resolve.
  change (os.nameError dataDir) with (@None os.errno).
  change (rev (strings.Split dataDir filepath.Separator)) with [dataDir].
  cbn [os.walk].
  change (os.NAME_MAX <? String.length dataDir)%nat with false.
  cbv iota. unfold os.entry. rewrite decide_False.
  - now rewrite Hd.
  - intros [E | [E | E]]; discriminate.
Qed.

(** [main] never writes the user file: the branch that stores default
    credentials is not reachable, because the error of [loadUsers] for a
    missing file is a wrapped one. When the user file is missing, [main]
    stops with "Failed to load users" and leaves the file system as it
    is; in general it either stops with the file system unchanged or
    serves after creating the data directory. *)
Theorem main_never_writes_user_file (fs : gmap string os.node) :
  (os.Stat fs userFile = inr os.ENOENT ->
   main fs =
     Fatal (FailedToLoadUsers
              (WrapError
                 ("could not read user file 'users.json': "
                  +:+ "open users.json: no such file or directory")
                 (PathError "open" userFile os.ENOENT))) fs) /\
  (forall reason fs', main fs = Fatal reason fs' ->
     fs' = fs /\ reason <> DefaultCreated /\ reason <> CouldNotWriteDefault) /\
  (forall users fs', main fs = Serve users fs' ->
     os.MkdirAll fs dataDir = (fs', None) /\
     fs' !! userFile = fs !! userFile).
Proof.
  split; [|split].
  - intros Hst. unfold main, loadUsers, ReadFile. rewrite Hst. reflexivity.
  - intros reason fs'. unfold main.
    destruct (loadUsers userFile fs) as [users|err] eqn:Hload.
    + rewrite MkdirAll_dataDir.
      destruct (fs !! dataDir) as [[data|]|]; intros H; inversion H.
      repeat split; discriminate.
    + rewrite (loadUsers_error_wrapped _ _ _ Hload).
      intros H; inversion H. repeat split; discriminate.
  - intros users fs'. unfold main.
    destruct (loadUsers userFile fs) as [users'|err] eqn:Hload.
    + destruct (os.MkdirAll fs dataDir) as [fs1 [e1|]] eqn:Hm;
        intros H; inversion H; subst.
      split; [reflexivity|].
      rewrite MkdirAll_dataDir in Hm.
      destruct (fs !! dataDir) as [[data|]|]; inversion Hm; try reflexivity.
      now rewrite lookup_insert_ne by discriminate.
    + rewrite (loadUsers_error_wrapped _ _ _ Hload). discriminate.
Qed.

(** [main] gets to serve exactly when the user file is a file whose
    content parses and the data directory can be ensured; it then serves
    the parsed users, the data directory is a directory, and every node
    that existed is kept. *)
Theorem main_serves_iff (fs fs' : gmap string os.node)
    (users : gmap string string) :
  (main fs = Serve users fs' <->
     (exists data,
        os.Stat fs userFile = inl (os.File data) /\
        Unmarshal data = inl users) /\
     os.MkdirAll fs dataDir = (fs', None)) /\
  (main fs = Serve users fs' ->
     os.Stat fs' dataDir = inl os.Directory /\
     (forall k node, fs !! k = Some node -> fs' !! k = Some node) /\
     (forall k, k <> dataDir -> fs' !! k = fs !! k)).
Proof.
  assert (Hiff : main fs = Serve users fs' <->
     (exists data,
        os.Stat fs userFile = inl (os.File data) /\
        Unmarshal data = inl users) /\
     os.MkdirAll fs dataDir = (fs', None)).
  { unfold main, loadUsers, ReadFile. split.
    - destruct (os.Stat fs userFile) as [[data|]|e0] eqn:Hst;
        try (simpl; discriminate).
      destruct (Unmarshal data) as [m|msg] eqn:Hu; [|simpl; discriminate].
      destruct (os.MkdirAll fs dataDir) as [fs1 [e1|]]; [discriminate|].
      intros H; inversion H; subst. eauto.
    - intros [(data & Hst & Hu) Hm]. now rewrite Hst, Hu, Hm. }
  split; [exact Hiff|].
  intros H. apply Hiff in H as [_ Hm].
  split; [exact (StoreFacts.MkdirAll_directory _ _ _ Hm)|].
  split; [intros k node; exact (StoreFacts.MkdirAll_keeps _ _ _ _ _ _ Hm)|].
  intros k Hk. rewrite MkdirAll_dataDir in Hm.
  destruct (fs !! dataDir) as [[data|]|]; inversion Hm; try reflexivity.
  now rewrite lookup_insert_ne by congruence.
Qed.

End Startup.

End startup.

(** A parser for the concrete runs: it accepts one document. *)
Definition exampleUnmarshal (data : string) : gmap string string + string :=
  if String.eqb data "{}" then inl ∅ else inr "invalid character".

Lemma main_never_writes_user_file_witness :
  os.Stat exampleStore startup.userFile = inr os.ENOENT /\
  startup.main exampleUnmarshal exampleStore =
    startup.Fatal
      (startup.FailedToLoadUsers
         (startup.WrapError
            "could not read user file 'users.json': open users.json: no such file or directory"
            (startup.PathError "open" "users.json" os.ENOENT)))
      exampleStore.
Proof.
  split; [reflexivity|].
  destruct (startup.main_never_writes_user_file exampleUnmarshal exampleStore)
    as [Hmissing _].
  exact (Hmissing eq_refl).
Defined.

Lemma main_serves_iff_witness :
  startup.main exampleUnmarshal {[ "users.json" := os.File "{}" ]} =
  startup.Serve ∅
    (<[dataDir := os.Directory]> {[ "users.json" := os.File "{}" ]}).
Proof.
  destruct (startup.main_serves_iff exampleUnmarshal
              {[ "users.json" := os.File "{}" ]}
              (<[dataDir := os.Directory]> {[ "users.json" := os.File "{}" ]})
              ∅) as [Hiff _].
  apply Hiff. split; [|reflexivity].
  exists "{}". split; reflexivity.
Defined.

Section TraversalProps.

Variable users : gmap string string.
Variable validatesNames : bool.
Variable detectContentType : string -> string -> string.
Variable serveDirectory :
  gmap string os.node -> string -> string -> http.ResponseWriter ->
  http.ResponseWriter.

Local Abbreviation serve' := (serve users validatesNames detectContentType serveDirectory).

(** A GET whose path has a [..] element is never served any content:
    it is answered 404 when the path does not end in [.ics] or
    [os.Stat] reports that its location does not exist, and 400
    "invalid URL path" otherwise, whether the location is a file, a
    directory, or cannot be looked at for another reason. *)
Theorem get_dotdot_never_served (r : http.Request)
    (fs : gmap string os.node) :
  http.Method r = http.MethodGet ->
  http.containsDotDot (http.URLPath r) = true ->
  (strings.HasSuffix (http.URLPath r) ".ics" = false \/
   os.Stat fs (filePathOf (http.URLPath r)) = inr os.ENOENT ->
   http.Status (serve' r fs).1 = Some http.StatusNotFound) /\
  (strings.HasSuffix (http.URLPath r) ".ics" = true ->
   os.Stat fs (filePathOf (http.URLPath r)) <> inr os.ENOENT ->
   http.Status (serve' r fs).1 = Some http.StatusBadRequest /\
   http.Written (serve' r fs).1 = "invalid URL path" +:+ http.newline) /\
  http.Status (serve' r fs).1 <> Some http.StatusOK.
Proof.
  intros M Hdd.
  destruct (get_outcome users validatesNames detectContentType serveDirectory r fs M)
    as (resp & -> & Hout).
  simpl fst.
  destruct Hout as [Hs|Hs Hst|Hs Hst Hd|err Hs Hst Hd Hopen|Hs Hst Hd
                    |content Hs Hst Hd];
    try congruence.
  - split; [reflexivity|]. split; [congruence | discriminate].
  - split; [reflexivity|]. split; [congruence | discriminate].
  - split; [intros [?|?]; congruence|].
    split; [split; reflexivity | discriminate].
Qed.

End TraversalProps.

(** The storage location of /bob/../alice/work.ics/x.ics lies below
    alice's calendar, a regular file: [os.Stat] fails with ENOTDIR, and
    the request is refused for its [..] element. *)
Lemma get_dotdot_never_served_witness :
  os.Stat (storeWithWork "A") (filePathOf "/bob/../alice/work.ics")
    = inl (os.File "A") /\
  http.Status
    (exampleServe (GET "/bob/../alice/work.ics" None) (storeWithWork "A")).1
    = Some 400 /\
  os.Stat (storeWithWork "A") (filePathOf "/bob/../alice/work.ics/x.ics")
    = inr os.ENOTDIR /\
  http.Status
    (exampleServe (GET "/bob/../alice/work.ics/x.ics" None)
       (storeWithWork "A")).1 = Some 400.
Proof.
  destruct (get_dotdot_never_served exampleUsers true exampleDetect
              exampleDirectory (GET "/bob/../alice/work.ics" None)
              (storeWithWork "A") eq_refl eq_refl) as (_ & H400 & _).
  destruct (get_dotdot_never_served exampleUsers true exampleDetect
              exampleDirectory (GET "/bob/../alice/work.ics/x.ics" None)
              (storeWithWork "A") eq_refl eq_refl) as (_ & H400' & _).
  assert (Hst : os.Stat (storeWithWork "A")
                  (filePathOf "/bob/../alice/work.ics") <> inr os.ENOENT)
    by discriminate.
  assert (Hst' : os.Stat (storeWithWork "A")
                   (filePathOf "/bob/../alice/work.ics/x.ics")
                 <> inr os.ENOENT)
    by discriminate.
  split; [reflexivity|]. split; [exact (proj1 (H400 eq_refl Hst))|].
  split; [reflexivity|]. exact (proj1 (H400' eq_refl Hst')).
Defined.

Section ServedNameProps.

Variable users : gmap string string.
Variable validatesNames : bool.
Variable detectContentType : string -> string -> string.
Variable serveDirectory :
  gmap string os.node -> string -> string -> http.ResponseWriter ->
  http.ResponseWriter.

Local Abbreviation serve' := (serve users validatesNames detectContentType serveDirectory).

(** With a file server that validates names (Go 1.23 and later), a
    document whose file name is not valid UTF-8 can be stored but not
    read: a GET of a path without [..] element whose storage location
    exists, file or directory, under such a name is answered 500 by the
    file server, and nothing is changed. *)
Theorem get_invalid_name_refused (r : http.Request)
    (fs : gmap string os.node) (node : os.node) :
  http.Method r = http.MethodGet ->
  strings.HasSuffix (http.URLPath r) ".ics" = true ->
  http.containsDotDot (http.URLPath r) = false ->
  os.Stat fs (filePathOf (http.URLPath r)) = inl node ->
  validatesNames = true ->
  utf8.ValidString (servedName (http.URLPath r)) = false ->
  http.Status (serve' r fs).1 = Some http.StatusInternalServerError /\
  http.Written (serve' r fs).1 = "500 Internal Server Error" +:+ http.newline /\
  (serve' r fs).2 = fs.
Proof.
  intros M Hs Hdd Hst Hval Hutf.
  assert (Hopen : http.DirOpen validatesNames fs (filePathOf (http.URLPath r))
                  = inr http.ErrInvalidPath).
  { unfold http.DirOpen.
    rewrite Location.Localize_proper;
      [| now apply Location.fileName_filePathOf
       | exact (StoreFacts.Stat_no_NUL _ _ _ Hst)].
    unfold servedName in Hutf. now rewrite Hval, Hutf. }
  destruct (get_outcome users validatesNames detectContentType serveDirectory r fs M)
    as (resp & -> & Hout).
  simpl fst; simpl snd.
  destruct Hout as [| | |err ? ? ? Hopen'| |]; try congruence.
  assert (err = http.ErrInvalidPath) by congruence. subst err.
  repeat split; reflexivity.
Qed.

End ServedNameProps.

Lemma get_invalid_name_refused_witness :
  utf8.ValidString (servedName ResolutionTests.oddPath) = false /\
  http.Status
    (exampleServe (PUT ResolutionTests.oddPath aliceCred "X") exampleStore).1
    = Some 204 /\
  http.Status
    (exampleServe (GET ResolutionTests.oddPath None)
       (exampleServe (PUT ResolutionTests.oddPath aliceCred "X")
          exampleStore).2).1 = Some 500.
Proof.
  destruct (get_invalid_name_refused exampleUsers true exampleDetect
              exampleDirectory (GET ResolutionTests.oddPath None)
              (exampleServe (PUT ResolutionTests.oddPath aliceCred "X")
                 exampleStore).2
              (os.File "X") eq_refl eq_refl eq_refl eq_refl eq_refl eq_refl)
    as (H500 & _).
  split; [reflexivity|]. split; [reflexivity | exact H500].
Defined.
